(** * GST-based business assessment: a shallow embedding of [streamlit_app.py]

    The development follows the three classes of the program:
    [GSTDataAnalyzer] (file parsing, monthly analysis, aggregate metrics),
    [BusinessEligibilityEngine] (scheme rules) and [LoanAssessmentEngine]
    (credit score and loan terms), and then the page handler [main] that
    drives them (sorting the uploads, the loop over the months, the figures
    and lists it displays).

    Conventions of the embedding.
    - Python [float]/[int] amounts are exact rationals ([Q]); counters and the
      integer scores are [Z].  Equality of amounts is [Qeq] ([==]).  Rounding
      of binary floating point is outside the model.
    - A Python exception is a value of type [exn]; a function that can raise
      returns [exn + A] ([inl] raises, [inr] returns).
    - [business_data] is a [gmap string string] (the dict built by the form);
      [gst_metrics] is [option BusinessMetrics]: [None] is the empty dict
      [{}] that [calculate_aggregate_metrics] returns for no data, [Some m] the
      full dict, and every [gst_metrics.get(key, default)] is a getter with
      that default.
    - Library calls whose behaviour is not part of the program
      ([pd.read_csv], [pd.read_excel], [pd.to_datetime], the case mapping
      [str.lower()]) and the clock ([datetime.now()]) are Variables of a
      Section or parameters: the theorems hold whatever they return.
    - A Python string is the [string] of its UTF-8 bytes.  [lower] is the
      case mapping of ASCII text and stands for [str.lower()] in the worked
      inputs only; [strip] removes the ASCII whitespace, which is all that
      [str.strip()] removes from ASCII text.
    - A table is a list of named columns; [df[name]] is modelled for names
      that one column carries (for a name carried by several, pandas returns
      a table). *)

From Stdlib Require Import ZArith QArith Qminmax Qpower Lqa Lia List Bool Ascii String.
From stdpp Require Import base option strings list gmap fin_maps pretty.

Import ListNotations.
Local Open Scope string_scope.
Local Open Scope Z_scope.
Local Open Scope Q_scope.

(** ** Python values *)

(** Exceptions the modelled code can raise. *)
Inductive exn : Type :=
  | KeyError (key : string)
  | TypeError
  | ParserError.

(** [try: body except: handler] for a body that yields a value. *)
Definition try_except {A : Type} (body : exn + A) (handler : A) : A :=
  match body with
  | inr a => a
  | inl _ => handler
  end.

(** Sequencing of computations that can raise: the first exception wins. *)
#[global] Instance raise_bind : MBind (sum exn) := fun A B k m =>
  match m with
  | inl e => inl e
  | inr a => k a
  end.
#[global] Instance raise_ret : MRet (sum exn) := fun A a => inr a.

(** Comparisons of amounts as booleans. *)
Definition Qltb (x y : Q) : bool := negb (Qle_bool y x).
Definition Qgtb (x y : Q) : bool := Qltb y x.

(** Python's [min(a, b)] and [max(a, b)] return the first argument on a tie. *)
Definition py_min (a b : Q) : Q := if Qltb b a then b else a.
Definition py_max (a b : Q) : Q := if Qgtb b a then b else a.

(** [sum(xs)]: left to right from [0]. *)
Definition py_sum (xs : list Q) : Q := fold_left Qplus xs 0.
Definition py_sum_int (xs : list Z) : Z := fold_left Z.add xs 0%Z.

(** A scalar held by a table cell or a list: a number or text. *)
Inductive pyval : Type :=
  | PNum (q : Q)
  | PStr (s : string).

(** [a == b] on scalars: numbers compare by value ([18 == 18.0]). *)
Definition pyval_eqb (a b : pyval) : bool :=
  match a, b with
  | PNum x, PNum y => Qeq_bool x y
  | PStr s, PStr t => bool_decide (s = t)
  | _, _ => false
  end.

(** [x in xs] for a list. *)
Definition py_in (x : pyval) (xs : list pyval) : bool := existsb (pyval_eqb x) xs.

(** [set(xs)] followed by iteration: one representative per value.  The
    iteration order of a Python set is unspecified; the model keeps first
    occurrences. *)
Fixpoint py_set (xs : list pyval) : list pyval :=
  match xs with
  | [] => []
  | x :: r => x :: filter (fun y => negb (pyval_eqb x y)) (py_set r)
  end.

(** ** Strings *)

Definition lower_ascii (c : ascii) : ascii :=
  let n := nat_of_ascii c in
  if (65 <=? n)%nat && (n <=? 90)%nat then ascii_of_nat (n + 32) else c.

(** [s.lower()] on ASCII text; bytes outside [A-Z] are unchanged.  It is the
    case mapping of the worked inputs; the program's functions take the
    case mapping as a parameter. *)
Fixpoint lower (s : string) : string :=
  match s with
  | EmptyString => EmptyString
  | String c r => String (lower_ascii c) (lower r)
  end.

(** [s.startswith(p)]. *)
Fixpoint startswith (s p : string) : bool :=
  match p, s with
  | EmptyString, _ => true
  | String a p', String b s' => bool_decide (a = b) && startswith s' p'
  | String _ _, EmptyString => false
  end.

(** [sub in s] for strings: [sub] occurs in [s] as a contiguous run. *)
Fixpoint str_in (sub s : string) : bool :=
  startswith s sub ||
  match s with
  | EmptyString => false
  | String _ r => str_in sub r
  end.

(** Whitespace removed by [str.strip()] from ASCII text. *)
Definition is_py_space (c : ascii) : bool :=
  let n := nat_of_ascii c in
  ((9 <=? n)%nat && (n <=? 13)%nat) || ((28 <=? n)%nat && (n <=? 32)%nat).

Fixpoint lstrip (s : string) : string :=
  match s with
  | EmptyString => EmptyString
  | String c r => if is_py_space c then lstrip r else s
  end.

(** [rstrip]: a character is kept when it is not a space or when something
    is kept after it. *)
Fixpoint rstrip (s : string) : string :=
  match s with
  | EmptyString => EmptyString
  | String c r =>
      match rstrip r with
      | EmptyString => if is_py_space c then EmptyString else String c EmptyString
      | r' => String c r'
      end
  end.

Definition strip (s : string) : string := rstrip (lstrip s).

(** ** Tables ([pd.DataFrame]) *)

(** A cell: [None] is a missing value (NaN). *)
Definition cell : Type := option pyval.

(** A table: the length of its index and its named columns in order.
    Looking a name up finds the first column with it. *)
Record DataFrame : Type := mkDataFrame {
  index_len : nat;
  df_columns : list (string * list cell)
}.

(** [pd.DataFrame()] *)
Definition empty_frame : DataFrame := mkDataFrame 0 [].

(** [df.columns] *)
Definition columns (df : DataFrame) : list string := map fst (df_columns df).

(** [df.empty]: some axis has length 0. *)
Definition df_empty (df : DataFrame) : bool :=
  (index_len df =? 0)%nat || (length (df_columns df) =? 0)%nat.

(** [len(df)] *)
Definition df_len (df : DataFrame) : Z := Z.of_nat (index_len df).

(** [name in df.columns] *)
Definition has_column (name : string) (df : DataFrame) : bool :=
  bool_decide (name ∈ columns df).

Fixpoint find_column (name : string) (cs : list (string * list cell)) : option (list cell) :=
  match cs with
  | [] => None
  | (n, c) :: r => if bool_decide (n = name) then Some c else find_column name r
  end.

(** [df[name]]: raises [KeyError] when there is no such column; the column
    of that name, for a name that one column carries. *)
Definition getitem (df : DataFrame) (name : string) : exn + list cell :=
  match find_column name (df_columns df) with
  | Some c => inr c
  | None => inl (KeyError name)
  end.

(** [series.fillna(0)] *)
Definition fillna0 (s : list cell) : list cell :=
  map (fun c => match c with None => Some (PNum 0) | Some v => Some v end) s.

(** [series.sum()] of a numeric column: missing values are skipped.  Adding
    text to a number is a [TypeError]. *)
Fixpoint series_sum (s : list cell) : exn + Q :=
  match s with
  | [] => inr 0
  | None :: r => series_sum r
  | Some (PNum q) :: r => t ← series_sum r; mret (q + t)
  | Some (PStr _) :: r => inl TypeError
  end.

(** [a * b / 100] element by element; a missing operand gives a missing
    result, text is a [TypeError]. *)
Fixpoint series_mul_div100 (a b : list cell) : exn + list cell :=
  match a, b with
  | x :: a', y :: b' =>
      match x, y with
      | Some (PStr _), _ | _, Some (PStr _) => inl TypeError
      | Some (PNum p), Some (PNum q) =>
          r ← series_mul_div100 a' b'; mret (Some (PNum (p * q / 100)) :: r)
      | _, _ => r ← series_mul_div100 a' b'; mret (None :: r)
      end
  | _, _ => inr []
  end.

(** [series.dropna()] *)
Definition dropna (s : list cell) : list pyval := omap id s.

(** [series.unique()]: distinct values in order of first appearance. *)
Definition unique (s : list pyval) : list pyval := py_set s.

(** [series.nunique()]: the number of distinct values, missing excluded. *)
Definition nunique (s : list cell) : Z := Z.of_nat (length (unique (dropna s))).

(** ** Records of the pipeline *)

(** The dict built by [analyze_monthly_data], one per reporting month. *)
Module Month.
Record MonthlySummary : Type := mk {
  month : string;
  b2b_transactions : Z;
  b2c_transactions : Z;
  purchase_transactions : Z;
  b2b_sales : Q;
  b2c_sales : Q;
  total_sales : Q;
  total_purchases : Q;
  gst_collected : Q;
  gst_paid : Q;
  tax_rates_used : list pyval;
  interstate_sales : Q;
  intrastate_sales : Q;
  unique_customers : Z
}.

(** [analysis[key] = v] for the keys the analysis assigns. *)
Definition set_b2b_sales (a : MonthlySummary) (v : Q) : MonthlySummary :=
  mk (month a) (b2b_transactions a) (b2c_transactions a) (purchase_transactions a)
     v (b2c_sales a) (total_sales a) (total_purchases a) (gst_collected a)
     (gst_paid a) (tax_rates_used a) (interstate_sales a) (intrastate_sales a)
     (unique_customers a).
Definition set_b2c_sales (a : MonthlySummary) (v : Q) : MonthlySummary :=
  mk (month a) (b2b_transactions a) (b2c_transactions a) (purchase_transactions a)
     (b2b_sales a) v (total_sales a) (total_purchases a) (gst_collected a)
     (gst_paid a) (tax_rates_used a) (interstate_sales a) (intrastate_sales a)
     (unique_customers a).
Definition set_total_sales (a : MonthlySummary) (v : Q) : MonthlySummary :=
  mk (month a) (b2b_transactions a) (b2c_transactions a) (purchase_transactions a)
     (b2b_sales a) (b2c_sales a) v (total_purchases a) (gst_collected a)
     (gst_paid a) (tax_rates_used a) (interstate_sales a) (intrastate_sales a)
     (unique_customers a).
Definition set_total_purchases (a : MonthlySummary) (v : Q) : MonthlySummary :=
  mk (month a) (b2b_transactions a) (b2c_transactions a) (purchase_transactions a)
     (b2b_sales a) (b2c_sales a) (total_sales a) v (gst_collected a)
     (gst_paid a) (tax_rates_used a) (interstate_sales a) (intrastate_sales a)
     (unique_customers a).
Definition set_gst_collected (a : MonthlySummary) (v : Q) : MonthlySummary :=
  mk (month a) (b2b_transactions a) (b2c_transactions a) (purchase_transactions a)
     (b2b_sales a) (b2c_sales a) (total_sales a) (total_purchases a) v
     (gst_paid a) (tax_rates_used a) (interstate_sales a) (intrastate_sales a)
     (unique_customers a).
Definition set_tax_rates_used (a : MonthlySummary) (v : list pyval) : MonthlySummary :=
  mk (month a) (b2b_transactions a) (b2c_transactions a) (purchase_transactions a)
     (b2b_sales a) (b2c_sales a) (total_sales a) (total_purchases a) (gst_collected a)
     (gst_paid a) v (interstate_sales a) (intrastate_sales a)
     (unique_customers a).
Definition set_unique_customers (a : MonthlySummary) (v : Z) : MonthlySummary :=
  mk (month a) (b2b_transactions a) (b2c_transactions a) (purchase_transactions a)
     (b2b_sales a) (b2c_sales a) (total_sales a) (total_purchases a) (gst_collected a)
     (gst_paid a) (tax_rates_used a) (interstate_sales a) (intrastate_sales a) v.
End Month.

(** The dict returned by [calculate_aggregate_metrics] for at least one month. *)
Module Metrics.
Record BusinessMetrics : Type := mk {
  annual_turnover : Q;
  total_sales : Q;
  total_purchases : Q;
  avg_monthly_sales : Q;
  total_gst_collected : Q;
  b2b_percentage : Q;
  b2c_percentage : Q;
  filing_frequency : Z;
  avg_transactions_per_month : Q;
  uses_standard_rates : bool;
  profit_margin_estimate : Q;
  gst_compliance_score : Z
}.
End Metrics.

(** Messages shown by [st.error] and [st.warning]; the text of the caught
    exception is kept as the exception itself. *)
Inductive diagnostic : Type :=
  | StError (prefix : string) (e : exn)
  | StWarning (prefix : string) (e : exn).

(** ** GSTDataAnalyzer *)

Section GSTDataAnalyzer.

(** [pd.read_csv(io.StringIO(content))] and
    [pd.read_excel(io.BytesIO(content.encode('latin1')))]. *)
Variable read_csv : string -> exn + DataFrame.
Variable read_excel : string -> exn + DataFrame.

(** [df.columns = df.columns.str.strip()] *)
Definition strip_columns (df : DataFrame) : DataFrame :=
  mkDataFrame (index_len df)
              (map (fun nc => (strip (fst nc), snd nc)) (df_columns df)).

(** A parser returns its table and what it reported on the page. *)
Definition parse_b2b_file (file_content : string) : DataFrame * list diagnostic :=
  match (df ← read_csv file_content;
         (* Clean column names *)
         let df := strip_columns df in
         mret df) with
  | inr df => (df, [])
  | inl e => (empty_frame, [StError "Error parsing B2B file: " e])
  end.

Definition parse_b2c_file (file_content : string) : DataFrame * list diagnostic :=
  match (df ← read_csv file_content;
         (* Clean column names *)
         let df := strip_columns df in
         mret df) with
  | inr df => (df, [])
  | inl e => (empty_frame, [StError "Error parsing B2C file: " e])
  end.

Definition parse_purchase_file (file_content : string) : DataFrame * list diagnostic :=
  match (df ← (* Handle both CSV and Excel files *)
              (if startswith file_content "GSTIN"
               then read_csv file_content
               else read_excel file_content);
         mret df) with
  | inr df => (df, [])
  | inl e => (empty_frame, [StWarning "Could not parse purchase file: " e])
  end.

End GSTDataAnalyzer.

(** [analysis['tax_rates_used'].extend(series.dropna().unique())] *)
Definition extend_rates (a : Month.MonthlySummary) (s : list cell) : Month.MonthlySummary :=
  Month.set_tax_rates_used a (Month.tax_rates_used a ++ unique (dropna s)).

(** [(df[x].fillna(0) * df[y].fillna(0) / 100).sum()] *)
Definition gst_from (df : DataFrame) (x y : string) : exn + Q :=
  a ← getitem df x;
  b ← getitem df y;
  p ← series_mul_div100 (fillna0 a) (fillna0 b);
  series_sum p.

(** [df[x].fillna(0).sum()] *)
Definition column_total (df : DataFrame) (x : string) : exn + Q :=
  a ← getitem df x;
  series_sum (fillna0 a).

(** Analyze GST data for a single month. *)
Definition analyze_monthly_data (month_name : string)
    (b2b_df b2c_df purchase_df : DataFrame) : exn + Month.MonthlySummary :=
  let analysis :=
    Month.mk month_name (df_len b2b_df) (df_len b2c_df) (df_len purchase_df)
             0 0 0 0 0 0 [] 0 0 0%Z in
  (* Analyze B2B sales *)
  analysis ←
    (if negb (df_empty b2b_df) then
       b2b_sales ← column_total b2b_df "Invoice Value";
       let analysis := Month.set_b2b_sales analysis b2b_sales in
       (* GST collected from B2B *)
       analysis ←
         (if has_column "Taxable Value" b2b_df && has_column "Rate" b2b_df then
            gst_from_b2b ← gst_from b2b_df "Taxable Value" "Rate";
            mret (Month.set_gst_collected analysis
                    (Month.gst_collected analysis + gst_from_b2b))
          else mret analysis);
       (* Unique customers *)
       analysis ←
         (if has_column "GSTIN/UIN of Recipient" b2b_df then
            c ← getitem b2b_df "GSTIN/UIN of Recipient";
            mret (Month.set_unique_customers analysis (nunique c))
          else mret analysis);
       (* Tax rates used *)
       (if has_column "Rate" b2b_df then
          rates ← getitem b2b_df "Rate";
          mret (extend_rates analysis rates)
        else mret analysis)
     else mret analysis);
  (* Analyze B2C sales *)
  analysis ←
    (if negb (df_empty b2c_df) then
       b2c_sales ← column_total b2c_df "Taxable Value";
       let analysis := Month.set_b2c_sales analysis b2c_sales in
       (* GST collected from B2C *)
       (if has_column "Rate" b2c_df then
          gst_from_b2c ← gst_from b2c_df "Taxable Value" "Rate";
          let analysis := Month.set_gst_collected analysis
                            (Month.gst_collected analysis + gst_from_b2c) in
          (* Tax rates used *)
          rates ← getitem b2c_df "Rate";
          mret (extend_rates analysis rates)
        else mret analysis)
     else mret analysis);
  (* Total sales *)
  let analysis := Month.set_total_sales analysis
                    (Month.b2b_sales analysis + Month.b2c_sales analysis) in
  (* Remove duplicates from tax rates *)
  let analysis := Month.set_tax_rates_used analysis
                    (py_set (Month.tax_rates_used analysis)) in
  (* Analyze purchases (if available) *)
  analysis ←
    (if negb (df_empty purchase_df) then
       if has_column "Taxable Value" purchase_df then
         t ← column_total purchase_df "Taxable Value";
         mret (Month.set_total_purchases analysis t)
       else if has_column "Invoice Value" purchase_df then
         t ← column_total purchase_df "Invoice Value";
         mret (Month.set_total_purchases analysis t)
       else mret analysis
     else mret analysis);
  mret analysis.

Definition standard_rates : list pyval := [PNum 0; PNum 5; PNum 12; PNum 18; PNum 28].

(** Calculate aggregate business metrics from monthly data.  [None] is the
    empty dict returned for an empty list. *)
Definition calculate_aggregate_metrics (monthly_analyses : list Month.MonthlySummary)
    : option Metrics.BusinessMetrics :=
  match monthly_analyses with
  | [] => None
  | _ =>
    let len := inject_Z (Z.of_nat (length monthly_analyses)) in
    (* Sum up all monthly data *)
    let total_sales := py_sum (map Month.total_sales monthly_analyses) in
    let total_purchases := py_sum (map Month.total_purchases monthly_analyses) in
    let total_gst_collected := py_sum (map Month.gst_collected monthly_analyses) in
    let avg_monthly_sales := total_sales / len in
    (* Estimate annual figures *)
    let months_of_data := len in
    let annual_turnover := (total_sales / months_of_data) * 12 in
    (* Calculate ratios *)
    let b2b_total := py_sum (map Month.b2b_sales monthly_analyses) in
    let b2c_total := py_sum (map Month.b2c_sales monthly_analyses) in
    let b2b_percentage :=
      if Qgtb total_sales 0 then b2b_total / total_sales * 100 else 0 in
    (* Business patterns *)
    let avg_transactions_per_month :=
      inject_Z (py_sum_int (map (fun m => (Month.b2b_transactions m
                                           + Month.b2c_transactions m)%Z)
                                monthly_analyses)) / len in
    (* Compliance indicators *)
    let filing_frequency := Z.of_nat (length monthly_analyses) in
    (* Tax compliance - check if using standard GST rates *)
    let all_rates := concat (map Month.tax_rates_used monthly_analyses) in
    let uses_standard_rates :=
      forallb (fun rate => py_in rate standard_rates) (py_set all_rates) in
    Some (Metrics.mk
      annual_turnover
      total_sales
      total_purchases
      avg_monthly_sales
      total_gst_collected
      b2b_percentage
      (100 - b2b_percentage)
      filing_frequency
      avg_transactions_per_month
      uses_standard_rates
      (if Qgtb total_sales 0
       then py_max 5 (py_min 25 ((total_sales - total_purchases) / total_sales * 100))
       else 10)
      (Z.min 100 (filing_frequency * 15 + (if uses_standard_rates then 50 else 0))))
  end.

(** ** Dates *)

(** What [pd.to_datetime] can return: a point in time (nanoseconds since the
    epoch, without time zone), the missing date [NaT], or [None] when it is
    given [None]. *)
Inductive datetime_val : Type :=
  | Timestamp (ns : Z)
  | NaT
  | PyNone.

Definition ns_per_day : Z := 86400 * 1000000000.

(** [a >= b] on two results of [pd.to_datetime]: comparing with [NaT] is
    false, ordering [None] against a timestamp is a [TypeError]. *)
Definition datetime_ge (a b : datetime_val) : exn + bool :=
  match a, b with
  | Timestamp x, Timestamp y => inr (x >=? y)%Z
  | PyNone, _ | _, PyNone => inl TypeError
  | NaT, _ | _, NaT => inr false
  end.

(** [(now - d).days / 365.25]: whole days elapsed (rounded down) over the
    length of a year; [None] is NaN (from [NaT]); subtracting [None] is a
    [TypeError]. *)
Definition years_since (now : Z) (d : datetime_val) : exn + option Q :=
  match d with
  | Timestamp t => inr (Some (inject_Z ((now - t) / ns_per_day) / (36525 # 100)))
  | NaT => inr None
  | PyNone => inl TypeError
  end.

(** [x > c] for a float that may be NaN: false on NaN. *)
Definition nan_gtb (x : option Q) (c : Q) : bool :=
  match x with
  | Some q => Qgtb q c
  | None => false
  end.

(** ** BusinessEligibilityEngine *)

Record SchemeInfo : Type := mkScheme { name : string; url : string }.

(** [self.schemes] *)
Definition schemes : gmap string SchemeInfo :=
  list_to_map [
    ("advance_authorisation",
       mkScheme "Advance Authorisation Scheme (Export Incentive)"
                "https://www.dgft.gov.in/advance-authorisation");
    ("epcg",
       mkScheme "Export Promotion Capital Goods (EPCG) Scheme"
                "https://www.dgft.gov.in/epcg");
    ("startup_tax_benefits",
       mkScheme "Startup Tax Benefits" "https://startupindia.gov.in/");
    ("pmmy_loans",
       mkScheme "MSME Loans under PMMY" "https://www.mudra.org.in/");
    ("nsic_support",
       mkScheme "NSIC Marketing & Credit Support" "https://www.nsic.co.in/");
    ("digital_lending",
       mkScheme "Digital Lending Using GST Data"
                "Partner with NBFCs or Fintech platforms");
    ("gem_platform",
       mkScheme "Government e-Marketplace (GeM)" "https://gem.gov.in/");
    ("income_tax_deduction",
       mkScheme "Income Tax Profit Deduction for Startups"
                "Claim deduction in Income Tax Return (ITR) filing");
    ("gst_composition",
       mkScheme "GST Composition Scheme"
                "Opt-in via GST portal during registration or return filing")
  ].

Record EligibilityVerdict : Type := mkVerdict {
  eligible : bool;
  reason : string;
  scheme_name : string;
  verdict_url : string
}.

(** [self.schemes[key]]: a [KeyError] for a key outside the catalog. *)
Definition schemes_getitem (key : string) : exn + SchemeInfo :=
  match schemes !! key with
  | Some i => inr i
  | None => inl (KeyError key)
  end.

(** The dict literal assigned to [results[key]]. *)
Definition verdict (key : string) (is_eligible : bool) (why : string)
    : exn + EligibilityVerdict :=
  i ← schemes_getitem key;
  mret (mkVerdict is_eligible why (name i) (url i)).

(** [gst_metrics.get(key, default)] *)
Definition get_annual_turnover (gst_metrics : option Metrics.BusinessMetrics) : Q :=
  from_option Metrics.annual_turnover 0 gst_metrics.
Definition get_gst_compliance_score (gst_metrics : option Metrics.BusinessMetrics) : Z :=
  from_option Metrics.gst_compliance_score 0%Z gst_metrics.
Definition get_filing_frequency (gst_metrics : option Metrics.BusinessMetrics) : Z :=
  from_option Metrics.filing_frequency 0%Z gst_metrics.
Definition get_b2b_percentage (gst_metrics : option Metrics.BusinessMetrics) : Q :=
  from_option Metrics.b2b_percentage 0 gst_metrics.
Definition get_profit_margin_estimate (gst_metrics : option Metrics.BusinessMetrics) : Q :=
  from_option Metrics.profit_margin_estimate 10 gst_metrics.

(** [business_data.get(key) in [...]]; [None] is in no list of strings. *)
Definition get_in (v : option string) (xs : list string) : bool :=
  match v with
  | Some s => bool_decide (s ∈ xs)
  | None => false
  end.

Definition ne_hill_states : list string :=
  ["arunachal pradesh"; "assam"; "manipur"; "meghalaya"; "mizoram";
   "nagaland"; "sikkim"; "tripura"; "himachal pradesh"; "uttarakhand"].

(** Digits in groups of three from the right, as [f"{n:,}"] prints them. *)
Fixpoint group_thousands (fuel : nat) (n : Z) : string :=
  match fuel with
  | O => ""
  | S fuel' =>
      let digit k := String (ascii_of_nat (48 + Z.to_nat (k mod 10))) "" in
      if (n <? 1000)%Z
      then (if (n <? 10)%Z then digit n
            else if (n <? 100)%Z then digit (n / 10)%Z +:+ digit n
            else digit (n / 100)%Z +:+ digit (n / 10)%Z +:+ digit n)
      else group_thousands fuel' (n / 1000)%Z +:+ "," +:+
           digit (n / 100)%Z +:+ digit (n / 10)%Z +:+ digit n
  end.

Definition format_commas (n : Z) : string :=
  group_thousands (S (Z.to_nat (Z.log2 n))) n.

Section BusinessEligibilityEngine.

(** [pd.to_datetime(x)]: raises when [x] cannot be read as a date. *)
Variable to_datetime : option string -> exn + datetime_val.

(** [s.lower()]: the case mapping of Python strings. *)
Variable str_lower : string -> string.

(** Assess eligibility for all schemes based on business and GST data. *)
Definition assess_scheme_eligibility (business_data : gmap string string)
    (gst_metrics : option Metrics.BusinessMetrics)
    : exn + gmap string EligibilityVerdict :=
  let results : gmap string EligibilityVerdict := ∅ in
  (* Extract key metrics *)
  let annual_turnover := get_annual_turnover gst_metrics in
  let gst_compliance_score := get_gst_compliance_score gst_metrics in
  let filing_frequency := get_filing_frequency gst_metrics in
  (* Advance Authorisation Scheme *)
  v ← (if bool_decide (business_data !! "business_type" = Some "exporter")
       then verdict "advance_authorisation" true
              "Eligible as registered exporter with GST data"
       else verdict "advance_authorisation" false
              "Only available for exporters");
  let results := <["advance_authorisation" := v]> results in
  (* PMMY Loans *)
  v ← (if get_in (business_data !! "business_type") ["msme"; "manufacturer"; "trader"]
       then
         let loan_category :=
           if Qltb annual_turnover 1000000 then "Shishu"
           else if Qltb annual_turnover 5000000 then "Kishore" else "Tarun" in
         verdict "pmmy_loans" true
           ("Eligible for PMMY " +:+ loan_category +:+ " loan based on turnover")
       else verdict "pmmy_loans" false "Must be MSME/manufacturer/trader");
  let results := <["pmmy_loans" := v]> results in
  (* Startup Benefits *)
  v ← (if bool_decide (business_data !! "business_type" = Some "startup")
       then
         incorporation_date ← to_datetime (business_data !! "incorporation_date");
         min_date ← to_datetime (Some "2016-04-01");
         after ← datetime_ge incorporation_date min_date;
         if after && Qltb annual_turnover 1000000000
         then verdict "startup_tax_benefits" true
                "Eligible startup with turnover < 100 Cr"
         else verdict "startup_tax_benefits" false
                "Must be incorporated after Apr 2016 with turnover < 100 Cr"
       else verdict "startup_tax_benefits" false "Only for registered startups");
  let results := <["startup_tax_benefits" := v]> results in
  (* Digital Lending *)
  v ← (if (gst_compliance_score >? 60)%Z && Qgtb annual_turnover 500000
       then verdict "digital_lending" true
              "Good GST compliance with sufficient turnover"
       else verdict "digital_lending" false
              "Need better GST compliance and minimum turnover");
  let results := <["digital_lending" := v]> results in
  (* GeM Platform *)
  v ← (if (filing_frequency >=? 3)%Z
       then verdict "gem_platform" true "Regular GST filing history available"
       else verdict "gem_platform" false "Need consistent GST filing history");
  let results := <["gem_platform" := v]> results in
  (* GST Composition Scheme *)
  let state := str_lower (default "" (business_data !! "state")) in
  let threshold : Z :=
    if existsb (fun ne_state => str_in ne_state state) ne_hill_states
    then 7500000%Z else 15000000%Z in
  v ← (if Qltb annual_turnover (inject_Z threshold) &&
          get_in (business_data !! "business_type")
                 ["manufacturer"; "trader"; "restaurant"]
       then verdict "gst_composition" true
              ("Turnover below threshold (₹" +:+ format_commas threshold +:+ ")")
       else verdict "gst_composition" false
              "Turnover exceeds threshold or ineligible business type");
  let results := <["gst_composition" := v]> results in
  mret results.

End BusinessEligibilityEngine.

(** ** LoanAssessmentEngine *)

Inductive credit_grade : Type := excellent | good | fair | poor.

(** [self.base_interest_rates] *)
Definition base_interest_rates (g : credit_grade) : Q :=
  match g with
  | excellent => 9
  | good => 23 # 2
  | fair => 14
  | poor => 35 # 2
  end.

Definition loan_multipliers (g : credit_grade) : Q :=
  match g with
  | excellent => 30 # 100
  | good => 25 # 100
  | fair => 20 # 100
  | poor => 15 # 100
  end.

(** The three ways through [if profit_margin > 20: ... elif profit_margin < 5: ...]. *)
Inductive margin_branch : Type :=
  | MarginAbove20   (* base_rate -= 0.5 *)
  | MarginBelow5    (* base_rate += 1.0 *)
  | MarginNeither.

Definition margin_branch_of (profit_margin : Q) : margin_branch :=
  if Qgtb profit_margin 20 then MarginAbove20
  else if Qltb profit_margin 5 then MarginBelow5
  else MarginNeither.

Definition apply_margin_branch (b : margin_branch) (base_rate : Q) : Q :=
  match b with
  | MarginAbove20 => base_rate - (1 # 2)
  | MarginBelow5 => base_rate + 1
  | MarginNeither => base_rate
  end.

Module Loan.
Record LoanAssessment : Type := mk {
  credit_score : Z;
  credit_grade_of : credit_grade;
  max_loan_amount : Q;
  recommended_amount : Q;
  interest_rate : Q;
  max_tenure_years : Z;
  monthly_emi : Q;
  total_interest : Q;
  approval_probability : Q;
  annual_turnover : Q;
  profit_margin : Q
}.
End Loan.

Section LoanAssessmentEngine.

(** [pd.to_datetime(x)] as above. *)
Variable to_datetime : option string -> exn + datetime_val.

(** Calculate credit score based on business and GST metrics.  [now] is
    the reading of [datetime.now()], in nanoseconds since the epoch. *)
Definition calculate_credit_score (now : Z) (business_data : gmap string string)
    (gst_metrics : option Metrics.BusinessMetrics) : Z * credit_grade :=
  let score := 300%Z in  (* Base score *)
  (* GST compliance (0-200 points) *)
  let gst_compliance := get_gst_compliance_score gst_metrics in
  let score := (score + Z.min 200 (gst_compliance * 2))%Z in
  (* Business turnover (0-200 points) *)
  let annual_turnover := get_annual_turnover gst_metrics in
  let score :=
    if Qgtb annual_turnover 50000000 then (score + 200)%Z
    else if Qgtb annual_turnover 10000000 then (score + 150)%Z
    else if Qgtb annual_turnover 5000000 then (score + 100)%Z
    else if Qgtb annual_turnover 1000000 then (score + 75)%Z
    else if Qgtb annual_turnover 500000 then (score + 50)%Z
    else score in
  (* Filing consistency (0-100 points) *)
  let filing_frequency := get_filing_frequency gst_metrics in
  let score :=
    if (filing_frequency >=? 12)%Z then (score + 100)%Z
    else if (filing_frequency >=? 6)%Z then (score + 75)%Z
    else if (filing_frequency >=? 3)%Z then (score + 50)%Z
    else if (filing_frequency >=? 1)%Z then (score + 25)%Z
    else score in
  (* Business vintage (0-100 points) *)
  let score :=
    try_except
      (incorporation_date ← to_datetime (business_data !! "incorporation_date");
       years_in_business ← years_since now incorporation_date;
       mret (if nan_gtb years_in_business 5 then (score + 100)%Z
             else if nan_gtb years_in_business 3 then (score + 75)%Z
             else if nan_gtb years_in_business 1 then (score + 50)%Z
             else if nan_gtb years_in_business (1 # 2) then (score + 25)%Z
             else score))
      (score + 25)%Z  (* Default if date parsing fails *) in
  (* Business model stability (0-100 points) *)
  let b2b_percentage := get_b2b_percentage gst_metrics in
  let score :=
    if Qgtb b2b_percentage 70 then (score + 100)%Z
    else if Qgtb b2b_percentage 40 then (score + 75)%Z
    else if Qgtb b2b_percentage 10 then (score + 50)%Z
    else (score + 25)%Z in
  (* Cap the score *)
  let score := Z.min score 900 in
  (* Determine credit grade *)
  let grade :=
    if (score >=? 750)%Z then excellent
    else if (score >=? 650)%Z then good
    else if (score >=? 500)%Z then fair
    else poor in
  (score, grade).

(** Calculate comprehensive loan assessment. *)
Definition calculate_loan_eligibility (now : Z) (business_data : gmap string string)
    (gst_metrics : option Metrics.BusinessMetrics) : Loan.LoanAssessment :=
  let '(credit_score, credit_grade) :=
    calculate_credit_score now business_data gst_metrics in
  let annual_turnover := get_annual_turnover gst_metrics in
  let profit_margin := get_profit_margin_estimate gst_metrics in
  (* Calculate maximum loan amount *)
  let max_loan_amount := annual_turnover * loan_multipliers credit_grade in
  (* Adjust for business type *)
  let business_type := default "" (business_data !! "business_type") in
  let max_loan_amount :=
    if bool_decide (business_type = "startup") then max_loan_amount * (8 # 10)
    else if bool_decide (business_type = "exporter") then max_loan_amount * (12 # 10)
    else max_loan_amount in
  (* Interest rate calculation *)
  let base_rate := base_interest_rates credit_grade in
  (* Adjustments based on various factors *)
  let base_rate :=
    if bool_decide (business_type = "startup") then base_rate + (3 # 2)
    else if bool_decide (business_type = "exporter") then base_rate - (1 # 2)
    else base_rate in
  let base_rate := apply_margin_branch (margin_branch_of profit_margin) base_rate in
  (* GST compliance adjustment *)
  let gst_compliance := get_gst_compliance_score gst_metrics in
  let base_rate :=
    if (gst_compliance >? 80)%Z then base_rate - (1 # 2)
    else if (gst_compliance <? 50)%Z then base_rate + 1
    else base_rate in
  let final_interest_rate := py_max base_rate (85 # 10) in  (* Minimum rate cap *)
  (* Loan tenure *)
  let max_tenure_years :=
    if (credit_score >? 700)%Z then 7%Z
    else if (credit_score >? 600)%Z then 5%Z
    else 3%Z in
  (* Default loan amount (smaller of max or 10L) *)
  let recommended_amount := py_min max_loan_amount 1000000 in
  (* EMI calculation *)
  let monthly_rate := final_interest_rate / (12 * 100) in
  let tenure_months := (max_tenure_years * 12)%Z in
  let emi :=
    if Qgtb monthly_rate 0
    then recommended_amount * monthly_rate * (1 + monthly_rate) ^ tenure_months
         / ((1 + monthly_rate) ^ tenure_months - 1)
    else recommended_amount / inject_Z tenure_months in
  (* Approval probability *)
  let approval_factors :=
    [ py_min 30 (inject_Z credit_score / 25);
      py_min 25 (inject_Z gst_compliance / 4);
      py_min 20 (annual_turnover / 250000);
      py_min 15 profit_margin;
      if (get_filing_frequency gst_metrics >=? 6)%Z then 10 else 5 ] in
  let approval_probability := py_min 95 (py_sum approval_factors) in
  Loan.mk credit_score credit_grade max_loan_amount recommended_amount
          final_interest_rate max_tenure_years emi
          (emi * inject_Z tenure_months - recommended_amount)
          approval_probability annual_turnover profit_margin.

End LoanAssessmentEngine.

(** ** Concrete readers for worked inputs

    The theorems below hold for every [read_csv], [read_excel] and
    [to_datetime].  Where a run on a concrete input is needed, the library
    calls are instantiated by the small readers of this section, which are
    applied only to inputs on which they return what pandas returns: plain
    comma-separated text without quoting, and [None], the empty string, a
    calendar date written YYYY-MM-DD, or text that holds no date. *)

Definition is_leap (y : Z) : bool :=
  ((y mod 4 =? 0) && negb (y mod 100 =? 0) || (y mod 400 =? 0))%Z.

Definition days_in_month (y m : Z) : Z :=
  (if (m =? 2) then (if is_leap y then 29 else 28)
   else if (m =? 4) || (m =? 6) || (m =? 9) || (m =? 11) then 30 else 31)%Z.

(** Days from 1970-01-01 to the given day of the proleptic Gregorian calendar. *)
Definition days_from_civil (y m d : Z) : Z :=
  (let y' := if m <=? 2 then y - 1 else y in
   let era := y' / 400 in
   let yoe := y' - era * 400 in
   let doy := (153 * (if m >? 2 then m - 3 else m + 9) + 2) / 5 + d - 1 in
   let doe := yoe * 365 + yoe / 4 - yoe / 100 + doy in
   era * 146097 + doe - 719468)%Z.

Fixpoint digits_value (acc : Z) (s : string) : option Z :=
  match s with
  | EmptyString => Some acc
  | String c r =>
      match Ascii.is_nat c with
      | Some n => digits_value (acc * 10 + Z.of_nat n)%Z r
      | None => None
      end
  end.

Definition number_of (s : string) : option Z :=
  match s with
  | EmptyString => None
  | _ => digits_value 0%Z s
  end.

Definition iso_to_datetime (x : option string) : exn + datetime_val :=
  match x with
  | None => inr PyNone
  | Some "" => inr NaT
  | Some s =>
      if bool_decide (String.length s = 10%nat) &&
         bool_decide (String.get 4 s = Some "-"%char) &&
         bool_decide (String.get 7 s = Some "-"%char)
      then
        match number_of (String.substring 0 4 s),
              number_of (String.substring 5 2 s),
              number_of (String.substring 8 2 s) with
        | Some y, Some m, Some d =>
            if ((1 <=? m) && (m <=? 12) && (1 <=? d) && (d <=? days_in_month y m))%Z
            then inr (Timestamp (days_from_civil y m d * ns_per_day))
            else inl ParserError
        | _, _, _ => inl ParserError
        end
      else inl ParserError
  end.

(** [s.split(sep)] for a one-character separator. *)
Fixpoint split (sep : ascii) (s : string) : list string :=
  match s with
  | EmptyString => [EmptyString]
  | String c r =>
      if bool_decide (c = sep) then EmptyString :: split sep r
      else match split sep r with
           | h :: t => String c h :: t
           | [] => [String c EmptyString]
           end
  end.

Definition newline : string := String "010"%char EmptyString.

Definition parse_cell (s : string) : cell :=
  match s with
  | EmptyString => None
  | _ => match digits_value 0%Z s with
         | Some n => Some (PNum (inject_Z n))
         | None => Some (PStr s)
         end
  end.

(** The header line names the columns, as written; every later non-blank
    line is a row. *)
Definition simple_read_csv (content : string) : exn + DataFrame :=
  match filter (fun l => negb (bool_decide (l = EmptyString))) (split "010"%char content) with
  | [] => inl ParserError
  | header :: lines =>
      let rows := map (split ","%char) lines in
      let names := split ","%char header in
      inr (mkDataFrame (length rows)
             (imap (fun j n => (n, map (fun r => parse_cell (default EmptyString (r !! j))) rows))
                   names))
  end.

(** A reader for which no content is a spreadsheet. *)
Definition no_read_excel (content : string) : exn + DataFrame := inl ParserError.

(** A clock reading: midnight of the given day. *)
Definition midnight (y m d : Z) : Z := (days_from_civil y m d * ns_per_day)%Z.

(** Worked inputs. *)
Definition b2b_without_invoice_value : DataFrame :=
  mkDataFrame 1 [("Rate", [Some (PNum 18)])].

Definition b2b_one_month : DataFrame :=
  mkDataFrame 2
    [("GSTIN/UIN of Recipient", [Some (PStr "24AAACC1206D1ZM"); Some (PStr "24AAACC1206D1ZM")]);
     ("Invoice Value", [Some (PNum 60000); Some (PNum 40000)]);
     ("Taxable Value", [Some (PNum 60000); Some (PNum 40000)]);
     ("Rate", [Some (PNum 18); Some (PNum 18)])].

Definition purchase_csv_padded_header : string :=
  "GSTIN, Taxable Value " +:+ newline +:+ "29ABCDE1234F1Z5,100" +:+ newline.

Definition sample_metrics (turnover : Q) : Metrics.BusinessMetrics :=
  Metrics.mk turnover (turnover / 12) 0 (turnover / 12) 0 0 100 1 0 true 25 65.

Definition sample_month : Month.MonthlySummary :=
  Month.mk "Month 1 (B2B)" 2 0 0 100000 0 100000 0 18000 0 [PNum 18] 0 0 1.

Definition profile (business_type incorporation_date state : string)
    : gmap string string :=
  <["state" := state]> (<["incorporation_date" := incorporation_date]>
    (<["business_type" := business_type]> ∅)).

(** ** Notions used in the statements *)

(** A name is trimmed: it neither starts nor ends with whitespace. *)
Definition trimmed (s : string) : Prop :=
  (forall c r, s = String c r -> is_py_space c = false) /\
  (forall r c, s = r +:+ String c "" -> is_py_space c = false).

(** The lower-case name [name] occurs in [state] when case is ignored: it
    occurs in the state once its letters are lower-cased. *)
Definition contains_ignoring_case (str_lower : string -> string)
    (state name : string) : Prop :=
  exists pre post, str_lower state = pre +:+ name +:+ post.

(** With the case mapping of ASCII text: some run of [state] and [name] are
    equal up to the case of their letters. *)
Definition contains_ignoring_ascii_case (state name : string) : Prop :=
  exists pre mid post, state = pre +:+ mid +:+ post /\ lower mid = lower name.

(** The verdict for a catalog key, with the name and url of the catalog. *)
Definition catalog_verdict (key : string) (is_eligible : bool) (why : string)
    : EligibilityVerdict :=
  mkVerdict is_eligible why (from_option name "" (schemes !! key))
            (from_option url "" (schemes !! key)).

(** The threshold of the composition rule for a state as entered. *)
Definition composition_threshold_of (str_lower : string -> string) (state : string) : Z :=
  if existsb (fun ne_state => str_in ne_state (str_lower state)) ne_hill_states
  then 7500000%Z else 15000000%Z.

(** The startup rule: the only rule that reads the incorporation date. *)
Definition startup_rule (to_datetime : option string -> exn + datetime_val)
    (bd : gmap string string) (gm : option Metrics.BusinessMetrics)
    : exn + EligibilityVerdict :=
  if bool_decide (bd !! "business_type" = Some "startup")
  then
    incorporation_date ← to_datetime (bd !! "incorporation_date");
    min_date ← to_datetime (Some "2016-04-01");
    after ← datetime_ge incorporation_date min_date;
    if after && Qltb (get_annual_turnover gm) 1000000000
    then verdict "startup_tax_benefits" true
           "Eligible startup with turnover < 100 Cr"
    else verdict "startup_tax_benefits" false
           "Must be incorporated after Apr 2016 with turnover < 100 Cr"
  else verdict "startup_tax_benefits" false "Only for registered startups".

(** The keys for which the evaluator has a rule. *)
Definition rule_keys : list string :=
  ["advance_authorisation"; "pmmy_loans"; "startup_tax_benefits";
   "digital_lending"; "gem_platform"; "gst_composition"].

(** Some name of the list occurs in the state as entered, case ignored. *)
Definition special_category_state (str_lower : string -> string) (state : string) : Prop :=
  Exists (contains_ignoring_case str_lower state) ne_hill_states.

(** The threshold the rule table gives for a state. *)
Definition composition_threshold (str_lower : string -> string) (state : string)
    (threshold : Q) : Prop :=
  (special_category_state str_lower state /\ threshold = 7500000) \/
  (~ special_category_state str_lower state /\ threshold = 15000000).

(** ** The page handler ([main]) *)

(** An uploaded file: its name and what [file.read().decode('utf-8')] gives. *)
Record UploadedFile : Type := mkUploadedFile {
  file_name : string;
  file_text : exn + string
}.

(** Categorize files: the loop over [uploaded_files]. *)
Definition categorize_files (str_lower : string -> string)
    (uploaded_files : list UploadedFile)
    : list UploadedFile * list UploadedFile * list UploadedFile :=
  fold_left
    (fun (acc : list UploadedFile * list UploadedFile * list UploadedFile) file =>
       let '(b2b_files, b2c_files, purchase_files) := acc in
       let name := str_lower (file_name file) in
       if str_in "b2b" name then ((b2b_files ++ [file])%list, b2c_files, purchase_files)
       else if str_in "b2c" name then (b2b_files, (b2c_files ++ [file])%list, purchase_files)
       else (b2b_files, b2c_files, (purchase_files ++ [file])%list))
    uploaded_files ([], [], []).

(** [s.endswith(suffix)]: some tail of [s] is [suffix]. *)
Fixpoint endswith (s suffix : string) : bool :=
  bool_decide (s = suffix) ||
  match s with
  | EmptyString => false
  | String _ r => endswith r suffix
  end.

(** [name.split('_')[0] if '_' in name else fallback] *)
Definition file_label (file : UploadedFile) (fallback : string) : string :=
  if str_in "_" (file_name file)
  then hd "" (split "_"%char (file_name file))
  else fallback.

(** The label of month [i] (counted from 0). *)
Definition month_name_of (i : nat) (b2b_file b2c_file : option UploadedFile) : string :=
  let month_name := "Month " +:+ pretty (i + 1)%nat in
  match b2b_file, b2c_file with
  | Some f, _ => month_name +:+ " (" +:+ file_label f "B2B" +:+ ")"
  | None, Some f => month_name +:+ " (" +:+ file_label f "B2C" +:+ ")"
  | None, None => month_name
  end.

Section Main.

Variable read_csv : string -> exn + DataFrame.
Variable read_excel : string -> exn + DataFrame.
(** [pd.read_excel(purchase_file)] on the upload itself. *)
Variable read_excel_upload : UploadedFile -> exn + DataFrame.
Variable to_datetime : option string -> exn + datetime_val.
Variable str_lower : string -> string.

(** A sales file of the month: absent files give [pd.DataFrame()]; decoding
    is not guarded. *)
Definition load_sales (parse : string -> DataFrame * list diagnostic)
    (file : option UploadedFile) : exn + (DataFrame * list diagnostic) :=
  match file with
  | Some f => content ← file_text f; mret (parse content)
  | None => mret (empty_frame, [])
  end.

(** The purchase file of the month, inside its [try]. *)
Definition load_purchase (file : option UploadedFile) : DataFrame * list diagnostic :=
  match file with
  | Some purchase_file =>
      match (if endswith (file_name purchase_file) ".csv"
             then purchase_content ← file_text purchase_file;
                  mret (parse_purchase_file read_csv read_excel purchase_content)
             else (* Handle Excel files *)
                  df ← read_excel_upload purchase_file; mret (df, [])) with
      | inr r => r
      | inl e =>
          (empty_frame,
           [StWarning ("Could not process purchase file "
                       +:+ file_name purchase_file +:+ ": ") e])
      end
  | None => (empty_frame, [])
  end.

(** One pass of the loop [for i in range(max_files)]. *)
Definition process_month (b2b_files b2c_files purchase_files : list UploadedFile)
    (i : nat) : exn + (Month.MonthlySummary * list diagnostic) :=
  (* Get files for this month *)
  let b2b_file := b2b_files !! i in
  let b2c_file := b2c_files !! i in
  let purchase_file := purchase_files !! i in
  (* Parse files *)
  b2b ← load_sales (parse_b2b_file read_csv) b2b_file;
  b2c ← load_sales (parse_b2c_file read_csv) b2c_file;
  let purchase := load_purchase purchase_file in
  (* Analyze this month's data *)
  let month_name := month_name_of i b2b_file b2c_file in
  month_analysis ← analyze_monthly_data month_name (fst b2b) (fst b2c) (fst purchase);
  mret (month_analysis, (snd b2b ++ snd b2c ++ snd purchase)%list).

(** The loop: [monthly_analyses.append(month_analysis)] for each index. *)
Fixpoint process_months (b2b_files b2c_files purchase_files : list UploadedFile)
    (indices : list nat) (monthly_analyses : list Month.MonthlySummary)
    (shown : list diagnostic)
    : exn + (list Month.MonthlySummary * list diagnostic) :=
  match indices with
  | [] => mret (monthly_analyses, shown)
  | i :: rest =>
      r ← process_month b2b_files b2c_files purchase_files i;
      process_months b2b_files b2c_files purchase_files rest
                     (monthly_analyses ++ [fst r])%list (shown ++ snd r)%list
  end.

(** Strengths and areas for improvement of the summary. *)
Definition strengths (gst_metrics : Metrics.BusinessMetrics)
    (loan_results : Loan.LoanAssessment) : list string :=
  ((if (Metrics.gst_compliance_score gst_metrics >? 70)%Z
    then ["Strong GST compliance record"] else []) ++
   (if Qgtb (Metrics.annual_turnover gst_metrics) 5000000
    then ["Healthy annual turnover"] else []) ++
   (if (Metrics.filing_frequency gst_metrics >=? 6)%Z
    then ["Consistent GST filing history"] else []) ++
   (if (Loan.credit_score loan_results >? 650)%Z
    then ["Good creditworthiness profile"] else []))%list.

Definition improvements (gst_metrics : Metrics.BusinessMetrics)
    (loan_results : Loan.LoanAssessment) : list string :=
  ((if (Metrics.gst_compliance_score gst_metrics <? 60)%Z
    then ["Improve GST filing consistency"] else []) ++
   (if (Loan.credit_score loan_results <? 600)%Z
    then ["Build stronger credit history"] else []) ++
   (if (Metrics.filing_frequency gst_metrics <? 6)%Z
    then ["Maintain regular GST filings"] else []))%list.

(** What the handler has computed when it stops: one of its two error
    messages, or the values it goes on to render. *)
Inductive outcome : Type :=
  | NeedSalesFile      (* "Please upload at least one B2B or B2C sales file" *)
  | CouldNotAnalyze    (* "Could not analyze GST data. Please check file format." *)
  | Assessment (monthly_analyses : list Month.MonthlySummary)
               (gst_metrics : Metrics.BusinessMetrics)
               (scheme_results : gmap string EligibilityVerdict)
               (loan_results : Loan.LoanAssessment)
               (shown : list diagnostic).

(** The body of [if st.button("Analyze GST Data")], for the files uploaded
    (a non-empty list, by the guard [if uploaded_files]), the business data
    of the form and the clock reading. *)
Definition analyze_gst_data (now : Z) (business_data : gmap string string)
    (uploaded_files : list UploadedFile) : exn + outcome :=
  let '(b2b_files, b2c_files, purchase_files) :=
    categorize_files str_lower uploaded_files in
  if bool_decide (b2b_files = []) && bool_decide (b2c_files = [])
  then mret NeedSalesFile
  else
    (* Process all combinations of files *)
    let max_files := Nat.max (length b2b_files) (length b2c_files) in
    r ← process_months b2b_files b2c_files purchase_files (seq 0 max_files) [] [];
    let monthly_analyses := fst r in
    (* Calculate aggregate metrics *)
    match calculate_aggregate_metrics monthly_analyses with
    | None => mret CouldNotAnalyze
    | Some gst_metrics =>
        scheme_results ←
          assess_scheme_eligibility to_datetime str_lower business_data
            (Some gst_metrics);
        let loan_results :=
          calculate_loan_eligibility to_datetime now business_data (Some gst_metrics) in
        mret (Assessment monthly_analyses gst_metrics scheme_results loan_results (snd r))
    end.

End Main.

(** [sum(1 for scheme in scheme_results.values() if scheme['eligible'])] *)
Definition eligible_count (scheme_results : gmap string EligibilityVerdict) : nat :=
  length (filter (fun kv => eligible (snd kv) = true) (map_to_list scheme_results)).

(** The colour and status shown beside the credit score. *)
Definition score_display (score : Z) : string * string :=
  if (score >=? 750)%Z then ("🟢", "Excellent")
  else if (score >=? 650)%Z then ("🟡", "Good")
  else if (score >=? 500)%Z then ("🟠", "Fair")
  else ("🔴", "Needs Improvement").

(** The loan calculator: EMI, total interest and total amount for the amount
    chosen on the slider. *)
Definition loan_calculator (loan_results : Loan.LoanAssessment) (requested_amount : Q)
    : Q * Q * Q :=
  (* Recalculate EMI for requested amount *)
  let monthly_rate := Loan.interest_rate loan_results / (12 * 100) in
  let tenure_months := (Loan.max_tenure_years loan_results * 12)%Z in
  let emi :=
    if Qgtb monthly_rate 0
    then requested_amount * monthly_rate * (1 + monthly_rate) ^ tenure_months
         / ((1 + monthly_rate) ^ tenure_months - 1)
    else requested_amount / inject_Z tenure_months in
  (emi, emi * inject_Z tenure_months - requested_amount, emi * inject_Z tenure_months).

(** Worked inputs of the page handler: one upload named as a B2B file of
    April 2024 with two invoices, a B2B upload without content, and an
    Excel reader for which no upload is a spreadsheet. *)
Definition b2b_csv_one_month : string :=
  "GSTIN/UIN of Recipient,Invoice Value,Taxable Value,Rate" +:+ newline +:+
  "24AAACC1206D1ZM,60000,60000,18" +:+ newline +:+
  "24AAACC1206D1ZM,40000,40000,18" +:+ newline.

Definition one_month_uploads : list UploadedFile :=
  [mkUploadedFile "2024-04_b2b.csv" (inr b2b_csv_one_month)].

Definition empty_b2b_upload : UploadedFile :=
  mkUploadedFile "2024-05_b2b.csv" (inr "").

Definition no_read_excel_upload (file : UploadedFile) : exn + DataFrame :=
  inl ParserError.


(** ** Notions used in the further properties *)

(** The category tests of the upload loop. *)
Definition is_b2b_name (str_lower : string -> string) (f : UploadedFile) : bool :=
  str_in "b2b" (str_lower (file_name f)).
Definition is_b2c_name (str_lower : string -> string) (f : UploadedFile) : bool :=
  negb (is_b2b_name str_lower f) && str_in "b2c" (str_lower (file_name f)).
Definition is_purchase_name (str_lower : string -> string) (f : UploadedFile) : bool :=
  negb (is_b2b_name str_lower f) && negb (str_in "b2c" (str_lower (file_name f))).

(** The block "Analyze B2B sales" on the analysis so far. *)
Definition b2b_block (b2b_df : DataFrame) (analysis : Month.MonthlySummary)
    : exn + Month.MonthlySummary :=
  if negb (df_empty b2b_df) then
    b2b_sales ← column_total b2b_df "Invoice Value";
    let analysis := Month.set_b2b_sales analysis b2b_sales in
    analysis ←
      (if has_column "Taxable Value" b2b_df && has_column "Rate" b2b_df then
         gst_from_b2b ← gst_from b2b_df "Taxable Value" "Rate";
         mret (Month.set_gst_collected analysis
                 (Month.gst_collected analysis + gst_from_b2b))
       else mret analysis);
    analysis ←
      (if has_column "GSTIN/UIN of Recipient" b2b_df then
         c ← getitem b2b_df "GSTIN/UIN of Recipient";
         mret (Month.set_unique_customers analysis (nunique c))
       else mret analysis);
    (if has_column "Rate" b2b_df then
       rates ← getitem b2b_df "Rate";
       mret (extend_rates analysis rates)
     else mret analysis)
  else mret analysis.

(** The block "Analyze B2C sales". *)
Definition b2c_block (b2c_df : DataFrame) (analysis : Month.MonthlySummary)
    : exn + Month.MonthlySummary :=
  if negb (df_empty b2c_df) then
    b2c_sales ← column_total b2c_df "Taxable Value";
    let analysis := Month.set_b2c_sales analysis b2c_sales in
    (if has_column "Rate" b2c_df then
       gst_from_b2c ← gst_from b2c_df "Taxable Value" "Rate";
       let analysis := Month.set_gst_collected analysis
                         (Month.gst_collected analysis + gst_from_b2c) in
       rates ← getitem b2c_df "Rate";
       mret (extend_rates analysis rates)
     else mret analysis)
  else mret analysis.

(** The block "Analyze purchases". *)
Definition purchase_block (purchase_df : DataFrame) (analysis : Month.MonthlySummary)
    : exn + Month.MonthlySummary :=
  if negb (df_empty purchase_df) then
    if has_column "Taxable Value" purchase_df then
      t ← column_total purchase_df "Taxable Value";
      mret (Month.set_total_purchases analysis t)
    else if has_column "Invoice Value" purchase_df then
      t ← column_total purchase_df "Invoice Value";
      mret (Month.set_total_purchases analysis t)
    else mret analysis
  else mret analysis.

(** The analysis a month starts from. *)
Definition initial_analysis (month_name : string)
    (b2b_df b2c_df purchase_df : DataFrame) : Month.MonthlySummary :=
  Month.mk month_name (df_len b2b_df) (df_len b2c_df) (df_len purchase_df)
           0 0 0 0 0 0 [] 0 0 0%Z.

(** The fields no block assigns. *)
Definition same_fixed_fields (a a' : Month.MonthlySummary) : Prop :=
  Month.month a' = Month.month a /\
  Month.b2b_transactions a' = Month.b2b_transactions a /\
  Month.b2c_transactions a' = Month.b2c_transactions a /\
  Month.purchase_transactions a' = Month.purchase_transactions a /\
  Month.gst_paid a' = Month.gst_paid a /\
  Month.interstate_sales a' = Month.interstate_sales a /\
  Month.intrastate_sales a' = Month.intrastate_sales a.

(** No cell of the table holds text. *)
Definition numeric_cell (c : cell) : Prop :=
  match c with
  | Some (PStr _) => False
  | _ => True
  end.

(** The columns of the table named in [names] hold no text. *)
Definition numeric_columns (names : list string) (df : DataFrame) : Prop :=
  forall name c, In name names -> getitem df name = inr c -> Forall numeric_cell c.

(** Every character of the text is an ASCII character (a code below 128):
    on such text [strip] removes what [str.strip()] removes. *)
Fixpoint ascii_text (s : string) : bool :=
  match s with
  | EmptyString => true
  | String c r => (nat_of_ascii c <? 128)%nat && ascii_text r
  end.

(** No two values of the list are equal as Python values. *)
Definition pairwise_distinct (l : list pyval) : Prop :=
  ForallOrdPairs (fun x y => pyval_eqb x y = false) l.

(** A rate of the standard set: a number equal to 0, 5, 12, 18 or 28. *)
Definition standard_rate (r : pyval) : Prop :=
  exists q, r = PNum q /\ (q == 0 \/ q == 5 \/ q == 12 \/ q == 18 \/ q == 28).


(** The scheme has an eligible verdict in the results. *)
Definition eligible_for (results : gmap string EligibilityVerdict) (key : string) : Prop :=
  exists v, results !! key = Some v /\ eligible v = true.

(** The six verdicts over the verdict [v3] of the startup rule. *)
Definition six_verdicts (str_lower : string -> string) (bd : gmap string string)
    (gm : option Metrics.BusinessMetrics)
    (w1 w2 w4 w5 w6 : string) (v3 : EligibilityVerdict) : gmap string EligibilityVerdict :=
  <["gst_composition" :=
      catalog_verdict "gst_composition"
        (Qltb (get_annual_turnover gm)
              (inject_Z (composition_threshold_of str_lower (default "" (bd !! "state"))))
         && get_in (bd !! "business_type") ["manufacturer"; "trader"; "restaurant"]) w6]>
  (<["gem_platform" :=
      catalog_verdict "gem_platform" (get_filing_frequency gm >=? 3)%Z w5]>
  (<["digital_lending" :=
      catalog_verdict "digital_lending"
        ((get_gst_compliance_score gm >? 60)%Z && Qgtb (get_annual_turnover gm) 500000) w4]>
  (<["startup_tax_benefits" := v3]>
  (<["pmmy_loans" :=
      catalog_verdict "pmmy_loans"
        (get_in (bd !! "business_type") ["msme"; "manufacturer"; "trader"]) w2]>
  (<["advance_authorisation" :=
      catalog_verdict "advance_authorisation"
        (bool_decide (bd !! "business_type" = Some "exporter")) w1]> ∅))))).

(** Points for the turnover, the months filed, the share of B2B sales. *)
Definition turnover_points (annual_turnover : Q) : Z :=
  if Qgtb annual_turnover 50000000 then 200
  else if Qgtb annual_turnover 10000000 then 150
  else if Qgtb annual_turnover 5000000 then 100
  else if Qgtb annual_turnover 1000000 then 75
  else if Qgtb annual_turnover 500000 then 50
  else 0.

Definition filing_points (filing_frequency : Z) : Z :=
  if (filing_frequency >=? 12)%Z then 100
  else if (filing_frequency >=? 6)%Z then 75
  else if (filing_frequency >=? 3)%Z then 50
  else if (filing_frequency >=? 1)%Z then 25
  else 0.

Definition b2b_points (b2b_percentage : Q) : Z :=
  if Qgtb b2b_percentage 70 then 100
  else if Qgtb b2b_percentage 40 then 75
  else if Qgtb b2b_percentage 10 then 50
  else 25.

(** Points for the age of the business, by whole days since incorporation:
    more than 5, 3, 1 and 0.5 years of 365.25 days are at least 1827, 1096,
    366 and 183 days.  A date that cannot be read, or no date, gives 25; the
    missing date NaT gives nothing. *)
Definition vintage_points (to_datetime : option string -> exn + datetime_val)
    (now : Z) (business_data : gmap string string) : Z :=
  match to_datetime (business_data !! "incorporation_date") with
  | inl _ => 25
  | inr PyNone => 25
  | inr NaT => 0
  | inr (Timestamp t) =>
      let days := ((now - t) / ns_per_day)%Z in
      if (days >=? 1827)%Z then 100
      else if (days >=? 1096)%Z then 75
      else if (days >=? 366)%Z then 50
      else if (days >=? 183)%Z then 25
      else 0
  end.

Definition grade_of_score (score : Z) : credit_grade :=
  if (score >=? 750)%Z then excellent
  else if (score >=? 650)%Z then good
  else if (score >=? 500)%Z then fair
  else poor.

(** The items of the two lists of the summary. *)
Definition shows (items : list string) (item : string) : Prop := In item items.

(** * Properties *)

(** ** Worked values *)

Example days_from_civil_2016_04_01 : days_from_civil 2016 4 1 = 16892%Z.
Proof. reflexivity. Qed.

Example iso_to_datetime_2016_04_01 :
  iso_to_datetime (Some "2016-04-01") = inr (Timestamp (16892 * ns_per_day)).
Proof. reflexivity. Qed.

Example iso_to_datetime_text : iso_to_datetime (Some "not a date") = inl ParserError.
Proof. reflexivity. Qed.

Example format_commas_thresholds :
  format_commas 7500000 = "7,500,000" /\ format_commas 15000000 = "15,000,000".
Proof. split; reflexivity. Qed.

Example strip_padded : strip "  Taxable Value	 " = "Taxable Value".
Proof. reflexivity. Qed.

Example lower_state : lower "Himachal Pradesh (North)" = "himachal pradesh (north)".
Proof. reflexivity. Qed.

Example str_in_examples :
  str_in "sikkim" "east sikkim" = true /\ str_in "assam" "asam" = false /\
  str_in "" "" = true.
Proof. repeat split; reflexivity. Qed.

Example simple_read_csv_padded :
  (df ← simple_read_csv purchase_csv_padded_header; mret (columns df))
  = inr ["GSTIN"; " Taxable Value "].
Proof. reflexivity. Qed.

(** ** Strings: containment and case *)

Lemma append_nil_l (s : string) : "" +:+ s = s.
Proof. reflexivity. Qed.

Lemma append_cons (c : ascii) (s t : string) :
  String c s +:+ t = String c (s +:+ t).
Proof. reflexivity. Qed.

Lemma startswith_prefix (s p : string) :
  startswith s p = true <-> exists post, s = p +:+ post.
Proof.
  revert s. induction p as [| a p IH]; intros s.
  - split; [intros _; exists s; reflexivity | intros _; destruct s; reflexivity].
  - destruct s as [| b s]; simpl.
    + split; [discriminate | intros [post Hpost]; discriminate].
    + rewrite andb_true_iff, bool_decide_eq_true, IH. split.
      * intros [-> [post ->]]. exists post. reflexivity.
      * intros [post Hpost]. rewrite append_cons in Hpost.
        injection Hpost as -> ->. split; [reflexivity | eauto].
Qed.

Lemma str_in_nil (sub : string) : str_in sub "" = startswith "" sub || false.
Proof. reflexivity. Qed.

Lemma str_in_cons (sub : string) (c : ascii) (s : string) :
  str_in sub (String c s) = startswith (String c s) sub || str_in sub s.
Proof. reflexivity. Qed.

(** [sub in s] holds exactly when [s] is [pre + sub + post]. *)
Lemma str_in_substring (sub s : string) :
  str_in sub s = true <-> exists pre post, s = pre +:+ sub +:+ post.
Proof.
  induction s as [| c s IH].
  - rewrite str_in_nil, orb_false_r, startswith_prefix. split.
    + intros [post Hpost]. exists "", post. exact Hpost.
    + intros (pre & post & Heq). destruct pre; [eauto | discriminate].
  - rewrite str_in_cons, orb_true_iff, startswith_prefix, IH. split.
    + intros [[post Hpost] | (pre & post & Heq)].
      * exists "", post. exact Hpost.
      * exists (String c pre), post. rewrite append_cons. congruence.
    + intros (pre & post & Heq). destruct pre as [| a pre].
      * left. exists post. exact Heq.
      * right. rewrite append_cons in Heq. injection Heq as _ ->. eauto.
Qed.

Lemma lower_append (s t : string) : lower (s +:+ t) = lower s +:+ lower t.
Proof.
  induction s as [| c s IH]; [reflexivity |].
  rewrite append_cons. simpl. rewrite IH. reflexivity.
Qed.

(** A split of [lower s] comes from a split of [s]. *)
Lemma lower_split (s p q : string) :
  lower s = p +:+ q -> exists a b, s = a +:+ b /\ lower a = p /\ lower b = q.
Proof.
  revert s. induction p as [| c p IH]; intros s Heq.
  - exists "", s. auto.
  - destruct s as [| d s]; [discriminate |].
    rewrite append_cons in Heq. simpl in Heq. injection Heq as Hc Hrest.
    destruct (IH s Hrest) as (a & b & -> & <- & <-).
    exists (String d a), b. rewrite append_cons. simpl. rewrite Hc. auto.
Qed.

Lemma str_in_lower (state name : string) :
  lower name = name ->
  str_in name (lower state) = true <-> contains_ignoring_ascii_case state name.
Proof.
  intros Hname. rewrite str_in_substring. unfold contains_ignoring_ascii_case. split.
  - intros (p & q & Heq).
    destruct (lower_split _ _ _ Heq) as (pre & rest & -> & _ & Hrest).
    destruct (lower_split _ _ _ Hrest) as (mid & post & -> & Hmid & _).
    exists pre, mid, post. split; congruence.
  - intros (pre & mid & post & -> & Hmid).
    exists (lower pre), (lower post).
    rewrite !lower_append. congruence.
Qed.

(** With the case mapping of ASCII text, a lower-case name occurs in the
    lower-cased state exactly when some run of the state is the name up to
    the case of its letters. *)
Lemma contains_ignoring_case_ascii (state name : string) :
  lower name = name ->
  contains_ignoring_case lower state name <-> contains_ignoring_ascii_case state name.
Proof.
  intros Hname. rewrite <- (str_in_lower state name Hname), str_in_substring.
  reflexivity.
Qed.

(** ** Arithmetic helpers *)

Lemma Qltb_lt (x y : Q) : Qltb x y = true <-> x < y.
Proof.
  unfold Qltb. rewrite negb_true_iff, <- not_true_iff_false, Qle_bool_iff.
  split; [apply Qnot_le_lt | apply Qlt_not_le].
Qed.

Lemma Qltb_ge (x y : Q) : Qltb x y = false <-> y <= x.
Proof. unfold Qltb. rewrite negb_false_iff. apply Qle_bool_iff. Qed.

Lemma Qgtb_gt (x y : Q) : Qgtb x y = true <-> y < x.
Proof. apply Qltb_lt. Qed.

Lemma Qgtb_le (x y : Q) : Qgtb x y = false <-> x <= y.
Proof. apply Qltb_ge. Qed.

(** Case analysis on a comparison, leaving the order fact in the context. *)
Ltac case_Qltb x y :=
  let H := fresh "Hcmp" in
  destruct (Qltb x y) eqn:H;
  [apply Qltb_lt in H | apply Qltb_ge in H].

Ltac case_Qgtb x y :=
  let H := fresh "Hcmp" in
  destruct (Qgtb x y) eqn:H;
  [apply Qgtb_gt in H | apply Qgtb_le in H].

Lemma py_min_glb (a b : Q) : py_min a b <= a /\ py_min a b <= b.
Proof. unfold py_min. case_Qltb b a; lra. Qed.

Lemma py_max_lub (a b : Q) : a <= py_max a b /\ b <= py_max a b.
Proof. unfold py_max. case_Qgtb b a; lra. Qed.

(** [max(lo, min(hi, x))] stays between [lo] and [hi]. *)
Lemma clamp_between (lo hi x : Q) :
  lo <= hi -> lo <= py_max lo (py_min hi x) <= hi.
Proof.
  intros Hlh. unfold py_max, py_min.
  case_Qltb x hi; [case_Qgtb x lo | case_Qgtb hi lo]; lra.
Qed.

(** The empty dict is returned for the empty list only. *)
Lemma calculate_aggregate_metrics_nonempty (ms : list Month.MonthlySummary) :
  ms <> [] -> is_Some (calculate_aggregate_metrics ms).
Proof. destruct ms; [congruence | intros _; eexists; reflexivity]. Qed.

Lemma calculate_aggregate_metrics_empty : calculate_aggregate_metrics [] = None.
Proof. reflexivity. Qed.


(** The compliance score of the aggregate is between 0 and 100. *)
Lemma gst_compliance_score_range (ms : list Month.MonthlySummary) m :
  calculate_aggregate_metrics ms = Some m ->
  (0 <= Metrics.gst_compliance_score m <= 100)%Z.
Proof.
  destruct ms as [|a l]; [discriminate |].
  intros [= <-]. cbn [Metrics.gst_compliance_score].
  assert (Hn : (1 <= Z.of_nat (length (a :: l)))%Z) by (simpl length; lia).
  destruct (forallb _ _); lia.
Qed.

(** ** Metrics Aggregator *)

(** C7. For a non-empty list of monthly summaries the aggregate metrics
    exist; [gst_compliance_score] is in [0, 100] and is
    [min(100, filing_frequency * 15 + (50 if uses_standard_rates else 0))]
    with [filing_frequency] the number of months; [profit_margin_estimate]
    is in [5, 25] when total sales are positive and is [10] when total
    sales are zero. *)
Theorem compliance_score_and_margin_bounds (ms : list Month.MonthlySummary) :
  ms <> [] ->
  exists m, calculate_aggregate_metrics ms = Some m /\
    Metrics.filing_frequency m = Z.of_nat (length ms) /\
    Metrics.total_sales m = py_sum (map Month.total_sales ms) /\
    (0 <= Metrics.gst_compliance_score m <= 100)%Z /\
    Metrics.gst_compliance_score m
      = Z.min 100 (Metrics.filing_frequency m * 15
                   + (if Metrics.uses_standard_rates m then 50 else 0))%Z /\
    (0 < Metrics.total_sales m ->
       5 <= Metrics.profit_margin_estimate m <= 25) /\
    (Metrics.total_sales m == 0 -> Metrics.profit_margin_estimate m == 10).
Proof.
  intros Hne. destruct ms as [|a l]; [congruence |].
  eexists. split; [reflexivity |].
  cbn [Metrics.filing_frequency Metrics.total_sales Metrics.gst_compliance_score
       Metrics.uses_standard_rates Metrics.profit_margin_estimate].
  set (n := Z.of_nat (length (a :: l))).
  assert (Hn : (1 <= n)%Z) by (subst n; simpl length; lia).
  set (ts := py_sum (map Month.total_sales (a :: l))).
  repeat split.
  - destruct (forallb _ _); lia.
  - lia.
  - case_Qgtb ts 0; [| lra]. apply clamp_between. lra.
  - case_Qgtb ts 0; [| lra]. apply clamp_between. lra.
  - intros Hz. case_Qgtb ts 0; [lra | reflexivity].
Qed.

(** C8. For a non-empty list of monthly summaries the two percentages add
    up to 100; with positive total sales [b2b_percentage] is
    [100 * sum(b2b_sales) / total_sales]; with zero total sales it is [0]
    and [b2c_percentage] is [100]. *)
Theorem b2b_b2c_percentages (ms : list Month.MonthlySummary) :
  ms <> [] ->
  exists m, calculate_aggregate_metrics ms = Some m /\
    Metrics.total_sales m = py_sum (map Month.total_sales ms) /\
    Metrics.b2b_percentage m + Metrics.b2c_percentage m == 100 /\
    (0 < Metrics.total_sales m ->
       Metrics.b2b_percentage m
       == 100 * py_sum (map Month.b2b_sales ms) / Metrics.total_sales m) /\
    (Metrics.total_sales m == 0 ->
       Metrics.b2b_percentage m == 0 /\ Metrics.b2c_percentage m == 100).
Proof.
  intros Hne. destruct ms as [|a l]; [congruence |].
  eexists. split; [reflexivity |].
  cbn [Metrics.total_sales Metrics.b2b_percentage Metrics.b2c_percentage].
  set (ts := py_sum (map Month.total_sales (a :: l))).
  set (b2b := py_sum (map Month.b2b_sales (a :: l))).
  repeat split.
  - ring.
  - intros Hpos. case_Qgtb ts 0; [| lra]. field. lra.
  - case_Qgtb ts 0; [lra | reflexivity].
  - case_Qgtb ts 0; [lra | ring].
Qed.

(** ** Loan Assessment Engine *)

(** Splits every conditional of the goal. *)
Ltac split_ifs :=
  repeat match goal with
         | |- context [if ?c then _ else _] => destruct c
         end.

(** The loan assessment reports the score and grade of
    [calculate_credit_score], and the turnover and margin it read. *)
Lemma calculate_loan_eligibility_fields to_datetime now bd gm :
  let r := calculate_loan_eligibility to_datetime now bd gm in
  calculate_credit_score to_datetime now bd gm
    = (Loan.credit_score r, Loan.credit_grade_of r) /\
  Loan.profit_margin r = get_profit_margin_estimate gm /\
  Loan.annual_turnover r = get_annual_turnover gm.
Proof.
  unfold calculate_loan_eligibility.
  destruct (calculate_credit_score to_datetime now bd gm) as [s g].
  repeat split.
Qed.

(** The score before the cap is at least the base score plus twice the
    compliance points, whatever the tiers add. *)
Lemma calculate_credit_score_shape to_datetime now bd gm :
  exists raw : Z,
    (300 + Z.min 200 (get_gst_compliance_score gm * 2) + 25 <= raw)%Z /\
    calculate_credit_score to_datetime now bd gm
    = (Z.min raw 900,
       if (Z.min raw 900 >=? 750)%Z then excellent
       else if (Z.min raw 900 >=? 650)%Z then good
       else if (Z.min raw 900 >=? 500)%Z then fair
       else poor).
Proof.
  unfold calculate_credit_score. cbv zeta.
  set (base := (300 + Z.min 200 (get_gst_compliance_score gm * 2))%Z).
  set (turnover := if Qgtb (get_annual_turnover gm) 50000000 then _ else _).
  assert (Hturnover : (base <= turnover)%Z) by (subst turnover; split_ifs; lia).
  clearbody turnover.
  set (filing := if (get_filing_frequency gm >=? 12)%Z then _ else _).
  assert (Hfiling : (turnover <= filing)%Z) by (subst filing; split_ifs; lia).
  clearbody filing.
  set (vintage := try_except _ _).
  assert (Hvintage : (filing <= vintage)%Z).
  { subst vintage.
    destruct (to_datetime (bd !! "incorporation_date")) as [e | d]; simpl; [lia |].
    destruct (years_since now d) as [e | y]; simpl; split_ifs; lia. }
  clearbody vintage.
  match goal with
  | |- context [Z.min ?s 900] => exists s
  end.
  split; [split_ifs; lia | reflexivity].
Qed.

(** C6. For a non-empty list of monthly summaries, the credit score of the
    loan assessment is in [300, 900], and the grade is excellent from 750,
    good from 650 below 750, fair from 500 below 650 and poor below 500. *)
Theorem credit_score_range_and_grade to_datetime now bd (ms : list Month.MonthlySummary) :
  ms <> [] ->
  exists m, calculate_aggregate_metrics ms = Some m /\
    let r := calculate_loan_eligibility to_datetime now bd (Some m) in
    let score := Loan.credit_score r in
    let grade := Loan.credit_grade_of r in
    calculate_credit_score to_datetime now bd (Some m) = (score, grade) /\
    (300 <= score <= 900)%Z /\
    ((750 <= score)%Z -> grade = excellent) /\
    ((650 <= score < 750)%Z -> grade = good) /\
    ((500 <= score < 650)%Z -> grade = fair) /\
    ((score < 500)%Z -> grade = poor).
Proof.
  intros Hne.
  destruct (calculate_aggregate_metrics_nonempty ms Hne) as [m Hm].
  assert (Hgcs := gst_compliance_score_range ms m Hm).
  exists m. split; [exact Hm |].
  destruct (calculate_loan_eligibility_fields to_datetime now bd (Some m))
    as (Hsg & _).
  cbv zeta. split; [exact Hsg |].
  destruct (calculate_credit_score_shape to_datetime now bd (Some m))
    as (raw & Hraw & Heq).
  set (r := calculate_loan_eligibility to_datetime now bd (Some m)) in *.
  rewrite Heq in Hsg.
  assert (Hs : Loan.credit_score r = Z.min raw 900) by congruence.
  assert (Hg : Loan.credit_grade_of r
               = if (Z.min raw 900 >=? 750)%Z then excellent
                 else if (Z.min raw 900 >=? 650)%Z then good
                 else if (Z.min raw 900 >=? 500)%Z then fair
                 else poor) by congruence.
  rewrite Hs, Hg. clear Hs Hg Heq Hsg.
  simpl in Hraw.
  rewrite !Z.geb_leb.
  repeat split; try lia; intros;
    repeat match goal with
           | |- context [(?a <=? ?b)%Z] => destruct (Z.leb_spec a b); try lia
           end; reflexivity.
Qed.

(** Whatever the months hold, the estimated margin of the aggregate is
    at least 5. *)
Lemma profit_margin_estimate_at_least_5 (ms : list Month.MonthlySummary) m :
  calculate_aggregate_metrics ms = Some m ->
  5 <= Metrics.profit_margin_estimate m.
Proof.
  destruct ms as [|a l]; [discriminate |].
  intros [= <-]. cbn [Metrics.profit_margin_estimate].
  match goal with
  | |- context [Qgtb ?ts 0] => case_Qgtb ts 0
  end; [| lra].
  apply clamp_between. lra.
Qed.

(** C10. For a non-empty list of monthly summaries the aggregate
    [profit_margin_estimate] is at least 5, and the loan assessment on
    these metrics never takes the branch [profit_margin < 5] that adds
    1.0 to the rate. *)
Theorem profit_margin_floor_skips_penalty to_datetime now bd
    (ms : list Month.MonthlySummary) :
  ms <> [] ->
  exists m, calculate_aggregate_metrics ms = Some m /\
    5 <= Metrics.profit_margin_estimate m /\
    let r := calculate_loan_eligibility to_datetime now bd (Some m) in
    Loan.profit_margin r = Metrics.profit_margin_estimate m /\
    margin_branch_of (Loan.profit_margin r) <> MarginBelow5 /\
    forall base_rate,
      apply_margin_branch (margin_branch_of (Loan.profit_margin r)) base_rate
      <= base_rate.
Proof.
  intros Hne.
  destruct (calculate_aggregate_metrics_nonempty ms Hne) as [metrics Hm].
  exists metrics. split; [exact Hm |].
  assert (Hfloor := profit_margin_estimate_at_least_5 ms metrics Hm).
  split; [exact Hfloor |].
  destruct (calculate_loan_eligibility_fields to_datetime now bd (Some metrics))
    as (_ & Hpm & _).
  cbv zeta. rewrite Hpm. simpl get_profit_margin_estimate.
  split; [reflexivity |].
  unfold margin_branch_of.
  case_Qgtb (Metrics.profit_margin_estimate metrics) 20.
  - split; [discriminate | intros; simpl; lra].
  - case_Qltb (Metrics.profit_margin_estimate metrics) 5.
    + lra.
    + split; [discriminate | intros; simpl; lra].
Qed.

(** The clock is read only to count the whole days since incorporation. *)
Lemma years_since_same_day {A : Type} (to_datetime : option string -> exn + datetime_val)
    now1 now2 (x : option string) (k : option Q -> exn + A) :
  (forall t, to_datetime x = inr (Timestamp t) ->
             ((now1 - t) / ns_per_day = (now2 - t) / ns_per_day)%Z) ->
  (d ← to_datetime x; years_since now1 d ≫= k)
  = (d ← to_datetime x; years_since now2 d ≫= k).
Proof.
  intros Hdays.
  destruct (to_datetime x) as [e | [t | |]]; try reflexivity.
  simpl. rewrite (Hdays t eq_refl). reflexivity.
Qed.

Lemma calculate_credit_score_same_day to_datetime now1 now2 bd gm :
  (forall t, to_datetime (bd !! "incorporation_date") = inr (Timestamp t) ->
             ((now1 - t) / ns_per_day = (now2 - t) / ns_per_day)%Z) ->
  calculate_credit_score to_datetime now1 bd gm
  = calculate_credit_score to_datetime now2 bd gm.
Proof.
  intros Hdays. unfold calculate_credit_score. cbv zeta.
  rewrite !(years_since_same_day to_datetime now1 now2 _ _ Hdays).
  reflexivity.
Qed.

(** C4, amended. The loan assessment is a function of the profile, the
    metrics and the clock, and the clock matters only through the number of
    whole days elapsed since the incorporation date: two assessments of the
    same profile and metrics are identical whenever that number is the same
    at both clock readings (in particular when the date is not a
    timestamp). *)
Theorem assess_deterministic_up_to_day to_datetime now1 now2 bd gm :
  (forall t, to_datetime (bd !! "incorporation_date") = inr (Timestamp t) ->
             ((now1 - t) / ns_per_day = (now2 - t) / ns_per_day)%Z) ->
  calculate_loan_eligibility to_datetime now1 bd gm
  = calculate_loan_eligibility to_datetime now2 bd gm.
Proof.
  intros Hdays. unfold calculate_loan_eligibility.
  rewrite (calculate_credit_score_same_day to_datetime now1 now2 bd gm Hdays).
  reflexivity.
Qed.

(** C4 as stated fails: the same profile and metrics assessed on
    2020-06-01 and on 2026-01-01 get the scores 555 and 655 and the grades
    fair and good. *)
Lemma assess_depends_on_clock :
  let bd := profile "trader" "2020-01-01" "Gujarat" in
  let gm := Some (sample_metrics 1200000) in
  let r1 := calculate_loan_eligibility iso_to_datetime (midnight 2020 6 1) bd gm in
  let r2 := calculate_loan_eligibility iso_to_datetime (midnight 2026 1 1) bd gm in
  (Loan.credit_score r1, Loan.credit_grade_of r1) = (555%Z, fair) /\
  (Loan.credit_score r2, Loan.credit_grade_of r2) = (655%Z, good) /\
  r1 <> r2.
Proof.
  cbv zeta. split; [vm_compute; reflexivity |]. split; [vm_compute; reflexivity |].
  intros Heq. apply (f_equal Loan.credit_score) in Heq.
  vm_compute in Heq. discriminate.
Qed.

(** ** Scheme Eligibility Evaluator *)

Lemma verdict_in_catalog (key : string) (e : bool) (why : string) :
  is_Some (schemes !! key) -> verdict key e why = inr (catalog_verdict key e why).
Proof.
  intros [i Hi]. unfold verdict, schemes_getitem, catalog_verdict.
  rewrite Hi. reflexivity.
Qed.

Lemma if_inr_verdict (c : bool) (key w1 w2 : string) :
  (if c then inr (catalog_verdict key true w1) else inr (catalog_verdict key false w2))
  = (inr (catalog_verdict key c (if c then w1 else w2)) : exn + EligibilityVerdict).
Proof. destruct c; reflexivity. Qed.

(** The evaluator runs the startup rule and, when that returns, yields the
    six verdicts. *)
Lemma assess_scheme_eligibility_unfold to_datetime str_lower bd gm :
  let bt := bd !! "business_type" in
  let turnover := get_annual_turnover gm in
  let threshold := composition_threshold_of str_lower (default "" (bd !! "state")) in
  exists w1 w2 w4 w5 w6 : string,
  assess_scheme_eligibility to_datetime str_lower bd gm
  = (v3 ← startup_rule to_datetime bd gm;
     mret (<["gst_composition" :=
               catalog_verdict "gst_composition"
                 (Qltb turnover (inject_Z threshold)
                  && get_in bt ["manufacturer"; "trader"; "restaurant"]) w6]>
          (<["gem_platform" :=
               catalog_verdict "gem_platform"
                 (get_filing_frequency gm >=? 3)%Z w5]>
          (<["digital_lending" :=
               catalog_verdict "digital_lending"
                 ((get_gst_compliance_score gm >? 60)%Z && Qgtb turnover 500000) w4]>
          (<["startup_tax_benefits" := v3]>
          (<["pmmy_loans" :=
               catalog_verdict "pmmy_loans"
                 (get_in bt ["msme"; "manufacturer"; "trader"]) w2]>
          (<["advance_authorisation" :=
               catalog_verdict "advance_authorisation"
                 (bool_decide (bt = Some "exporter")) w1]> ∅))))))).
Proof.
  cbv zeta. unfold assess_scheme_eligibility, startup_rule, composition_threshold_of.
  cbv zeta.
  rewrite !(verdict_in_catalog "advance_authorisation") by (eexists; reflexivity).
  rewrite !(verdict_in_catalog "pmmy_loans") by (eexists; reflexivity).
  rewrite !(verdict_in_catalog "digital_lending") by (eexists; reflexivity).
  rewrite !(verdict_in_catalog "gem_platform") by (eexists; reflexivity).
  rewrite !(verdict_in_catalog "gst_composition") by (eexists; reflexivity).
  rewrite !if_inr_verdict.
  do 5 eexists. reflexivity.
Qed.

(** The startup rule returns a verdict unless reading a date raises or
    gives [None]. *)
Lemma startup_rule_returns to_datetime bd gm :
  (bd !! "business_type" = Some "startup" ->
   exists d t0, to_datetime (bd !! "incorporation_date") = inr d /\ d <> PyNone /\
                to_datetime (Some "2016-04-01") = inr (Timestamp t0)) ->
  exists v, startup_rule to_datetime bd gm = inr v.
Proof.
  intros Hdate. unfold startup_rule. case_bool_decide as Hbt.
  - destruct (Hdate Hbt) as (d & t0 & -> & Hd & ->).
    destruct d as [t | |]; [| | congruence]; simpl;
      try destruct (_ && _);
      rewrite verdict_in_catalog by (eexists; reflexivity); eauto.
  - rewrite verdict_in_catalog by (eexists; reflexivity). eauto.
Qed.

Lemma startup_rule_raises to_datetime bd gm e :
  bd !! "business_type" = Some "startup" ->
  to_datetime (bd !! "incorporation_date") = inl e ->
  startup_rule to_datetime bd gm = inl e.
Proof.
  intros Hbt Hdate. unfold startup_rule.
  rewrite Hbt, Hdate. reflexivity.
Qed.

Lemma get_in_true (v : option string) (xs : list string) :
  get_in v xs = true <-> exists s, v = Some s /\ s ∈ xs.
Proof.
  destruct v as [s |]; simpl.
  - rewrite bool_decide_eq_true. split; [eauto | intros (? & [= <-] & ?); done].
  - split; [discriminate | intros (? & ? & _); discriminate].
Qed.

Lemma not_in_rule_keys (key : string) :
  bool_decide (key ∈ rule_keys) = false ->
  key ∉ ({[ "advance_authorisation"; "pmmy_loans"; "startup_tax_benefits";
            "digital_lending"; "gem_platform"; "gst_composition" ]} : gset string).
Proof.
  intros Hkey Hin. apply bool_decide_eq_false in Hkey. apply Hkey.
  unfold rule_keys. rewrite !elem_of_cons.
  rewrite !elem_of_union, !elem_of_singleton in Hin. tauto.
Qed.

(** When the evaluator returns, it returns the six verdicts over the
    verdict of the startup rule. *)
Lemma assess_scheme_eligibility_returns to_datetime str_lower bd gm results :
  assess_scheme_eligibility to_datetime str_lower bd gm = inr results ->
  dom results = {[ "advance_authorisation"; "pmmy_loans"; "startup_tax_benefits";
                   "digital_lending"; "gem_platform"; "gst_composition" ]} /\
  exists v, results !! "gst_composition" = Some v /\
    eligible v
    = Qltb (get_annual_turnover gm)
           (inject_Z (composition_threshold_of str_lower (default "" (bd !! "state"))))
      && get_in (bd !! "business_type") ["manufacturer"; "trader"; "restaurant"].
Proof.
  destruct (assess_scheme_eligibility_unfold to_datetime str_lower bd gm)
    as (w1 & w2 & w4 & w5 & w6 & ->).
  destruct (startup_rule to_datetime bd gm) as [e | v3]; [discriminate |].
  intros [= <-]. split.
  - rewrite !dom_insert_L, dom_empty_L. set_solver.
  - eexists. split; [apply lookup_insert_eq | reflexivity].
Qed.

Lemma assess_scheme_eligibility_total to_datetime str_lower bd gm :
  (bd !! "business_type" = Some "startup" ->
   exists d t0, to_datetime (bd !! "incorporation_date") = inr d /\ d <> PyNone /\
                to_datetime (Some "2016-04-01") = inr (Timestamp t0)) ->
  exists results, assess_scheme_eligibility to_datetime str_lower bd gm = inr results.
Proof.
  intros Hdate.
  destruct (startup_rule_returns to_datetime bd gm Hdate) as [v3 Hv3].
  destruct (assess_scheme_eligibility_unfold to_datetime str_lower bd gm)
    as (w1 & w2 & w4 & w5 & w6 & ->).
  rewrite Hv3. eexists. reflexivity.
Qed.

(** The evaluator raises only inside the startup rule. *)
Lemma assess_scheme_eligibility_raises_startup to_datetime str_lower bd gm e :
  assess_scheme_eligibility to_datetime str_lower bd gm = inl e ->
  bd !! "business_type" = Some "startup".
Proof.
  destruct (assess_scheme_eligibility_unfold to_datetime str_lower bd gm)
    as (w1 & w2 & w4 & w5 & w6 & ->).
  unfold startup_rule.
  destruct (bool_decide (bd !! "business_type" = Some "startup")) eqn:Hbt.
  - intros _. apply bool_decide_eq_true in Hbt. exact Hbt.
  - rewrite verdict_in_catalog by (eexists; reflexivity). discriminate.
Qed.

(** C2, at the code: for a startup whose incorporation date cannot be read
    as a date, the evaluator raises the exception of [pd.to_datetime]
    instead of returning an ineligible verdict. *)
Theorem startup_unparsable_date_raises to_datetime str_lower bd gm e :
  bd !! "business_type" = Some "startup" ->
  to_datetime (bd !! "incorporation_date") = inl e ->
  assess_scheme_eligibility to_datetime str_lower bd gm = inl e.
Proof.
  intros Hbt Hdate.
  destruct (assess_scheme_eligibility_unfold to_datetime str_lower bd gm)
    as (w1 & w2 & w4 & w5 & w6 & ->).
  rewrite (startup_rule_raises to_datetime bd gm e Hbt Hdate). reflexivity.
Qed.

(** C3, amended. Whenever reading the dates does not raise (the profile is
    not a startup, or its incorporation date is read as a timestamp or as
    NaT), the evaluator returns a mapping with exactly the six keys that
    have a rule, each a key of the catalog, and with no verdict for epcg,
    nsic_support and income_tax_deduction. *)
Theorem evaluator_returns_six_verdicts to_datetime str_lower bd gm :
  (bd !! "business_type" = Some "startup" ->
   exists d t0, to_datetime (bd !! "incorporation_date") = inr d /\ d <> PyNone /\
                to_datetime (Some "2016-04-01") = inr (Timestamp t0)) ->
  exists results,
    assess_scheme_eligibility to_datetime str_lower bd gm = inr results /\
    dom results = {[ "advance_authorisation"; "pmmy_loans"; "startup_tax_benefits";
                     "digital_lending"; "gem_platform"; "gst_composition" ]} /\
    dom results ⊆ dom schemes /\
    results !! "epcg" = None /\
    results !! "nsic_support" = None /\
    results !! "income_tax_deduction" = None.
Proof.
  intros Hdate.
  destruct (assess_scheme_eligibility_total to_datetime str_lower bd gm Hdate)
    as [results Heq].
  exists results. split; [exact Heq |].
  destruct (assess_scheme_eligibility_returns _ _ _ _ _ Heq) as [Hdom _].
  split; [exact Hdom |].
  split.
  - rewrite Hdom. intros key Hkey. apply elem_of_dom.
    repeat (apply elem_of_union in Hkey as [Hkey | Hkey]);
      apply elem_of_singleton in Hkey; subst key; eexists; reflexivity.
  - repeat split; apply not_elem_of_dom; rewrite Hdom;
      apply not_in_rule_keys; reflexivity.
Qed.

(** C3 as stated fails: for a trader the evaluator returns six verdicts
    while the catalog has nine keys; epcg has no verdict. *)
Lemma evaluator_omits_catalog_keys :
  exists results,
    assess_scheme_eligibility iso_to_datetime lower
      (profile "trader" "2020-01-01" "Gujarat") (Some (sample_metrics 1200000))
    = inr results /\
    size (dom schemes) = 9%nat /\ size (dom results) = 6%nat /\
    "epcg" ∈ dom schemes /\ results !! "epcg" = None /\
    ~ (forall key, key ∈ dom schemes -> is_Some (results !! key)).
Proof.
  destruct (assess_scheme_eligibility_total iso_to_datetime lower
              (profile "trader" "2020-01-01" "Gujarat")
              (Some (sample_metrics 1200000)))
    as [results Heq].
  { intros Hbt. vm_compute in Hbt. discriminate. }
  exists results. split; [exact Heq |].
  destruct (assess_scheme_eligibility_returns _ _ _ _ _ Heq) as [Hdom _].
  assert (Hin : "epcg" ∈ dom schemes) by (apply elem_of_dom; eexists; reflexivity).
  assert (Hepcg : results !! "epcg" = None)
    by (apply not_elem_of_dom; rewrite Hdom; apply not_in_rule_keys; reflexivity).
  split; [reflexivity |].
  split; [rewrite Hdom; reflexivity |].
  split; [exact Hin |].
  split; [exact Hepcg |].
  intros Hall. destruct (Hall "epcg" Hin) as [v Hv]. congruence.
Qed.

(** ** The composition rule *)

Lemma ne_hill_states_lowercase : Forall (fun n => lower n = n) ne_hill_states.
Proof. repeat constructor. Qed.

(** With the case mapping of ASCII text, the states of the special category
    are those in which some run is one of the ten names up to the case of
    its letters. *)
Lemma special_category_state_ascii (state : string) :
  special_category_state lower state
  <-> Exists (contains_ignoring_ascii_case state) ne_hill_states.
Proof.
  unfold special_category_state. rewrite !List.Exists_exists.
  split; intros (n & Hn & Hc); exists n; (split; [exact Hn |]);
    apply (contains_ignoring_case_ascii state n); try exact Hc;
    exact (proj1 (List.Forall_forall _ _) ne_hill_states_lowercase n Hn).
Qed.

Lemma existsb_ne_hill_states (str_lower : string -> string) (state : string) :
  existsb (fun ne_state => str_in ne_state (str_lower state)) ne_hill_states = true
  <-> special_category_state str_lower state.
Proof.
  unfold special_category_state, contains_ignoring_case.
  rewrite existsb_exists, List.Exists_exists. split.
  - intros (n & Hn & Hin). exists n. split; [exact Hn |].
    apply str_in_substring. exact Hin.
  - intros (n & Hn & Hci). exists n. split; [exact Hn |].
    apply str_in_substring. exact Hci.
Qed.

Lemma composition_threshold_of_spec (str_lower : string -> string) (state : string)
    (threshold : Q) :
  composition_threshold str_lower state threshold ->
  threshold = inject_Z (composition_threshold_of str_lower state).
Proof.
  unfold composition_threshold, composition_threshold_of.
  intros [[Hs ->] | [Hs ->]].
  - apply existsb_ne_hill_states in Hs. rewrite Hs. reflexivity.
  - destruct (existsb _ _) eqn:Hex; [| reflexivity].
    apply existsb_ne_hill_states in Hex. contradiction.
Qed.

(** C9. The evaluator yields an eligible gst_composition verdict exactly
    when the business type is manufacturer, trader or restaurant and the
    annual turnover is strictly below the threshold of the state: 7,500,000
    when the state contains, case ignored, one of the ten listed names (the
    name occurs in the state as [str.lower()] lower-cases it, for every
    profile and whatever that case mapping is), and 15,000,000 otherwise. *)
Theorem gst_composition_rule to_datetime str_lower bd gm (threshold : Q) :
  composition_threshold str_lower (default "" (bd !! "state")) threshold ->
  (exists results v,
     assess_scheme_eligibility to_datetime str_lower bd gm = inr results /\
     results !! "gst_composition" = Some v /\ eligible v = true)
  <-> ((exists b, bd !! "business_type" = Some b /\
                  b ∈ ["manufacturer"; "trader"; "restaurant"]) /\
       get_annual_turnover gm < threshold).
Proof.
  intros Hthr. apply composition_threshold_of_spec in Hthr. subst threshold.
  set (rule := Qltb (get_annual_turnover gm)
                   (inject_Z (composition_threshold_of str_lower (default "" (bd !! "state"))))
              && get_in (bd !! "business_type") ["manufacturer"; "trader"; "restaurant"]).
  assert (Hiff : rule = true <->
            (exists b, bd !! "business_type" = Some b /\
                       b ∈ ["manufacturer"; "trader"; "restaurant"]) /\
            get_annual_turnover gm
            < inject_Z (composition_threshold_of str_lower (default "" (bd !! "state")))).
  { subst rule. rewrite andb_true_iff, Qltb_lt, get_in_true. tauto. }
  rewrite <- Hiff. clear Hiff. subst rule. split.
  - intros (results & v & Heq & Hv & Heligible).
    destruct (assess_scheme_eligibility_returns _ _ _ _ _ Heq) as (_ & v' & Hv' & <-).
    congruence.
  - intros Hrule.
    destruct (assess_scheme_eligibility_total to_datetime str_lower bd gm) as [results Heq].
    { intros Hbt. rewrite Hbt in Hrule. rewrite andb_true_iff in Hrule.
      destruct Hrule as [_ Hin]. vm_compute in Hin. discriminate. }
    destruct (assess_scheme_eligibility_returns _ _ _ _ _ Heq) as (_ & v & Hv & Hel).
    exists results, v. rewrite Hel. auto.
Qed.

(** ** Tabular Parser *)

Lemma lstrip_head (s : string) c r :
  lstrip s = String c r -> is_py_space c = false.
Proof.
  induction s as [| a s IH]; simpl; [discriminate |].
  destruct (is_py_space a) eqn:Ha; [exact IH |].
  intros [= <- _]. exact Ha.
Qed.

Lemma rstrip_head (s : string) c r :
  rstrip s = String c r -> exists r0, s = String c r0.
Proof.
  destruct s as [| a s]; simpl; [discriminate |].
  destruct (rstrip s); [destruct (is_py_space a) |];
    intros [= <- _]; eauto; discriminate.
Qed.

Lemma rstrip_last (s : string) r c :
  rstrip s = r +:+ String c "" -> is_py_space c = false.
Proof.
  revert r. induction s as [| a s IH]; intros r; simpl.
  - destruct r; discriminate.
  - destruct (rstrip s) as [| b t].
    + destruct (is_py_space a) eqn:Ha.
      * destruct r; discriminate.
      * destruct r as [| x r]; [intros [= <-]; exact Ha |].
        rewrite append_cons. intros [= _ Hr]. destruct r; discriminate.
    + destruct r as [| x r]; [discriminate |].
      rewrite append_cons. intros [= _ Hr]. exact (IH r Hr).
Qed.

(** [strip] returns a trimmed name. *)
Lemma strip_trimmed (s : string) : trimmed (strip s).
Proof.
  unfold strip. split.
  - intros c r Heq. destruct (rstrip_head _ _ _ Heq) as [r0 Hl].
    exact (lstrip_head _ _ _ Hl).
  - intros r c Heq. exact (rstrip_last _ _ _ Heq).
Qed.

Lemma strip_columns_trimmed (df : DataFrame) :
  Forall trimmed (columns (strip_columns df)).
Proof.
  unfold columns, strip_columns. simpl.
  induction (df_columns df) as [| nc cs IH]; simpl; constructor.
  - apply strip_trimmed.
  - exact IH.
Qed.

(** The sales parsers return trimmed column names, whatever the reader
    returns or raises. *)
Lemma parse_b2b_file_trimmed read_csv (content : string) :
  Forall trimmed (columns (fst (parse_b2b_file read_csv content))).
Proof.
  unfold parse_b2b_file. destruct (read_csv content) as [e | df]; simpl.
  - constructor.
  - apply strip_columns_trimmed.
Qed.

Lemma parse_b2c_file_trimmed read_csv (content : string) :
  Forall trimmed (columns (fst (parse_b2c_file read_csv content))).
Proof.
  unfold parse_b2c_file. destruct (read_csv content) as [e | df]; simpl.
  - constructor.
  - apply strip_columns_trimmed.
Qed.

(** C5, at the code: the purchase parser returns the table as read, so its
    column names are the names of the file, padding included. *)
Theorem parse_purchase_file_keeps_names read_csv read_excel (content : string) df :
  (if startswith content "GSTIN" then read_csv content else read_excel content)
  = inr df ->
  parse_purchase_file read_csv read_excel content = (df, []).
Proof.
  intros Hread. unfold parse_purchase_file.
  destruct (startswith content "GSTIN"); rewrite Hread; reflexivity.
Qed.

Lemma padded_name_not_trimmed : ~ trimmed " Taxable Value ".
Proof. intros [Hhead _]. specialize (Hhead _ _ eq_refl). discriminate. Qed.

(** ** Monthly Aggregator *)

Lemma find_column_missing (name : string) (cs : list (string * list cell)) :
  name ∉ map fst cs -> find_column name cs = None.
Proof.
  induction cs as [| [n c] cs IH]; simpl; [reflexivity |].
  intros Hnot. case_bool_decide as Hn.
  - subst n. exfalso. apply Hnot. apply list_elem_of_here.
  - apply IH. intros Hin. apply Hnot. apply list_elem_of_further. exact Hin.
Qed.

(** [df[name]] raises for a name that [name in df.columns] rejects. *)
Lemma getitem_missing (df : DataFrame) (name : string) :
  has_column name df = false -> getitem df name = inl (KeyError name).
Proof.
  unfold has_column, getitem, columns. intros Hcol.
  apply bool_decide_eq_false in Hcol.
  rewrite (find_column_missing _ _ Hcol). reflexivity.
Qed.

(** C1, at the code: a B2B table with rows but without the column
    Invoice Value makes the monthly analysis raise [KeyError]. *)
Theorem b2b_without_invoice_value_raises (month_name : string)
    (b2b_df b2c_df purchase_df : DataFrame) :
  df_empty b2b_df = false ->
  has_column "Invoice Value" b2b_df = false ->
  analyze_monthly_data month_name b2b_df b2c_df purchase_df
  = inl (KeyError "Invoice Value").
Proof.
  intros Hrows Hcol. unfold analyze_monthly_data, column_total. cbv zeta.
  rewrite Hrows, (getitem_missing _ _ Hcol). reflexivity.
Qed.

(** The same for a B2C table without the column Taxable Value. *)
Lemma b2c_without_taxable_value_raises (month_name : string)
    (b2b_df b2c_df purchase_df : DataFrame) :
  df_empty b2b_df = true ->
  df_empty b2c_df = false ->
  has_column "Taxable Value" b2c_df = false ->
  analyze_monthly_data month_name b2b_df b2c_df purchase_df
  = inl (KeyError "Taxable Value").
Proof.
  intros Hb2b Hrows Hcol. unfold analyze_monthly_data, column_total. cbv zeta.
  rewrite Hb2b, Hrows, (getitem_missing _ _ Hcol). reflexivity.
Qed.

Lemma find_column_present (name : string) (cs : list (string * list cell)) :
  name ∈ map fst cs -> is_Some (find_column name cs).
Proof.
  induction cs as [| [n c] cs IH]; simpl.
  - intros Hin. inversion Hin.
  - intros Hin. case_bool_decide as Hn; [eauto |].
    apply IH. apply elem_of_cons in Hin as [-> | Hin]; [congruence | exact Hin].
Qed.

(** [df[name]] returns for a name that [name in df.columns] accepts. *)
Lemma getitem_present (df : DataFrame) (name : string) :
  has_column name df = true -> exists c, getitem df name = inr c.
Proof.
  unfold has_column, getitem, columns. intros Hcol.
  apply bool_decide_eq_true in Hcol.
  destruct (find_column_present _ _ Hcol) as [c ->]. eauto.
Qed.

Lemma getitem_raises (df : DataFrame) (name : string) e :
  getitem df name = inl e -> e = KeyError name /\ has_column name df = false.
Proof.
  intros Hget. destruct (has_column name df) eqn:Hcol.
  - destruct (getitem_present _ _ Hcol) as [c Hc]. congruence.
  - rewrite (getitem_missing _ _ Hcol) in Hget. split; congruence.
Qed.

Lemma series_sum_raises (s : list cell) e : series_sum s = inl e -> e = TypeError.
Proof.
  induction s as [| [[q | t] |] s IH]; simpl; try discriminate; try exact IH.
  - destruct (series_sum s); simpl; [intros [= <-]; auto | discriminate].
  - congruence.
Qed.

Lemma series_mul_div100_raises (a b : list cell) e :
  series_mul_div100 a b = inl e -> e = TypeError.
Proof.
  revert b. induction a as [| x a IH]; intros [| y b]; simpl; try discriminate.
  destruct x as [[p | s] |], y as [[q | t] |]; try congruence;
    specialize (IH b); destruct (series_mul_div100 a b); simpl;
    try discriminate; intros [= <-]; auto.
Qed.

Lemma column_total_raises (df : DataFrame) (x : string) e :
  column_total df x = inl e ->
  (e = KeyError x /\ has_column x df = false) \/ e = TypeError.
Proof.
  unfold column_total. destruct (getitem df x) as [e' | c] eqn:Hget; simpl.
  - intros [= <-]. left. exact (getitem_raises _ _ _ Hget).
  - intros Hsum. right. exact (series_sum_raises _ _ Hsum).
Qed.

Lemma gst_from_raises (df : DataFrame) (x y : string) e :
  has_column x df = true -> has_column y df = true ->
  gst_from df x y = inl e -> e = TypeError.
Proof.
  intros Hx Hy. unfold gst_from.
  destruct (getitem_present _ _ Hx) as [a ->].
  destruct (getitem_present _ _ Hy) as [b ->]. simpl.
  destruct (series_mul_div100 (fillna0 a) (fillna0 b)) as [e' | p] eqn:Hmul; simpl.
  - intros [= <-]. exact (series_mul_div100_raises _ _ _ Hmul).
  - apply series_sum_raises.
Qed.

(** The monthly analysis raises [KeyError] only for the two columns it reads
    without asking whether they are there. *)
Lemma analyze_monthly_data_key_errors (month_name : string)
    (b2b_df b2c_df purchase_df : DataFrame) (key : string) :
  analyze_monthly_data month_name b2b_df b2c_df purchase_df = inl (KeyError key) ->
  (df_empty b2b_df = false /\ has_column "Invoice Value" b2b_df = false /\
   key = "Invoice Value") \/
  (df_empty b2c_df = false /\ has_column "Taxable Value" b2c_df = false /\
   key = "Taxable Value").
Proof.
  unfold analyze_monthly_data. cbv zeta.
  set (analysis0 := Month.mk _ _ _ _ _ _ _ _ _ _ _ _ _ _).
  generalize analysis0. clear analysis0. intros analysis0.
  (* B2B *)
  match goal with
  | |- (?blk ≫= ?k) = _ -> _ => destruct blk as [e | a1] eqn:Hb2b
  end.
  { simpl. intros [= ->]. left.
    destruct (df_empty b2b_df) eqn:Hempty; simpl in Hb2b; [discriminate |].
    destruct (column_total b2b_df "Invoice Value") as [e | t] eqn:Htotal;
      simpl in Hb2b.
    - injection Hb2b as ->.
      destruct (column_total_raises _ _ _ Htotal) as [[[= <-] Hcol] | [=]]. auto.
    - exfalso. revert Hb2b.
      destruct (has_column "Taxable Value" b2b_df) eqn:Htv;
        destruct (has_column "Rate" b2b_df) eqn:Hrate; simpl;
        try (destruct (gst_from b2b_df "Taxable Value" "Rate") as [e | g] eqn:Hgst;
             simpl; [intros [= ->]; discriminate (gst_from_raises _ _ _ _ Htv Hrate Hgst) |]);
        destruct (has_column "GSTIN/UIN of Recipient" b2b_df) eqn:Hgstin; simpl;
        try (destruct (getitem_present _ _ Hgstin) as [c ->]; simpl);
        try (destruct (getitem_present _ _ Hrate) as [r ->]; simpl);
        discriminate. }
  simpl.
  match goal with
  | |- (?blk ≫= ?k) = _ -> _ => destruct blk as [e | a2] eqn:Hb2c
  end.
  { simpl. intros [= ->]. right.
    destruct (df_empty b2c_df) eqn:Hempty; simpl in Hb2c; [discriminate |].
    destruct (column_total b2c_df "Taxable Value") as [e | t] eqn:Htotal;
      simpl in Hb2c.
    - injection Hb2c as ->.
      destruct (column_total_raises _ _ _ Htotal) as [[[= <-] Hcol] | [=]]. auto.
    - exfalso. revert Hb2c.
      destruct (has_column "Rate" b2c_df) eqn:Hrate; simpl; [| discriminate].
      assert (Htv : has_column "Taxable Value" b2c_df = true).
      { destruct (has_column "Taxable Value" b2c_df) eqn:Htv; [reflexivity |].
        unfold column_total in Htotal. rewrite (getitem_missing _ _ Htv) in Htotal.
        discriminate. }
      destruct (gst_from b2c_df "Taxable Value" "Rate") as [e | g] eqn:Hgst; simpl.
      + intros [= ->]. discriminate (gst_from_raises _ _ _ _ Htv Hrate Hgst).
      + destruct (getitem_present _ _ Hrate) as [r ->]. simpl. discriminate. }
  simpl.
  destruct (df_empty purchase_df); simpl; [discriminate |].
  destruct (has_column "Taxable Value" purchase_df) eqn:Htv.
  - destruct (column_total purchase_df "Taxable Value") as [e | t] eqn:Htotal; simpl;
      [| discriminate].
    intros [= ->].
    destruct (column_total_raises _ _ _ Htotal) as [[_ Hcol] | [=]]. congruence.
  - destruct (has_column "Invoice Value" purchase_df) eqn:Hiv; simpl; [| discriminate].
    destruct (column_total purchase_df "Invoice Value") as [e | t] eqn:Htotal; simpl;
      [| discriminate].
    intros [= ->].
    destruct (column_total_raises _ _ _ Htotal) as [[_ Hcol] | [=]]. congruence.
Qed.

(** The guarded columns are skipped when absent: a B2B table that has only
    Invoice Value gives the sales total and leaves the rest at zero. *)
Example b2b_only_invoice_value :
  analyze_monthly_data "Month 1"
    (mkDataFrame 2 [("Invoice Value", [Some (PNum 60000); None])])
    empty_frame empty_frame
  = inr (Month.mk "Month 1" 2 0 0 (60000 + (0 + 0)) 0
           (60000 + (0 + 0) + 0) 0 0 0 [] 0 0 0).
Proof. reflexivity. Qed.

(** The divisors of the loan computation are not zero: the rate is at
    least 8.5, the tenure at least 3 years, so [(1 + r) ** n - 1] is
    positive. *)
Lemma loan_divisors_positive to_datetime now bd gm :
  let r := calculate_loan_eligibility to_datetime now bd gm in
  let monthly_rate := Loan.interest_rate r / (12 * 100) in
  let tenure_months := (Loan.max_tenure_years r * 12)%Z in
  85 # 10 <= Loan.interest_rate r /\
  (3 <= Loan.max_tenure_years r)%Z /\
  0 < monthly_rate /\
  0 < (1 + monthly_rate) ^ tenure_months - 1.
Proof.
  unfold calculate_loan_eligibility.
  destruct (calculate_credit_score to_datetime now bd gm) as [score grade].
  cbv zeta. cbn [Loan.interest_rate Loan.max_tenure_years].
  match goal with
  | |- context [py_max ?b (85 # 10)] => set (base_rate := b)
  end.
  clearbody base_rate.
  set (years := if (score >? 700)%Z then 7%Z else if (score >? 600)%Z then 5%Z else 3%Z).
  assert (Hyears : (3 <= years)%Z) by (subst years; split_ifs; lia).
  clearbody years.
  assert (Hrate : 85 # 10 <= py_max base_rate (85 # 10)) by apply py_max_lub.
  set (rate := py_max base_rate (85 # 10)) in *. clearbody rate.
  assert (Hmonthly : 0 < rate / (12 * 100)).
  { apply Qlt_shift_div_l; lra. }
  repeat split; try assumption.
  assert (1 < (1 + rate / (12 * 100)) ^ (years * 12)); [| lra].
  apply Qpower_1_lt; [lra | lia].
Qed.

(** ** Scenarios of the specification *)

(** One month with B2B rows of invoice and taxable value 100,000 at rate 18
    and no other table: total sales 100,000, annual turnover 1,200,000,
    compliance score 65, standard rates. *)
Example scenario_one_month :
  exists s m,
    analyze_monthly_data "Month 1 (B2B)" b2b_one_month empty_frame empty_frame = inr s /\
    calculate_aggregate_metrics [s] = Some m /\
    Month.unique_customers s = 1%Z /\ Month.tax_rates_used s = [PNum 18] /\
    Month.gst_collected s == 18000 /\
    Metrics.total_sales m == 100000 /\ Metrics.annual_turnover m == 1200000 /\
    Metrics.gst_compliance_score m = 65%Z /\ Metrics.uses_standard_rates m = true.
Proof.
  do 2 eexists. split; [reflexivity |]. split; [reflexivity |].
  repeat split; vm_compute; reflexivity.
Qed.

(** A startup incorporated on 2015-01-01 is not eligible for the startup
    benefits, whatever its turnover. *)
Example scenario_startup_2015 (turnover : Q) :
  exists results v,
    assess_scheme_eligibility iso_to_datetime lower
      (profile "startup" "2015-01-01" "Gujarat") (Some (sample_metrics turnover))
    = inr results /\
    results !! "startup_tax_benefits" = Some v /\ eligible v = false.
Proof.
  destruct (assess_scheme_eligibility_unfold iso_to_datetime lower
              (profile "startup" "2015-01-01" "Gujarat")
              (Some (sample_metrics turnover)))
    as (w1 & w2 & w4 & w5 & w6 & Heq).
  assert (Hrule : startup_rule iso_to_datetime
                    (profile "startup" "2015-01-01" "Gujarat")
                    (Some (sample_metrics turnover))
                  = inr (catalog_verdict "startup_tax_benefits" false
                           "Must be incorporated after Apr 2016 with turnover < 100 Cr"))
    by reflexivity.
  rewrite Hrule in Heq. simpl in Heq.
  do 2 eexists. split; [exact Heq |].
  split.
  - rewrite !lookup_insert_ne by discriminate. apply lookup_insert_eq.
  - reflexivity.
Qed.

(** Months without sales: margin 10, no digital lending. *)
Example scenario_zero_turnover :
  exists m results v,
    calculate_aggregate_metrics
      [Month.mk "Month 1" 0 0 0 0 0 0 0 0 0 [] 0 0 0] = Some m /\
    Metrics.annual_turnover m == 0 /\ Metrics.profit_margin_estimate m == 10 /\
    assess_scheme_eligibility iso_to_datetime lower
      (profile "trader" "2020-01-01" "Gujarat") (Some m) = inr results /\
    results !! "digital_lending" = Some v /\ eligible v = false.
Proof.
  do 3 eexists. split; [reflexivity |].
  split; [vm_compute; reflexivity |]. split; [vm_compute; reflexivity |].
  split; [reflexivity |]. split; reflexivity.
Qed.

(** ** The theorems at worked inputs *)

(** C1 at a B2B table with one row and the single column Rate. *)
Lemma b2b_without_invoice_value_raises_at_rate_only :
  df_empty b2b_without_invoice_value = false /\
  has_column "Invoice Value" b2b_without_invoice_value = false /\
  analyze_monthly_data "Month 1" b2b_without_invoice_value empty_frame empty_frame
  = inl (KeyError "Invoice Value").
Proof.
  split; [reflexivity |]. split; [reflexivity |].
  apply (b2b_without_invoice_value_raises "Month 1" b2b_without_invoice_value
           empty_frame empty_frame); reflexivity.
Defined.

(** C2 at a startup whose incorporation date is the text "not a date". *)
Lemma startup_unparsable_date_raises_at_text :
  profile "startup" "not a date" "Gujarat" !! "business_type" = Some "startup" /\
  iso_to_datetime (profile "startup" "not a date" "Gujarat" !! "incorporation_date")
  = inl ParserError /\
  assess_scheme_eligibility iso_to_datetime lower
    (profile "startup" "not a date" "Gujarat") (Some (sample_metrics 1200000))
  = inl ParserError.
Proof.
  split; [reflexivity |]. split; [reflexivity |].
  apply (startup_unparsable_date_raises iso_to_datetime lower
           (profile "startup" "not a date" "Gujarat")
           (Some (sample_metrics 1200000)) ParserError); reflexivity.
Defined.

(** C3 (amended) at a startup incorporated on 2018-05-01. *)
Lemma evaluator_returns_six_verdicts_at_startup :
  (profile "startup" "2018-05-01" "Gujarat" !! "business_type" = Some "startup" ->
   exists d t0,
     iso_to_datetime (profile "startup" "2018-05-01" "Gujarat" !! "incorporation_date")
     = inr d /\ d <> PyNone /\
     iso_to_datetime (Some "2016-04-01") = inr (Timestamp t0)) /\
  exists results,
    assess_scheme_eligibility iso_to_datetime lower
      (profile "startup" "2018-05-01" "Gujarat") (Some (sample_metrics 1200000))
    = inr results /\
    dom results = {[ "advance_authorisation"; "pmmy_loans"; "startup_tax_benefits";
                     "digital_lending"; "gem_platform"; "gst_composition" ]} /\
    dom results ⊆ dom schemes /\
    results !! "epcg" = None /\
    results !! "nsic_support" = None /\
    results !! "income_tax_deduction" = None.
Proof.
  assert (Hdates :
    profile "startup" "2018-05-01" "Gujarat" !! "business_type" = Some "startup" ->
    exists d t0,
      iso_to_datetime (profile "startup" "2018-05-01" "Gujarat" !! "incorporation_date")
      = inr d /\ d <> PyNone /\
      iso_to_datetime (Some "2016-04-01") = inr (Timestamp t0)).
  { intros _. exists (Timestamp (midnight 2018 5 1)), (16892 * ns_per_day)%Z.
    split; [reflexivity |]. split; [discriminate | reflexivity]. }
  split; [exact Hdates |].
  exact (evaluator_returns_six_verdicts iso_to_datetime lower
           (profile "startup" "2018-05-01" "Gujarat")
           (Some (sample_metrics 1200000)) Hdates).
Defined.

(** C4 (amended) at two clock readings one hour apart on 2026-01-01. *)
Lemma assess_deterministic_up_to_day_at_same_day :
  (forall t,
     iso_to_datetime (profile "trader" "2020-01-01" "Gujarat" !! "incorporation_date")
     = inr (Timestamp t) ->
     ((midnight 2026 1 1 - t) / ns_per_day
      = (midnight 2026 1 1 + 3600000000000 - t) / ns_per_day)%Z) /\
  calculate_loan_eligibility iso_to_datetime (midnight 2026 1 1)
    (profile "trader" "2020-01-01" "Gujarat") (Some (sample_metrics 1200000))
  = calculate_loan_eligibility iso_to_datetime (midnight 2026 1 1 + 3600000000000)
      (profile "trader" "2020-01-01" "Gujarat") (Some (sample_metrics 1200000)).
Proof.
  assert (Hdays : forall t,
     iso_to_datetime (profile "trader" "2020-01-01" "Gujarat" !! "incorporation_date")
     = inr (Timestamp t) ->
     ((midnight 2026 1 1 - t) / ns_per_day
      = (midnight 2026 1 1 + 3600000000000 - t) / ns_per_day)%Z).
  { intros t Ht. vm_compute in Ht. injection Ht as <-. reflexivity. }
  split; [exact Hdays |].
  exact (assess_deterministic_up_to_day iso_to_datetime
           (midnight 2026 1 1) (midnight 2026 1 1 + 3600000000000)
           (profile "trader" "2020-01-01" "Gujarat")
           (Some (sample_metrics 1200000)) Hdays).
Defined.

(** C5 at a purchase file whose header pads the second name with spaces. *)
Lemma parse_purchase_file_keeps_names_at_padded_header :
  (if startswith purchase_csv_padded_header "GSTIN"
   then simple_read_csv purchase_csv_padded_header
   else no_read_excel purchase_csv_padded_header)
  = inr (mkDataFrame 1 [("GSTIN", [Some (PStr "29ABCDE1234F1Z5")]);
                        (" Taxable Value ", [Some (PNum 100)])]) /\
  columns (fst (parse_purchase_file simple_read_csv no_read_excel
                  purchase_csv_padded_header))
  = ["GSTIN"; " Taxable Value "] /\
  ~ trimmed " Taxable Value ".
Proof.
  split; [reflexivity |].
  split; [| exact padded_name_not_trimmed].
  rewrite (parse_purchase_file_keeps_names simple_read_csv no_read_excel
             purchase_csv_padded_header
             (mkDataFrame 1 [("GSTIN", [Some (PStr "29ABCDE1234F1Z5")]);
                             (" Taxable Value ", [Some (PNum 100)])])).
  - reflexivity.
  - reflexivity.
Defined.

(** C6 at one month of data, assessed on 2026-01-01. *)
Lemma credit_score_range_and_grade_at_one_month :
  [sample_month] <> [] /\
  exists m, calculate_aggregate_metrics [sample_month] = Some m /\
    let r := calculate_loan_eligibility iso_to_datetime (midnight 2026 1 1)
               (profile "trader" "2020-01-01" "Gujarat") (Some m) in
    let score := Loan.credit_score r in
    let grade := Loan.credit_grade_of r in
    calculate_credit_score iso_to_datetime (midnight 2026 1 1)
      (profile "trader" "2020-01-01" "Gujarat") (Some m) = (score, grade) /\
    (300 <= score <= 900)%Z /\
    ((750 <= score)%Z -> grade = excellent) /\
    ((650 <= score < 750)%Z -> grade = good) /\
    ((500 <= score < 650)%Z -> grade = fair) /\
    ((score < 500)%Z -> grade = poor).
Proof.
  split; [discriminate |].
  apply (credit_score_range_and_grade iso_to_datetime (midnight 2026 1 1)
           (profile "trader" "2020-01-01" "Gujarat") [sample_month]).
  discriminate.
Defined.

(** C7 at one month of data. *)
Lemma compliance_score_and_margin_bounds_at_one_month :
  [sample_month] <> [] /\
  exists m, calculate_aggregate_metrics [sample_month] = Some m /\
    Metrics.filing_frequency m = Z.of_nat (length [sample_month]) /\
    Metrics.total_sales m = py_sum (map Month.total_sales [sample_month]) /\
    (0 <= Metrics.gst_compliance_score m <= 100)%Z /\
    Metrics.gst_compliance_score m
      = Z.min 100 (Metrics.filing_frequency m * 15
                   + (if Metrics.uses_standard_rates m then 50 else 0))%Z /\
    (0 < Metrics.total_sales m ->
       5 <= Metrics.profit_margin_estimate m <= 25) /\
    (Metrics.total_sales m == 0 -> Metrics.profit_margin_estimate m == 10).
Proof.
  split; [discriminate |].
  apply (compliance_score_and_margin_bounds [sample_month]). discriminate.
Defined.

(** C8 at one month of data. *)
Lemma b2b_b2c_percentages_at_one_month :
  [sample_month] <> [] /\
  exists m, calculate_aggregate_metrics [sample_month] = Some m /\
    Metrics.total_sales m = py_sum (map Month.total_sales [sample_month]) /\
    Metrics.b2b_percentage m + Metrics.b2c_percentage m == 100 /\
    (0 < Metrics.total_sales m ->
       Metrics.b2b_percentage m
       == 100 * py_sum (map Month.b2b_sales [sample_month]) / Metrics.total_sales m) /\
    (Metrics.total_sales m == 0 ->
       Metrics.b2b_percentage m == 0 /\ Metrics.b2c_percentage m == 100).
Proof.
  split; [discriminate |].
  apply (b2b_b2c_percentages [sample_month]). discriminate.
Defined.

(** C9 at the scenario of the rule table: state Sikkim, a trader, annual
    turnover 6,000,000: the verdict is eligible, under the threshold
    7,500,000. *)
Lemma gst_composition_rule_at_sikkim_trader :
  composition_threshold lower "Sikkim" 7500000 /\
  exists results v,
    assess_scheme_eligibility iso_to_datetime lower
      (profile "trader" "2020-01-01" "Sikkim") (Some (sample_metrics 6000000))
    = inr results /\
    results !! "gst_composition" = Some v /\ eligible v = true.
Proof.
  assert (Hthreshold : composition_threshold lower "Sikkim" 7500000).
  { left. split; [| reflexivity].
    unfold special_category_state, ne_hill_states.
    do 6 apply Exists_cons_tl. apply Exists_cons_hd.
    exists "", "". reflexivity. }
  split; [exact Hthreshold |].
  apply (proj2 (gst_composition_rule iso_to_datetime lower
                  (profile "trader" "2020-01-01" "Sikkim")
                  (Some (sample_metrics 6000000)) 7500000 Hthreshold)).
  split.
  - exists "trader". split; [reflexivity |].
    apply list_elem_of_further, list_elem_of_here.
  - reflexivity.
Defined.

(** C10 at one month of data. *)
Lemma profit_margin_floor_skips_penalty_at_one_month :
  [sample_month] <> [] /\
  exists m, calculate_aggregate_metrics [sample_month] = Some m /\
    5 <= Metrics.profit_margin_estimate m /\
    let r := calculate_loan_eligibility iso_to_datetime (midnight 2026 1 1)
               (profile "trader" "2020-01-01" "Gujarat") (Some m) in
    Loan.profit_margin r = Metrics.profit_margin_estimate m /\
    margin_branch_of (Loan.profit_margin r) <> MarginBelow5 /\
    forall base_rate,
      apply_margin_branch (margin_branch_of (Loan.profit_margin r)) base_rate
      <= base_rate.
Proof.
  split; [discriminate |].
  apply (profit_margin_floor_skips_penalty iso_to_datetime (midnight 2026 1 1)
           (profile "trader" "2020-01-01" "Gujarat") [sample_month]).
  discriminate.
Defined.

(** * Further properties *)

(** ** The page handler *)

Lemma categorize_files_from (str_lower : string -> string)
    (fs : list UploadedFile) (a b c : list UploadedFile) :
  fold_left
    (fun (acc : list UploadedFile * list UploadedFile * list UploadedFile) file =>
       let '(b2b_files, b2c_files, purchase_files) := acc in
       let name := str_lower (file_name file) in
       if str_in "b2b" name then ((b2b_files ++ [file])%list, b2c_files, purchase_files)
       else if str_in "b2c" name then (b2b_files, (b2c_files ++ [file])%list, purchase_files)
       else (b2b_files, b2c_files, (purchase_files ++ [file])%list))
    fs (a, b, c)
  = ((a ++ List.filter (is_b2b_name str_lower) fs)%list,
     (b ++ List.filter (is_b2c_name str_lower) fs)%list,
     (c ++ List.filter (is_purchase_name str_lower) fs)%list).
Proof.
  revert a b c. induction fs as [| f fs IH]; intros a b c.
  - simpl. rewrite !app_nil_r. reflexivity.
  - cbn [fold_left List.filter].
    assert (Hb : is_b2b_name str_lower f = str_in "b2b" (str_lower (file_name f))) by reflexivity.
    assert (Hc : is_b2c_name str_lower f
                 = negb (str_in "b2b" (str_lower (file_name f)))
                   && str_in "b2c" (str_lower (file_name f))) by reflexivity.
    assert (Hp : is_purchase_name str_lower f
                 = negb (str_in "b2b" (str_lower (file_name f)))
                   && negb (str_in "b2c" (str_lower (file_name f)))) by reflexivity.
    rewrite Hb, Hc, Hp.
    destruct (str_in "b2b" (str_lower (file_name f))),
             (str_in "b2c" (str_lower (file_name f)));
      cbn [negb andb]; rewrite IH, <- app_assoc; reflexivity.
Qed.

(** X1. The upload loop sorts every file into exactly one category and
    keeps the upload order: the B2B files are the files whose lower-cased
    name contains "b2b", the B2C files those of the rest whose name contains
    "b2c", the purchase files all others; so no file is dropped or used
    twice. *)
Theorem categorize_files_partition (str_lower : string -> string)
    (uploaded_files : list UploadedFile) :
  categorize_files str_lower uploaded_files
  = (List.filter (is_b2b_name str_lower) uploaded_files,
     List.filter (is_b2c_name str_lower) uploaded_files,
     List.filter (is_purchase_name str_lower) uploaded_files) /\
  (forall f, is_b2b_name str_lower f || is_b2c_name str_lower f
             || is_purchase_name str_lower f = true) /\
  (forall f, is_b2b_name str_lower f && is_b2c_name str_lower f = false /\
             is_b2b_name str_lower f && is_purchase_name str_lower f = false /\
             is_b2c_name str_lower f && is_purchase_name str_lower f = false) /\
  (length (List.filter (is_b2b_name str_lower) uploaded_files)
   + length (List.filter (is_b2c_name str_lower) uploaded_files)
   + length (List.filter (is_purchase_name str_lower) uploaded_files)
   = length uploaded_files)%nat.
Proof.
  split; [exact (categorize_files_from str_lower uploaded_files [] [] []) |].
  split; [| split].
  - intros f. unfold is_b2c_name, is_purchase_name.
    destruct (is_b2b_name str_lower f), (str_in "b2c" (str_lower (file_name f)));
      reflexivity.
  - intros f. unfold is_b2c_name, is_purchase_name.
    destruct (is_b2b_name str_lower f), (str_in "b2c" (str_lower (file_name f))); auto.
  - induction uploaded_files as [| f fs IH]; [reflexivity |].
    simpl. unfold is_b2c_name, is_purchase_name in *.
    destruct (is_b2b_name str_lower f), (str_in "b2c" (str_lower (file_name f)));
      simpl; lia.
Qed.

Section MainProperties.

Variable read_csv : string -> exn + DataFrame.
Variable read_excel : string -> exn + DataFrame.
Variable read_excel_upload : UploadedFile -> exn + DataFrame.
Variable to_datetime : option string -> exn + datetime_val.
Variable str_lower : string -> string.

(** The loop appends one summary per index. *)
Lemma process_months_length b2b_files b2c_files purchase_files indices ms shown ms' shown' :
  process_months read_csv read_excel read_excel_upload
    b2b_files b2c_files purchase_files indices ms shown = inr (ms', shown') ->
  length ms' = (length ms + length indices)%nat.
Proof.
  revert ms shown. induction indices as [| i rest IH]; intros ms shown; simpl.
  - intros [= <- _]. lia.
  - destruct (process_month _ _ _ _ _ _ i) as [e | r]; simpl; [discriminate |].
    intros Hrest. rewrite (IH _ _ Hrest), length_app. simpl. lia.
Qed.

(** The loop looks at the purchase files only at the indices it visits. *)
Lemma process_months_purchase_take b2b_files b2c_files purchase_files n indices ms shown :
  Forall (fun i => (i < n)%nat) indices ->
  process_months read_csv read_excel read_excel_upload
    b2b_files b2c_files purchase_files indices ms shown
  = process_months read_csv read_excel read_excel_upload
      b2b_files b2c_files (take n purchase_files) indices ms shown.
Proof.
  intros Hlt. revert ms shown.
  induction Hlt as [| i rest Hi _ IH]; intros ms shown; [reflexivity |].
  simpl.
  assert (Hmonth :
    process_month read_csv read_excel read_excel_upload
      b2b_files b2c_files (take n purchase_files) i
    = process_month read_csv read_excel read_excel_upload
        b2b_files b2c_files purchase_files i).
  { unfold process_month. rewrite (lookup_take_lt purchase_files n i Hi). reflexivity. }
  rewrite Hmonth. clear Hmonth.
  destruct (process_month read_csv read_excel read_excel_upload
              b2b_files b2c_files purchase_files i) as [e | r];
    simpl; [reflexivity |].
  apply IH.
Qed.

Lemma categorize_files_eq (uploaded_files : list UploadedFile) :
  categorize_files str_lower uploaded_files
  = (List.filter (is_b2b_name str_lower) uploaded_files,
     List.filter (is_b2c_name str_lower) uploaded_files,
     List.filter (is_purchase_name str_lower) uploaded_files).
Proof. exact (categorize_files_from str_lower uploaded_files [] [] []). Qed.

(** X2. The handler never reaches its message "Could not analyze GST data":
    it stops with "Please upload at least one B2B or B2C sales file" exactly
    when no file is a sales file, and otherwise, when nothing raises, it
    assesses as many months as the longer of the two lists of sales files,
    at least one, and that number is the filing frequency. *)
Theorem analyze_gst_data_outcomes now business_data (uploaded_files : list UploadedFile) r :
  analyze_gst_data read_csv read_excel read_excel_upload to_datetime str_lower
    now business_data uploaded_files = inr r ->
  r <> CouldNotAnalyze /\
  (r = NeedSalesFile <->
   List.filter (is_b2b_name str_lower) uploaded_files = [] /\
   List.filter (is_b2c_name str_lower) uploaded_files = []) /\
  (forall ms m sr lr shown, r = Assessment ms m sr lr shown ->
     length ms = Nat.max (length (List.filter (is_b2b_name str_lower) uploaded_files))
                         (length (List.filter (is_b2c_name str_lower) uploaded_files)) /\
     (1 <= length ms)%nat /\
     Metrics.filing_frequency m = Z.of_nat (length ms)).
Proof.
  unfold analyze_gst_data. rewrite categorize_files_eq.
  set (b2b := List.filter (is_b2b_name str_lower) uploaded_files).
  set (b2c := List.filter (is_b2c_name str_lower) uploaded_files).
  set (pur := List.filter (is_purchase_name str_lower) uploaded_files).
  destruct (bool_decide (b2b = []) && bool_decide (b2c = [])) eqn:Hnone.
  - intros [= <-]. apply andb_true_iff in Hnone as [H1 H2].
    apply bool_decide_eq_true in H1, H2.
    split; [discriminate |]. split; [tauto | discriminate].
  - assert (Hsome : ~ (b2b = [] /\ b2c = [])).
    { intros [H1 H2]. rewrite H1, H2 in Hnone. discriminate. }
    destruct (process_months _ _ _ _ _ _ _ _ _) as [e | [ms shown]] eqn:Hloop;
      simpl; [discriminate |].
    apply process_months_length in Hloop. rewrite length_seq in Hloop. simpl in Hloop.
    assert (Hpos : (1 <= length ms)%nat).
    { rewrite Hloop. destruct b2b, b2c; simpl; try lia. tauto. }
    destruct (calculate_aggregate_metrics ms) as [m |] eqn:Hm.
    + destruct (assess_scheme_eligibility _ _ _ _) as [e | sr]; simpl; [discriminate |].
      generalize (calculate_loan_eligibility to_datetime now business_data (Some m)).
      intros lr [= <-]. split; [discriminate |]. split.
      * split; [discriminate | tauto].
      * intros ms' m' sr' lr' shown' [= <- <- _ _ _].
        split; [exact Hloop |]. split; [exact Hpos |].
        destruct ms as [| a l]; [discriminate |].
        injection Hm as <-. reflexivity.
    + destruct ms; [simpl in Hpos; lia | discriminate].
Qed.

(** X3. Purchase files have no effect beyond the months that have a sales
    file: the month loop gives the same summaries and messages when the
    purchase files after the first [max(#B2B, #B2C)] are left out. *)
Theorem process_months_ignores_extra_purchases b2b_files b2c_files purchase_files :
  let max_files := Nat.max (length b2b_files) (length b2c_files) in
  process_months read_csv read_excel read_excel_upload
    b2b_files b2c_files purchase_files (seq 0 max_files) [] []
  = process_months read_csv read_excel read_excel_upload
      b2b_files b2c_files (take max_files purchase_files) (seq 0 max_files) [] [].
Proof.
  intros max_files. apply process_months_purchase_take.
  apply Forall_forall. intros i Hi. apply elem_of_seq in Hi. lia.
Qed.

End MainProperties.


(** ** Monthly analysis: the three blocks *)

Lemma analyze_monthly_data_blocks month_name b2b_df b2c_df purchase_df :
  analyze_monthly_data month_name b2b_df b2c_df purchase_df
  = (a1 ← b2b_block b2b_df (initial_analysis month_name b2b_df b2c_df purchase_df);
     a2 ← b2c_block b2c_df a1;
     let a3 := Month.set_total_sales a2 (Month.b2b_sales a2 + Month.b2c_sales a2) in
     let a4 := Month.set_tax_rates_used a3 (py_set (Month.tax_rates_used a3)) in
     a5 ← purchase_block purchase_df a4;
     mret a5).
Proof. reflexivity. Qed.

(** One step through a block: decide the next test or call it is stuck on. *)
Ltac step_block H :=
  match type of H with
  | context [df_empty ?d] => destruct (df_empty d) eqn:?; simpl in H
  | context [has_column ?n ?d] => destruct (has_column n d) eqn:?; simpl in H
  | context [column_total ?d ?n] => destruct (column_total d n) eqn:?; simpl in H
  | context [gst_from ?d ?x ?y] => destruct (gst_from d x y) eqn:?; simpl in H
  | context [getitem ?d ?n] => destruct (getitem d n) eqn:?; simpl in H
  end; try discriminate H.

Ltac run_block H := repeat step_block H; injection H as <-.

Lemma b2b_block_fields b2b_df a a' :
  b2b_block b2b_df a = inr a' ->
  same_fixed_fields a a' /\
  Month.b2c_sales a' = Month.b2c_sales a /\
  Month.total_purchases a' = Month.total_purchases a.
Proof.
  unfold b2b_block, same_fixed_fields. intros H. run_block H; repeat split.
Qed.

Lemma b2c_block_fields b2c_df a a' :
  b2c_block b2c_df a = inr a' ->
  same_fixed_fields a a' /\
  Month.b2b_sales a' = Month.b2b_sales a /\
  Month.unique_customers a' = Month.unique_customers a /\
  Month.total_purchases a' = Month.total_purchases a.
Proof.
  unfold b2c_block, same_fixed_fields. intros H. run_block H; repeat split.
Qed.

Lemma purchase_block_fields purchase_df a a' :
  purchase_block purchase_df a = inr a' ->
  same_fixed_fields a a' /\
  Month.b2b_sales a' = Month.b2b_sales a /\
  Month.b2c_sales a' = Month.b2c_sales a /\
  Month.total_sales a' = Month.total_sales a /\
  Month.gst_collected a' = Month.gst_collected a /\
  Month.tax_rates_used a' = Month.tax_rates_used a /\
  Month.unique_customers a' = Month.unique_customers a.
Proof.
  unfold purchase_block, same_fixed_fields. intros H. run_block H; repeat split.
Qed.

(** What a returned analysis went through. *)
Lemma analyze_monthly_data_inr month_name b2b_df b2c_df purchase_df s :
  analyze_monthly_data month_name b2b_df b2c_df purchase_df = inr s ->
  exists a1 a2,
    b2b_block b2b_df (initial_analysis month_name b2b_df b2c_df purchase_df) = inr a1 /\
    b2c_block b2c_df a1 = inr a2 /\
    purchase_block purchase_df
      (Month.set_tax_rates_used
         (Month.set_total_sales a2 (Month.b2b_sales a2 + Month.b2c_sales a2))
         (py_set (Month.tax_rates_used a2))) = inr s.
Proof.
  rewrite analyze_monthly_data_blocks.
  destruct (b2b_block b2b_df _) as [e | a1] eqn:H1; simpl; [discriminate |].
  destruct (b2c_block b2c_df a1) as [e | a2] eqn:H2; simpl; [discriminate |].
  intros Hs. exists a1, a2.
  split; [first [reflexivity | exact H1] |].
  split; [first [reflexivity | exact H2] |].
  destruct (purchase_block purchase_df _) as [e | a5]; simpl in Hs;
    [discriminate | exact Hs].
Qed.

(** X4. A returned monthly summary keeps its books: total sales are B2B
    sales plus B2C sales, the month label and the three transaction counts
    are those of the tables given, and the fields the analysis never
    assigns (gst_paid, interstate_sales, intrastate_sales) are zero. *)
Theorem analyze_monthly_data_books month_name b2b_df b2c_df purchase_df s :
  analyze_monthly_data month_name b2b_df b2c_df purchase_df = inr s ->
  Month.total_sales s = Month.b2b_sales s + Month.b2c_sales s /\
  Month.month s = month_name /\
  Month.b2b_transactions s = df_len b2b_df /\
  Month.b2c_transactions s = df_len b2c_df /\
  Month.purchase_transactions s = df_len purchase_df /\
  Month.gst_paid s = 0 /\
  Month.interstate_sales s = 0 /\
  Month.intrastate_sales s = 0.
Proof.
  intros Hs. destruct (analyze_monthly_data_inr _ _ _ _ _ Hs) as (a1 & a2 & H1 & H2 & H3).
  apply b2b_block_fields in H1 as (F1 & _).
  apply b2c_block_fields in H2 as (F2 & _).
  apply purchase_block_fields in H3 as (F3 & Hb2b & Hb2c & Htotal & _).
  unfold same_fixed_fields in *. simpl in *.
  rewrite Htotal, Hb2b, Hb2c.
  intuition congruence.
Qed.

(** *** Tax rates *)

Lemma py_set_elem (x : pyval) (l : list pyval) : x ∈ py_set l -> x ∈ l.
Proof.
  induction l as [| a l IH]; simpl; [auto |].
  intros Hin. apply elem_of_cons in Hin as [-> | Hin]; [left |].
  apply list_elem_of_filter in Hin as [_ Hin]. right. auto.
Qed.

Lemma Forall_filter_pyval (P : pyval -> Prop) (Q : pyval -> bool) (l : list pyval) :
  Forall P l -> Forall P (filter (fun y => Q y) l).
Proof.
  intros HP. apply Forall_forall. intros x Hx.
  apply list_elem_of_filter in Hx as [_ Hx].
  exact (proj1 (Forall_forall _ _) HP x Hx).
Qed.

Lemma pairwise_distinct_filter (Q : pyval -> bool) (l : list pyval) :
  pairwise_distinct l -> pairwise_distinct (filter (fun y => Q y) l).
Proof.
  unfold pairwise_distinct. induction 1 as [| a l Ha Hl IH].
  - constructor.
  - rewrite filter_cons. destruct (decide (Q a)); [| exact IH].
    constructor; [| exact IH].
    apply List.Forall_forall. intros x Hx. apply list_elem_of_In in Hx.
    apply list_elem_of_filter in Hx as [_ Hx].
    apply list_elem_of_In in Hx.
    exact (proj1 (List.Forall_forall _ _) Ha x Hx).
Qed.

(** [set(...)] leaves no two equal values. *)
Lemma py_set_distinct (l : list pyval) : pairwise_distinct (py_set l).
Proof.
  induction l as [| a l IH]; simpl; [constructor |].
  constructor.
  - apply List.Forall_forall. intros x Hx. apply list_elem_of_In in Hx.
    apply list_elem_of_filter in Hx as [Hne _].
    destruct (pyval_eqb a x); [contradiction | reflexivity].
  - apply pairwise_distinct_filter. exact IH.
Qed.

(** The rates a block adds are values of the table's Rate column. *)
Lemma extend_rates_elem a (s : list cell) r :
  r ∈ Month.tax_rates_used (extend_rates a s) ->
  r ∈ Month.tax_rates_used a \/ Some r ∈ s.
Proof.
  unfold extend_rates. simpl. intros Hin.
  apply elem_of_app in Hin as [Hin | Hin]; [left; exact Hin | right].
  apply py_set_elem in Hin. unfold dropna in Hin.
  apply list_elem_of_omap in Hin as (c & Hc & Hid).
  unfold id in Hid. subst c. exact Hc.
Qed.

Lemma b2b_block_rates b2b_df a a' r :
  b2b_block b2b_df a = inr a' ->
  r ∈ Month.tax_rates_used a' ->
  r ∈ Month.tax_rates_used a \/
  exists c, getitem b2b_df "Rate" = inr c /\ Some r ∈ c.
Proof.
  unfold b2b_block. intros H. run_block H; simpl;
    try (intros Hin; apply extend_rates_elem in Hin as [Hin | Hin]; simpl in Hin);
    eauto.
Qed.

Lemma b2c_block_rates b2c_df a a' r :
  b2c_block b2c_df a = inr a' ->
  r ∈ Month.tax_rates_used a' ->
  r ∈ Month.tax_rates_used a \/
  exists c, getitem b2c_df "Rate" = inr c /\ Some r ∈ c.
Proof.
  unfold b2c_block. intros H. run_block H; simpl;
    try (intros Hin; apply extend_rates_elem in Hin as [Hin | Hin]; simpl in Hin);
    eauto.
Qed.

(** X5. The tax rates of a returned monthly summary hold no value twice
    (as Python compares values), and each of them is a non-missing cell of
    the Rate column of the B2B or of the B2C table. *)
Theorem analyze_monthly_data_rates month_name b2b_df b2c_df purchase_df s :
  analyze_monthly_data month_name b2b_df b2c_df purchase_df = inr s ->
  pairwise_distinct (Month.tax_rates_used s) /\
  forall r, r ∈ Month.tax_rates_used s ->
    (exists c, getitem b2b_df "Rate" = inr c /\ Some r ∈ c) \/
    (exists c, getitem b2c_df "Rate" = inr c /\ Some r ∈ c).
Proof.
  intros Hs. destruct (analyze_monthly_data_inr _ _ _ _ _ Hs) as (a1 & a2 & H1 & H2 & H3).
  apply purchase_block_fields in H3 as (_ & _ & _ & _ & _ & Hrates & _).
  rewrite Hrates. simpl. split; [apply py_set_distinct |].
  intros r Hr. apply py_set_elem in Hr.
  destruct (b2c_block_rates _ _ _ _ H2 Hr) as [Hr1 | Hc]; [| right; exact Hc].
  destruct (b2b_block_rates _ _ _ _ H1 Hr1) as [Hr0 | Hc]; [| left; exact Hc].
  simpl in Hr0. inversion Hr0.
Qed.

(** *** Purchases *)

(** X6. The purchase total of a returned monthly summary is the total of
    the column Taxable Value when the purchase table has rows and that
    column, else the total of Invoice Value when it has rows and that
    column, and zero otherwise. *)
Theorem analyze_monthly_data_purchases month_name b2b_df b2c_df purchase_df s :
  analyze_monthly_data month_name b2b_df b2c_df purchase_df = inr s ->
  if df_empty purchase_df then Month.total_purchases s = 0
  else if has_column "Taxable Value" purchase_df
       then column_total purchase_df "Taxable Value" = inr (Month.total_purchases s)
       else if has_column "Invoice Value" purchase_df
            then column_total purchase_df "Invoice Value" = inr (Month.total_purchases s)
            else Month.total_purchases s = 0.
Proof.
  intros Hs. destruct (analyze_monthly_data_inr _ _ _ _ _ Hs) as (a1 & a2 & H1 & H2 & H3).
  apply b2b_block_fields in H1 as (_ & _ & Hp1).
  apply b2c_block_fields in H2 as (_ & _ & _ & Hp2).
  assert (Hzero : Month.total_purchases a2 = 0) by (rewrite Hp2, Hp1; reflexivity).
  unfold purchase_block in H3.
  destruct (df_empty purchase_df); simpl in H3.
  - injection H3 as <-. exact Hzero.
  - destruct (has_column "Taxable Value" purchase_df).
    + destruct (column_total purchase_df "Taxable Value") as [e | t];
        simpl in H3; [discriminate |]. injection H3 as <-. reflexivity.
    + destruct (has_column "Invoice Value" purchase_df).
      * destruct (column_total purchase_df "Invoice Value") as [e | t];
          simpl in H3; [discriminate |]. injection H3 as <-. reflexivity.
      * injection H3 as <-. exact Hzero.
Qed.

(** *** Numeric tables *)

Lemma fillna0_numeric (s : list cell) :
  Forall numeric_cell s -> Forall numeric_cell (fillna0 s).
Proof.
  unfold fillna0. induction 1 as [| c s Hc _ IH]; simpl; constructor; [| exact IH].
  destruct c as [[q | t] |]; simpl in *; auto.
Qed.

Lemma series_sum_numeric (s : list cell) :
  Forall numeric_cell s -> exists t, series_sum s = inr t.
Proof.
  induction 1 as [| c s Hc _ [t IH]]; simpl; [eauto |].
  destruct c as [[q | txt] |]; simpl in Hc; [| contradiction | eauto].
  rewrite IH. simpl. eauto.
Qed.

Lemma series_mul_div100_numeric (a b : list cell) :
  Forall numeric_cell a -> Forall numeric_cell b ->
  exists p, series_mul_div100 a b = inr p /\ Forall numeric_cell p.
Proof.
  intros Ha. revert b. induction Ha as [| x a Hx _ IH]; intros b Hb.
  - exists []. split; [reflexivity | constructor].
  - destruct Hb as [| y b Hy Hb]; [exists []; split; [reflexivity | constructor] |].
    destruct (IH b Hb) as (p & Hp & Hnum). simpl.
    destruct x as [[px | tx] |], y as [[py | ty] |]; simpl in Hx, Hy;
      try contradiction; rewrite Hp; simpl; eexists; split; try reflexivity;
      constructor; simpl; auto.
Qed.

Lemma column_total_numeric (names : list string) (df : DataFrame) (x : string) :
  numeric_columns names df -> In x names -> has_column x df = true ->
  exists t, column_total df x = inr t.
Proof.
  intros Hnum Hin Hcol. unfold column_total.
  destruct (getitem_present _ _ Hcol) as [c Hc]. rewrite Hc. simpl.
  apply series_sum_numeric, fillna0_numeric. exact (Hnum x c Hin Hc).
Qed.

Lemma gst_from_numeric (names : list string) (df : DataFrame) (x y : string) :
  numeric_columns names df -> In x names -> In y names ->
  has_column x df = true -> has_column y df = true ->
  exists g, gst_from df x y = inr g.
Proof.
  intros Hnum Hinx Hiny Hx Hy. unfold gst_from.
  destruct (getitem_present _ _ Hx) as [a Ha]. rewrite Ha.
  destruct (getitem_present _ _ Hy) as [b Hb]. rewrite Hb. simpl.
  destruct (series_mul_div100_numeric (fillna0 a) (fillna0 b)) as (p & Hp & Hpn).
  { apply fillna0_numeric. exact (Hnum x a Hinx Ha). }
  { apply fillna0_numeric. exact (Hnum y b Hiny Hb). }
  rewrite Hp. simpl. apply series_sum_numeric. exact Hpn.
Qed.

(** X7. On tables whose column names are distinct, the monthly analysis
    returns a summary provided a B2B table with rows has the column Invoice
    Value, a B2C table with rows has the column Taxable Value, and the
    columns it adds up (Invoice Value, Taxable Value and Rate) hold no text:
    every other column may be missing or hold text, and any cell may be
    missing.  (Where several columns carry one name, [df[name]] is a table
    and not a column, and the analysis does not get through.) *)
Theorem analyze_monthly_data_returns month_name b2b_df b2c_df purchase_df :
  NoDup (columns b2b_df) -> NoDup (columns b2c_df) -> NoDup (columns purchase_df) ->
  numeric_columns ["Invoice Value"; "Taxable Value"; "Rate"] b2b_df ->
  numeric_columns ["Taxable Value"; "Rate"] b2c_df ->
  numeric_columns ["Taxable Value"; "Invoice Value"] purchase_df ->
  (df_empty b2b_df = false -> has_column "Invoice Value" b2b_df = true) ->
  (df_empty b2c_df = false -> has_column "Taxable Value" b2c_df = true) ->
  exists s, analyze_monthly_data month_name b2b_df b2c_df purchase_df = inr s.
Proof.
  intros _ _ _ Nb2b Nb2c Npur Hiv Htv. rewrite analyze_monthly_data_blocks.
  assert (H1 : forall a, exists a1, b2b_block b2b_df a = inr a1).
  { intros a. unfold b2b_block. destruct (df_empty b2b_df); simpl; [eauto |].
    destruct (column_total_numeric _ _ "Invoice Value" Nb2b ltac:(simpl; auto) (Hiv eq_refl))
      as [t ->]. simpl.
    destruct (has_column "Taxable Value" b2b_df) eqn:Ht;
      destruct (has_column "Rate" b2b_df) eqn:Hr; simpl;
      try (destruct (gst_from_numeric _ _ "Taxable Value" "Rate" Nb2b
                       ltac:(simpl; auto) ltac:(simpl; auto) Ht Hr) as [g ->]; simpl);
      destruct (has_column "GSTIN/UIN of Recipient" b2b_df) eqn:Hg; simpl;
      try (destruct (getitem_present _ _ Hg) as [c ->]; simpl);
      try (destruct (getitem_present _ _ Hr) as [rc ->]; simpl);
      eauto. }
  assert (H2 : forall a, exists a2, b2c_block b2c_df a = inr a2).
  { intros a. unfold b2c_block. destruct (df_empty b2c_df); simpl; [eauto |].
    destruct (column_total_numeric _ _ "Taxable Value" Nb2c ltac:(simpl; auto) (Htv eq_refl))
      as [t ->]. simpl.
    destruct (has_column "Rate" b2c_df) eqn:Hr; simpl; [| eauto].
    destruct (gst_from_numeric _ _ "Taxable Value" "Rate" Nb2c
                ltac:(simpl; auto) ltac:(simpl; auto) (Htv eq_refl) Hr) as [g ->]. simpl.
    destruct (getitem_present _ _ Hr) as [rc ->]. simpl. eauto. }
  assert (H3 : forall a, exists a5, purchase_block purchase_df a = inr a5).
  { intros a. unfold purchase_block. destruct (df_empty purchase_df); simpl; [eauto |].
    destruct (has_column "Taxable Value" purchase_df) eqn:Ht.
    - destruct (column_total_numeric _ _ "Taxable Value" Npur ltac:(simpl; auto) Ht)
        as [t ->]. simpl. eauto.
    - destruct (has_column "Invoice Value" purchase_df) eqn:Hi; [| eauto].
      destruct (column_total_numeric _ _ "Invoice Value" Npur ltac:(simpl; auto) Hi)
        as [t ->]. simpl. eauto. }
  destruct (H1 (initial_analysis month_name b2b_df b2c_df purchase_df)) as [a1 ->].
  simpl. destruct (H2 a1) as [a2 ->]. simpl.
  match goal with
  | |- context [purchase_block purchase_df ?a] => destruct (H3 a) as [a5 ->]
  end.
  simpl. eauto.
Qed.


(** ** Parsers and what the analysis finds in their tables *)

Lemma has_column_strip_columns (df : DataFrame) (name : string) :
  has_column name (strip_columns df) = true
  <-> exists n, n ∈ columns df /\ strip n = name.
Proof.
  unfold has_column, columns, strip_columns. simpl.
  rewrite bool_decide_eq_true, map_map. simpl.
  change (map (fun x : string * list cell => strip (fst x)) (df_columns df))
    with ((fun x : string * list cell => strip (fst x)) <$> df_columns df).
  rewrite list_elem_of_fmap. split.
  - intros (nc & -> & Hin). exists (fst nc). split; [| reflexivity].
    change (map fst (df_columns df)) with (fst <$> df_columns df).
    apply list_elem_of_fmap. eauto.
  - intros (n & Hin & <-).
    change (map fst (df_columns df)) with (fst <$> df_columns df) in Hin.
    apply list_elem_of_fmap in Hin as (nc & -> & Hin). eauto.
Qed.

(** X8. When the column names the reader returns are ASCII text, a sales
    parser finds a column under a name exactly when the reader returned a
    table in which some column name, once stripped of surrounding
    whitespace, is that name; in particular a header written with padding is
    found under its trimmed name, and nothing is found when the reader
    raises.  (On other text [str.strip()] also removes whitespace outside
    ASCII, such as the no-break space, which [strip] keeps.) *)
Theorem sales_parsers_find_stripped_names read_csv (content name : string) :
  (forall df n, read_csv content = inr df -> n ∈ columns df -> ascii_text n = true) ->
  (has_column name (fst (parse_b2b_file read_csv content)) = true
   <-> exists df n, read_csv content = inr df /\ n ∈ columns df /\ strip n = name) /\
  (has_column name (fst (parse_b2c_file read_csv content)) = true
   <-> exists df n, read_csv content = inr df /\ n ∈ columns df /\ strip n = name).
Proof.
  intros _. unfold parse_b2b_file, parse_b2c_file.
  destruct (read_csv content) as [e | df]; simpl.
  - split; (split; [discriminate | intros (? & ? & ? & _); discriminate]).
  - rewrite has_column_strip_columns.
    split; (split; [intros (n & ? & ?); eauto | intros (? & n & [= <-] & ? & ?); eauto]).
Qed.

Section MonthOfUnreadableFile.

Variable read_csv : string -> exn + DataFrame.
Variable read_excel : string -> exn + DataFrame.
Variable read_excel_upload : UploadedFile -> exn + DataFrame.

(** X9. A month whose only file is a B2B file that decodes but that the
    reader rejects is still analysed: the loop shows one error and appends
    a summary with the month's label, no transactions and zero sales, which
    counts as a month of data. *)
Theorem process_month_unreadable_b2b b2b_files b2c_files purchase_files i f content e :
  b2b_files !! i = Some f ->
  b2c_files !! i = None ->
  purchase_files !! i = None ->
  file_text f = inr content ->
  read_csv content = inl e ->
  process_month read_csv read_excel read_excel_upload
    b2b_files b2c_files purchase_files i
  = inr (initial_analysis (month_name_of i (Some f) None)
           empty_frame empty_frame empty_frame,
         [StError "Error parsing B2B file: " e]).
Proof.
  intros Hfile Hb2c Hpur Htext Hread.
  unfold process_month, load_sales, load_purchase, parse_b2b_file.
  rewrite Hfile, Hb2c, Hpur, Htext. simpl. rewrite Hread. reflexivity.
Qed.

End MonthOfUnreadableFile.

(** Tables without rows or without columns leave the analysis at its
    initial values. *)
Lemma analyze_monthly_data_empty month_name b2b_df b2c_df purchase_df :
  df_empty b2b_df = true -> df_empty b2c_df = true -> df_empty purchase_df = true ->
  analyze_monthly_data month_name b2b_df b2c_df purchase_df
  = inr (initial_analysis month_name b2b_df b2c_df purchase_df).
Proof.
  intros H1 H2 H3. unfold analyze_monthly_data. rewrite H1, H2, H3. reflexivity.
Qed.


(** ** Aggregate metrics *)

Lemma fold_left_Qplus (l : list Q) (a : Q) : fold_left Qplus l a == a + py_sum l.
Proof.
  unfold py_sum. revert a. induction l as [| x l IH]; intros a; simpl.
  - ring.
  - rewrite (IH (a + x)), (IH (0 + x)). ring.
Qed.

Lemma py_sum_cons (x : Q) (l : list Q) : py_sum (x :: l) == x + py_sum l.
Proof. unfold py_sum at 1. simpl. rewrite fold_left_Qplus. ring. Qed.





(** *** Equality of Python values *)

Lemma pyval_eqb_refl (x : pyval) : pyval_eqb x x = true.
Proof.
  destruct x as [q | s]; simpl.
  - apply Qeq_bool_iff. reflexivity.
  - apply bool_decide_eq_true. reflexivity.
Qed.

Lemma pyval_eqb_trans (x y z : pyval) :
  pyval_eqb x y = true -> pyval_eqb y z = true -> pyval_eqb x z = true.
Proof.
  destruct x as [p | s], y as [q | t], z as [r | u]; simpl; try discriminate.
  - rewrite !Qeq_bool_iff. intros H1 H2. rewrite H1. exact H2.
  - rewrite !bool_decide_eq_true. congruence.
Qed.

Lemma pyval_eqb_sym (x y : pyval) : pyval_eqb x y = pyval_eqb y x.
Proof.
  destruct x as [p | s], y as [q | t]; simpl; try reflexivity.
  - apply eq_true_iff_eq. rewrite !Qeq_bool_iff. split; intros H; symmetry; exact H.
  - apply eq_true_iff_eq. rewrite !bool_decide_eq_true. split; congruence.
Qed.

(** Every value of a list has an equal representative in its [set]. *)
Lemma py_set_representative (x : pyval) (l : list pyval) :
  x ∈ l -> exists y, y ∈ py_set l /\ pyval_eqb y x = true.
Proof.
  induction l as [| a l IH]; intros Hin; [inversion Hin |].
  apply elem_of_cons in Hin as [-> | Hin].
  - exists a. split; [left | apply pyval_eqb_refl].
  - destruct (IH Hin) as (y & Hy & Hyx). simpl.
    destruct (pyval_eqb a y) eqn:Hay.
    + exists a. split; [left | exact (pyval_eqb_trans _ _ _ Hay Hyx)].
    + exists y. split; [| exact Hyx]. right.
      apply list_elem_of_filter. split; [| exact Hy].
      rewrite Hay. exact I.
Qed.

Lemma py_in_standard (r : pyval) : py_in r standard_rates = true <-> standard_rate r.
Proof.
  unfold py_in, standard_rates, standard_rate. simpl. split.
  - destruct r as [q | s]; simpl; [| discriminate].
    rewrite !orb_true_iff, !Qeq_bool_iff. intros H. exists q.
    split; [reflexivity |]. intuition discriminate.
  - intros (q & -> & H). simpl.
    rewrite !orb_true_iff, !Qeq_bool_iff. intuition.
Qed.

Lemma py_in_eqb (x y : pyval) (l : list pyval) :
  pyval_eqb x y = true -> py_in x l = true -> py_in y l = true.
Proof.
  unfold py_in. intros Hxy. rewrite !existsb_exists.
  intros (z & Hz & Hxz). exists z. split; [exact Hz |].
  rewrite pyval_eqb_sym in Hxy. exact (pyval_eqb_trans _ _ _ Hxy Hxz).
Qed.

(** Testing the [set] of the rates is testing every rate. *)
Lemma forallb_py_set_standard (l : list pyval) :
  forallb (fun rate => py_in rate standard_rates) (py_set l) = true
  <-> forall r, r ∈ l -> standard_rate r.
Proof.
  rewrite forallb_forall. split.
  - intros Hall r Hr. destruct (py_set_representative r l Hr) as (y & Hy & Hyr).
    apply py_in_standard. apply (py_in_eqb y r _ Hyr).
    apply Hall. apply list_elem_of_In. exact Hy.
  - intros Hall x Hx. apply py_in_standard. apply Hall.
    apply py_set_elem. apply list_elem_of_In. exact Hx.
Qed.

Lemma elem_of_all_rates (ms : list Month.MonthlySummary) (r : pyval) :
  r ∈ concat (map Month.tax_rates_used ms)
  <-> exists s, s ∈ ms /\ r ∈ Month.tax_rates_used s.
Proof.
  rewrite list_elem_of_In, in_concat. split.
  - intros (rates & Hrates & Hr). apply in_map_iff in Hrates as (s & <- & Hs).
    exists s. split; apply list_elem_of_In; assumption.
  - intros (s & Hs & Hr). exists (Month.tax_rates_used s).
    apply list_elem_of_In in Hs. apply list_elem_of_In in Hr.
    split; [apply in_map; exact Hs | exact Hr].
Qed.

Lemma uses_standard_rates_eq (ms : list Month.MonthlySummary) m :
  calculate_aggregate_metrics ms = Some m ->
  Metrics.uses_standard_rates m
  = forallb (fun rate => py_in rate standard_rates)
            (py_set (concat (map Month.tax_rates_used ms))).
Proof. destruct ms; [discriminate |]. intros [= <-]. reflexivity. Qed.

(** X10. The aggregate reports standard rates exactly when every tax rate of
    every month is a number equal to 0, 5, 12, 18 or 28; one text value or
    one other number among the rates turns the flag off. *)
Theorem uses_standard_rates_iff (ms : list Month.MonthlySummary) m :
  calculate_aggregate_metrics ms = Some m ->
  Metrics.uses_standard_rates m = true
  <-> forall s, s ∈ ms -> forall r, r ∈ Month.tax_rates_used s -> standard_rate r.
Proof.
  intros Hm. rewrite (uses_standard_rates_eq ms m Hm), forallb_py_set_standard.
  split.
  - intros Hall s Hs r Hr. apply Hall, elem_of_all_rates. eauto.
  - intros Hall r Hr. apply elem_of_all_rates in Hr as (s & Hs & Hr). eauto.
Qed.

(** The fields of the aggregate, read off the monthly list. *)
Lemma calculate_aggregate_metrics_fields (ms : list Month.MonthlySummary) m :
  calculate_aggregate_metrics ms = Some m ->
  let n := inject_Z (Z.of_nat (length ms)) in
  let sales := py_sum (map Month.total_sales ms) in
  let purchases := py_sum (map Month.total_purchases ms) in
  ms <> [] /\
  Metrics.total_sales m = sales /\
  Metrics.total_purchases m = purchases /\
  Metrics.total_gst_collected m = py_sum (map Month.gst_collected ms) /\
  Metrics.avg_monthly_sales m = sales / n /\
  Metrics.annual_turnover m = sales / n * 12 /\
  Metrics.b2b_percentage m
    = (if Qgtb sales 0 then py_sum (map Month.b2b_sales ms) / sales * 100 else 0) /\
  Metrics.b2c_percentage m = 100 - Metrics.b2b_percentage m /\
  Metrics.filing_frequency m = Z.of_nat (length ms) /\
  Metrics.avg_transactions_per_month m
    = inject_Z (py_sum_int (map (fun s => (Month.b2b_transactions s
                                           + Month.b2c_transactions s)%Z) ms)) / n /\
  Metrics.profit_margin_estimate m
    = (if Qgtb sales 0
       then py_max 5 (py_min 25 ((sales - purchases) / sales * 100))
       else 10) /\
  Metrics.gst_compliance_score m
    = Z.min 100 (Z.of_nat (length ms) * 15
                 + (if Metrics.uses_standard_rates m then 50 else 0))%Z.
Proof.
  destruct ms as [| a l]; [discriminate |].
  intros [= <-]. cbv zeta. repeat split. discriminate.
Qed.






Lemma py_sum_nonneg (l : list Q) : Forall (fun x => 0 <= x) l -> 0 <= py_sum l.
Proof.
  induction 1 as [| x l Hx _ IH]; [unfold py_sum; simpl; lra |].
  rewrite py_sum_cons. lra.
Qed.

(** X12. When every month has non-negative B2B and B2C sales and its total
    sales are their sum, as the monthly analysis leaves them, both
    percentages of the aggregate lie between 0 and 100. *)
Theorem percentages_within_0_100 (ms : list Month.MonthlySummary) m :
  Forall (fun s => 0 <= Month.b2b_sales s /\ 0 <= Month.b2c_sales s /\
                   Month.total_sales s == Month.b2b_sales s + Month.b2c_sales s) ms ->
  calculate_aggregate_metrics ms = Some m ->
  0 <= Metrics.b2b_percentage m <= 100 /\ 0 <= Metrics.b2c_percentage m <= 100.
Proof.
  intros Hms Hm.
  destruct (calculate_aggregate_metrics_fields ms m Hm)
    as (_ & _ & _ & _ & _ & _ & E6 & E7 & _).
  rewrite E7, E6. clear E6 E7 Hm.
  set (T := py_sum (map Month.total_sales ms)).
  set (B := py_sum (map Month.b2b_sales ms)).
  assert (HB : 0 <= B /\ B <= T).
  { subst T B. induction Hms as [| s l (Hb & Hc & Ht) _ IH]; simpl map.
    - unfold py_sum; simpl; lra.
    - rewrite !py_sum_cons. lra. }
  case_Qgtb T 0; [| lra].
  assert (H0 : 0 <= B / T).
  { apply Qle_shift_div_l; [exact Hcmp | lra]. }
  assert (H1 : B / T <= 1).
  { apply Qle_shift_div_r; [exact Hcmp | lra]. }
  lra.
Qed.


(** X14. The compliance score is at least 15 and reaches 100 exactly from
    seven months of data, or from four months when all rates are standard
    rates. *)
Theorem gst_compliance_score_saturation (ms : list Month.MonthlySummary) m :
  calculate_aggregate_metrics ms = Some m ->
  (15 <= Metrics.gst_compliance_score m)%Z /\
  (Metrics.gst_compliance_score m = 100%Z
   <-> (7 <= length ms)%nat \/
       (4 <= length ms)%nat /\ Metrics.uses_standard_rates m = true).
Proof.
  intros Hm.
  destruct (calculate_aggregate_metrics_fields ms m Hm)
    as (Hne & _ & _ & _ & _ & _ & _ & _ & _ & _ & _ & E11).
  rewrite E11.
  assert (Hlen : (1 <= length ms)%nat) by (destruct ms; [congruence | simpl; lia]).
  destruct (Metrics.uses_standard_rates m); split; lia.
Qed.


(** ** Scheme verdicts *)

Lemma assess_scheme_eligibility_inr to_datetime str_lower bd gm results :
  assess_scheme_eligibility to_datetime str_lower bd gm = inr results ->
  exists w1 w2 w4 w5 w6 v3,
    startup_rule to_datetime bd gm = inr v3 /\
    results = six_verdicts str_lower bd gm w1 w2 w4 w5 w6 v3.
Proof.
  destruct (assess_scheme_eligibility_unfold to_datetime str_lower bd gm)
    as (w1 & w2 & w4 & w5 & w6 & ->).
  destruct (startup_rule to_datetime bd gm) as [e | v3]; [discriminate |].
  intros [= <-]. exists w1, w2, w4, w5, w6, v3. split; reflexivity.
Qed.

Lemma datetime_ge_true (d d0 : datetime_val) :
  datetime_ge d d0 = inr true ->
  exists t t0, d = Timestamp t /\ d0 = Timestamp t0 /\ (t0 <= t)%Z.
Proof.
  destruct d as [t | |], d0 as [t0 | |]; simpl; try discriminate.
  intros [= Hge]. apply Z.geb_le in Hge. eauto.
Qed.

(** What the startup rule returns, and when it is eligible. *)
Lemma startup_rule_inr to_datetime bd gm v3 :
  startup_rule to_datetime bd gm = inr v3 ->
  (exists w, v3 = catalog_verdict "startup_tax_benefits" (eligible v3) w) /\
  (eligible v3 = true <->
   bd !! "business_type" = Some "startup" /\
   exists t t0,
     to_datetime (bd !! "incorporation_date") = inr (Timestamp t) /\
     to_datetime (Some "2016-04-01") = inr (Timestamp t0) /\
     (t0 <= t)%Z /\ get_annual_turnover gm < 1000000000).
Proof.
  unfold startup_rule.
  destruct (bool_decide (bd !! "business_type" = Some "startup")) eqn:Hbt.
  - apply bool_decide_eq_true in Hbt.
    destruct (to_datetime (bd !! "incorporation_date")) as [e | d]; [discriminate |].
    destruct (to_datetime (Some "2016-04-01")) as [e | d0]; [discriminate |].
    simpl.
    destruct (datetime_ge d d0) as [e | after] eqn:Hge; [discriminate |]. simpl.
    destruct (after && Qltb (get_annual_turnover gm) 1000000000) eqn:Hrule;
      rewrite verdict_in_catalog by (eexists; reflexivity);
      intros [= <-]; simpl; (split; [eauto |]).
    + apply andb_true_iff in Hrule as [-> Hlt]. apply Qltb_lt in Hlt.
      apply datetime_ge_true in Hge as (t & t0 & -> & -> & Hle).
      split; [intros _ | reflexivity]. split; [exact Hbt |]. exists t, t0. auto.
    + split; [discriminate |].
      intros (_ & t & t0 & [= ->] & [= ->] & Hle & Hlt).
      simpl in Hge. injection Hge as <-.
      apply Z.geb_le in Hle. apply Qltb_lt in Hlt.
      rewrite Hle, Hlt in Hrule. discriminate.
  - apply bool_decide_eq_false in Hbt.
    rewrite verdict_in_catalog by (eexists; reflexivity).
    intros [= <-]. simpl. split; [eauto |].
    split; [discriminate | intros [Hs _]; contradiction].
Qed.

(** X15. Every verdict the evaluator returns carries the display name and
    the url that the catalog holds for its key. *)
Theorem verdicts_copy_catalog to_datetime str_lower bd gm results key v :
  assess_scheme_eligibility to_datetime str_lower bd gm = inr results ->
  results !! key = Some v ->
  exists info, schemes !! key = Some info /\
    scheme_name v = name info /\ verdict_url v = url info.
Proof.
  intros Hres Hkey.
  destruct (assess_scheme_eligibility_inr _ _ _ _ _ Hres)
    as (w1 & w2 & w4 & w5 & w6 & v3 & Hv3 & ->).
  destruct (startup_rule_inr _ _ _ _ Hv3) as [[w Hw] _].
  unfold six_verdicts in Hkey.
  repeat (apply lookup_insert_Some in Hkey as [[<- Hkey] | [_ Hkey]];
          [subst; eexists; split; [reflexivity |]; try rewrite Hw; split; reflexivity |]).
  rewrite lookup_empty in Hkey. discriminate.
Qed.

(** X16. The evaluator returns an eligible startup_tax_benefits verdict
    exactly for a startup whose incorporation date is read as a timestamp
    not before 2016-04-01 and whose annual turnover is below 1,000,000,000;
    a date read as NaT gives an ineligible verdict. *)
Theorem startup_tax_benefits_rule to_datetime str_lower bd gm :
  (exists results,
     assess_scheme_eligibility to_datetime str_lower bd gm = inr results /\
     eligible_for results "startup_tax_benefits")
  <-> bd !! "business_type" = Some "startup" /\
      exists t t0,
        to_datetime (bd !! "incorporation_date") = inr (Timestamp t) /\
        to_datetime (Some "2016-04-01") = inr (Timestamp t0) /\
        (t0 <= t)%Z /\ get_annual_turnover gm < 1000000000.
Proof.
  split.
  - intros (results & Hres & v & Hv & Hel).
    destruct (assess_scheme_eligibility_inr _ _ _ _ _ Hres)
      as (w1 & w2 & w4 & w5 & w6 & v3 & Hv3 & ->).
    unfold six_verdicts in Hv.
    rewrite !lookup_insert_ne in Hv by discriminate.
    rewrite lookup_insert_eq in Hv. injection Hv as <-.
    apply (startup_rule_inr _ _ _ _ Hv3). exact Hel.
  - intros (Hbt & t & t0 & Ht & Ht0 & Hge & Hlt).
    destruct (assess_scheme_eligibility_total to_datetime str_lower bd gm) as [results Hres].
    { intros _. exists (Timestamp t), t0. split; [exact Ht |]. split; [discriminate | exact Ht0]. }
    exists results. split; [exact Hres |].
    destruct (assess_scheme_eligibility_inr _ _ _ _ _ Hres)
      as (w1 & w2 & w4 & w5 & w6 & v3 & Hv3 & ->).
    exists v3. split.
    + unfold six_verdicts. rewrite !lookup_insert_ne by discriminate.
      apply lookup_insert_eq.
    + apply (startup_rule_inr _ _ _ _ Hv3). split; [exact Hbt |]. exists t, t0. auto.
Qed.

(** The count over six verdicts is the number of eligible ones. *)
Lemma eligible_count_six (v1 v2 v3 v4 v5 v6 : EligibilityVerdict) :
  eligible_count
    (<["gst_composition" := v6]> (<["gem_platform" := v5]>
     (<["digital_lending" := v4]> (<["startup_tax_benefits" := v3]>
     (<["pmmy_loans" := v2]> (<["advance_authorisation" := v1]> ∅))))))
  = ((if eligible v1 then 1 else 0) + (if eligible v2 then 1 else 0)
     + (if eligible v3 then 1 else 0) + (if eligible v4 then 1 else 0)
     + (if eligible v5 then 1 else 0) + (if eligible v6 then 1 else 0))%nat.
Proof.
  unfold eligible_count.
  destruct v1 as [[] ? ? ?], v2 as [[] ? ? ?], v3 as [[] ? ? ?],
           v4 as [[] ? ? ?], v5 as [[] ? ? ?], v6 as [[] ? ? ?];
    vm_compute; reflexivity.
Qed.

Lemma get_in_cases (v : option string) :
  let pmmy := get_in v ["msme"; "manufacturer"; "trader"] in
  let composition := get_in v ["manufacturer"; "trader"; "restaurant"] in
  (bool_decide (v = Some "exporter") = true -> pmmy = false /\ composition = false) /\
  (v = Some "startup" ->
   bool_decide (v = Some "exporter") = false /\ pmmy = false /\ composition = false).
Proof.
  cbv zeta. split.
  - intros He. apply bool_decide_eq_true in He. subst v. split; reflexivity.
  - intros ->. repeat split.
Qed.

(** X17. The schemes tied to the business type exclude each other: an
    eligible advance_authorisation or startup_tax_benefits verdict comes
    with no other eligible type-based verdict (pmmy_loans, gst_composition,
    and each other), so at most four of the six verdicts are eligible. *)
Theorem type_based_schemes_exclusive to_datetime str_lower bd gm results :
  assess_scheme_eligibility to_datetime str_lower bd gm = inr results ->
  (eligible_for results "advance_authorisation" ->
   ~ eligible_for results "pmmy_loans" /\
   ~ eligible_for results "gst_composition" /\
   ~ eligible_for results "startup_tax_benefits") /\
  (eligible_for results "startup_tax_benefits" ->
   ~ eligible_for results "pmmy_loans" /\
   ~ eligible_for results "gst_composition") /\
  (eligible_count results <= 4)%nat.
Proof.
  intros Hres.
  destruct (assess_scheme_eligibility_inr _ _ _ _ _ Hres)
    as (w1 & w2 & w4 & w5 & w6 & v3 & Hv3 & ->).
  destruct (startup_rule_inr _ _ _ _ Hv3) as [_ Hstartup].
  destruct (get_in_cases (bd !! "business_type")) as [Hexp Hst].
  cbv zeta in Hexp, Hst.
  assert (Hadv : forall v, six_verdicts str_lower bd gm w1 w2 w4 w5 w6 v3 !! "advance_authorisation"
                           = Some v ->
                 eligible v = bool_decide (bd !! "business_type" = Some "exporter")).
  { unfold six_verdicts. intros v Hv.
    rewrite !lookup_insert_ne in Hv by discriminate.
    rewrite lookup_insert_eq in Hv. injection Hv as <-. reflexivity. }
  assert (Hpmmy : forall v, six_verdicts str_lower bd gm w1 w2 w4 w5 w6 v3 !! "pmmy_loans"
                            = Some v ->
                  eligible v = get_in (bd !! "business_type")
                                 ["msme"; "manufacturer"; "trader"]).
  { unfold six_verdicts. intros v Hv.
    rewrite !lookup_insert_ne in Hv by discriminate.
    rewrite lookup_insert_eq in Hv. injection Hv as <-. reflexivity. }
  assert (Hcomp : forall v, six_verdicts str_lower bd gm w1 w2 w4 w5 w6 v3 !! "gst_composition"
                            = Some v ->
                  eligible v = true ->
                  get_in (bd !! "business_type")
                    ["manufacturer"; "trader"; "restaurant"] = true).
  { unfold six_verdicts. intros v Hv.
    rewrite lookup_insert_eq in Hv. injection Hv as <-. simpl.
    intros H. apply andb_true_iff in H. tauto. }
  assert (Hsv : forall v, six_verdicts str_lower bd gm w1 w2 w4 w5 w6 v3 !! "startup_tax_benefits"
                          = Some v ->
                eligible v = true -> bd !! "business_type" = Some "startup").
  { unfold six_verdicts. intros v Hv.
    rewrite !lookup_insert_ne in Hv by discriminate.
    rewrite lookup_insert_eq in Hv. injection Hv as <-.
    intros H. apply Hstartup in H. tauto. }
  split; [| split].
  - intros (v & Hv & Hel). rewrite (Hadv v Hv) in Hel.
    destruct (Hexp Hel) as [Hp Hc]. repeat split.
    + intros (v' & Hv' & Hel'). rewrite (Hpmmy v' Hv'), Hp in Hel'. discriminate.
    + intros (v' & Hv' & Hel'). rewrite (Hcomp v' Hv' Hel') in Hc. discriminate.
    + intros (v' & Hv' & Hel'). destruct (Hst (Hsv v' Hv' Hel')) as [He _].
      rewrite Hel in He. discriminate.
  - intros (v & Hv & Hel). destruct (Hst (Hsv v Hv Hel)) as (_ & Hp & Hc). split.
    + intros (v' & Hv' & Hel'). rewrite (Hpmmy v' Hv'), Hp in Hel'. discriminate.
    + intros (v' & Hv' & Hel'). rewrite (Hcomp v' Hv' Hel') in Hc. discriminate.
  - unfold six_verdicts. rewrite eligible_count_six. simpl eligible.
    assert (Hs3 : eligible v3 = true -> bd !! "business_type" = Some "startup")
      by (intros H; apply Hstartup in H; tauto).
    clear Hstartup Hadv Hpmmy Hcomp Hsv Hv3.
    destruct (eligible v3).
    + destruct (Hst (Hs3 eq_refl)) as (-> & -> & ->). rewrite andb_false_r.
      repeat match goal with |- context [if ?c then _ else _] => destruct c end; lia.
    + destruct (bool_decide (bd !! "business_type" = Some "exporter")).
      * destruct (Hexp eq_refl) as [-> ->]. rewrite andb_false_r.
        repeat match goal with |- context [if ?c then _ else _] => destruct c end; lia.
      * repeat match goal with |- context [if ?c then _ else _] => destruct c end; lia.
Qed.

(** X18. On the metrics aggregated from the monthly list, gem_platform is
    eligible exactly from three months of data, and digital_lending exactly
    when the annual turnover exceeds 500,000 and either all rates are
    standard rates or there are at least five months of data. *)
Theorem history_based_schemes to_datetime str_lower bd (ms : list Month.MonthlySummary) m results :
  calculate_aggregate_metrics ms = Some m ->
  assess_scheme_eligibility to_datetime str_lower bd (Some m) = inr results ->
  (eligible_for results "gem_platform" <-> (3 <= length ms)%nat) /\
  (eligible_for results "digital_lending"
   <-> 500000 < Metrics.annual_turnover m /\
       (Metrics.uses_standard_rates m = true \/ (5 <= length ms)%nat)).
Proof.
  intros Hm Hres.
  destruct (calculate_aggregate_metrics_fields ms m Hm)
    as (_ & _ & _ & _ & _ & _ & _ & _ & E8 & _ & _ & E11).
  destruct (assess_scheme_eligibility_inr _ _ _ _ _ Hres)
    as (w1 & w2 & w4 & w5 & w6 & v3 & _ & ->).
  unfold eligible_for, six_verdicts. simpl get_filing_frequency.
  simpl get_gst_compliance_score. simpl get_annual_turnover.
  split.
  - rewrite lookup_insert_ne by discriminate. rewrite lookup_insert_eq. split.
    + intros (v & [= <-] & Hel). simpl in Hel. rewrite E8 in Hel. lia.
    + intros Hlen. eexists. split; [reflexivity |]. simpl. rewrite E8. lia.
  - rewrite !(lookup_insert_ne _ _ "digital_lending") by discriminate.
    rewrite lookup_insert_eq.
    assert (Hscore : (Metrics.gst_compliance_score m >? 60)%Z = true
                     <-> Metrics.uses_standard_rates m = true \/ (5 <= length ms)%nat).
    { rewrite E11, Z.gtb_lt.
      assert (Hlen : (1 <= length ms)%nat) by (destruct ms; [discriminate | simpl; lia]).
      destruct (Metrics.uses_standard_rates m); lia. }
    split.
    + intros (v & [= <-] & Hel). simpl in Hel.
      apply andb_true_iff in Hel as [Hs Ht].
      apply Qgtb_gt in Ht. apply Hscore in Hs. auto.
    + intros [Ht Hs]. eexists. split; [reflexivity |]. simpl.
      apply andb_true_iff. split; [apply Hscore; exact Hs | apply Qgtb_gt; exact Ht].
Qed.


(** ** Credit score by tiers *)

(** Years over a threshold, in days. *)
Lemma years_gtb_days (days : Z) (years : Q) (bound : Z) :
  (forall d : Z, years * (36525 # 100) < inject_Z d <-> (bound <= d)%Z) ->
  Qgtb (inject_Z days / (36525 # 100)) years = (days >=? bound)%Z.
Proof.
  intros Hbound. apply eq_true_iff_eq. rewrite Qgtb_gt, Z.geb_le, <- Hbound. split.
  - intros H. apply (Qmult_lt_r _ _ (36525 # 100)) in H; [| reflexivity].
    assert (E : inject_Z days / (36525 # 100) * (36525 # 100) == inject_Z days)
      by (field; discriminate).
    rewrite E in H. exact H.
  - intros H. apply Qlt_shift_div_l; [reflexivity | exact H].
Qed.

Lemma vintage_tiers (days : Z) :
  Qgtb (inject_Z days / (36525 # 100)) 5 = (days >=? 1827)%Z /\
  Qgtb (inject_Z days / (36525 # 100)) 3 = (days >=? 1096)%Z /\
  Qgtb (inject_Z days / (36525 # 100)) 1 = (days >=? 366)%Z /\
  Qgtb (inject_Z days / (36525 # 100)) (1 # 2) = (days >=? 183)%Z.
Proof.
  repeat split; apply years_gtb_days; intros d;
    unfold Qlt; simpl; lia.
Qed.

(** The score is the capped sum of the base score and the five tiers. *)
Lemma calculate_credit_score_points to_datetime now bd gm :
  calculate_credit_score to_datetime now bd gm
  = (let score :=
       Z.min (300 + Z.min 200 (get_gst_compliance_score gm * 2)
              + turnover_points (get_annual_turnover gm)
              + filing_points (get_filing_frequency gm)
              + vintage_points to_datetime now bd
              + b2b_points (get_b2b_percentage gm))%Z 900 in
     (score, grade_of_score score)).
Proof.
  unfold calculate_credit_score, grade_of_score. cbv zeta.
  set (base := (300 + Z.min 200 (get_gst_compliance_score gm * 2))%Z).
  set (turnover := if Qgtb (get_annual_turnover gm) 50000000 then _ else _).
  assert (Hturnover : turnover = (base + turnover_points (get_annual_turnover gm))%Z).
  { subst turnover. unfold turnover_points. split_ifs; lia. }
  clearbody turnover.
  set (filing := if (get_filing_frequency gm >=? 12)%Z then _ else _).
  assert (Hfiling : filing = (turnover + filing_points (get_filing_frequency gm))%Z).
  { subst filing. unfold filing_points. split_ifs; lia. }
  clearbody filing.
  set (vintage := try_except _ _).
  assert (Hvintage : vintage = (filing + vintage_points to_datetime now bd)%Z).
  { subst vintage. unfold vintage_points.
    destruct (to_datetime (bd !! "incorporation_date")) as [e | [t | |]];
      simpl; try lia.
    destruct (vintage_tiers ((now - t) / ns_per_day)) as (-> & -> & -> & ->).
    split_ifs; lia. }
  clearbody vintage.
  set (b2b := if Qgtb (get_b2b_percentage gm) 70 then _ else _).
  assert (Hb2b : b2b = (vintage + b2b_points (get_b2b_percentage gm))%Z).
  { subst b2b. unfold b2b_points. split_ifs; lia. }
  clearbody b2b. subst. reflexivity.
Qed.

(** X19. The credit score is the base score 300 plus five independent
    contributions, capped at 900: twice the compliance score up to 200, the
    turnover tier, the filing tier, the vintage tier and the B2B tier.  The
    vintage tier counts whole days since incorporation (at least 1827, 1096,
    366, 183 days give 100, 75, 50, 25), is 25 when the date cannot be read
    and 0 for a missing date; the grade is read off the capped score. *)
Theorem credit_score_is_sum_of_tiers to_datetime now bd gm :
  let score :=
    Z.min (300 + Z.min 200 (get_gst_compliance_score gm * 2)
           + turnover_points (get_annual_turnover gm)
           + filing_points (get_filing_frequency gm)
           + vintage_points to_datetime now bd
           + b2b_points (get_b2b_percentage gm))%Z 900 in
  calculate_credit_score to_datetime now bd gm = (score, grade_of_score score) /\
  Loan.credit_score (calculate_loan_eligibility to_datetime now bd gm) = score /\
  Loan.credit_grade_of (calculate_loan_eligibility to_datetime now bd gm)
  = grade_of_score score.
Proof.
  cbv zeta.
  pose proof (calculate_loan_eligibility_fields to_datetime now bd gm) as Hsg.
  cbv zeta in Hsg. destruct Hsg as (Hsg & _).
  pose proof (calculate_credit_score_points to_datetime now bd gm) as Hpts.
  cbv zeta in Hpts.
  split; [exact Hpts |].
  split; congruence.
Qed.

Lemma tier_points_nonneg to_datetime now bd (t p : Q) (n : Z) :
  (0 <= turnover_points t <= 200)%Z /\ (0 <= filing_points n <= 100)%Z /\
  (0 <= vintage_points to_datetime now bd <= 100)%Z /\ (25 <= b2b_points p <= 100)%Z /\
  ((1 <= n)%Z -> (25 <= filing_points n)%Z).
Proof.
  assert (Hfiling : (1 <= n)%Z -> (25 <= filing_points n)%Z).
  { intros Hn. unfold filing_points. rewrite !Z.geb_leb.
    repeat match goal with
           | |- context [(?a <=? ?b)%Z] => destruct (Z.leb_spec a b)
           end; lia. }
  unfold turnover_points, filing_points, vintage_points, b2b_points in *.
  destruct (to_datetime (bd !! "incorporation_date")) as [e | [d | |]]; cbv zeta;
    (split; [| split; [| split; [| split; [| exact Hfiling]]]]);
    clear Hfiling; split_ifs; lia.
Qed.

(** The score of aggregated metrics is at least 380. *)
Lemma calculate_credit_score_floor to_datetime now bd (ms : list Month.MonthlySummary) m :
  calculate_aggregate_metrics ms = Some m ->
  (380 <= fst (calculate_credit_score to_datetime now bd (Some m)) <= 900)%Z.
Proof.
  intros Hm.
  rewrite (calculate_credit_score_points to_datetime now bd (Some m)). cbv zeta.
  cbn [fst].
  destruct (calculate_aggregate_metrics_fields ms m Hm)
    as (Hne & _ & _ & _ & _ & _ & _ & _ & E8 & _ & _ & E11).
  assert (Hlen : (1 <= Z.of_nat (length ms))%Z)
    by (destruct ms; [congruence | simpl length; lia]).
  simpl get_gst_compliance_score. simpl get_filing_frequency.
  rewrite E11, E8.
  destruct (tier_points_nonneg to_datetime now bd
              (get_annual_turnover (Some m)) (get_b2b_percentage (Some m))
              (Z.of_nat (length ms))) as (Ht & Hf & Hv & Hb & Hf1).
  specialize (Hf1 Hlen).
  destruct (Metrics.uses_standard_rates m); lia.
Qed.

(** X20. On the metrics aggregated from a monthly list the credit score is
    at least 380, whatever the profile and the date: the base score 300 is
    never what a business is given; and without any metrics (the empty dict)
    the score is between 325 and 425. *)
Theorem credit_score_at_least_380 to_datetime now bd (ms : list Month.MonthlySummary) m :
  calculate_aggregate_metrics ms = Some m ->
  (380 <= Loan.credit_score (calculate_loan_eligibility to_datetime now bd (Some m))
       <= 900)%Z /\
  (325 <= Loan.credit_score (calculate_loan_eligibility to_datetime now bd None)
       <= 425)%Z.
Proof.
  intros Hm.
  pose proof (calculate_loan_eligibility_fields to_datetime now bd (Some m)) as (Hsg & _).
  pose proof (calculate_credit_score_floor to_datetime now bd ms m Hm) as Hfloor.
  rewrite Hsg in Hfloor. cbn [fst] in Hfloor. split; [exact Hfloor |].
  pose proof (calculate_loan_eligibility_fields to_datetime now bd None) as (Hnone & _).
  pose proof (calculate_credit_score_points to_datetime now bd None) as Hpts.
  cbv zeta in Hpts.
  set (r := calculate_loan_eligibility to_datetime now bd None) in *. clearbody r.
  assert (Hc : get_gst_compliance_score None = 0%Z) by reflexivity.
  assert (Ht : turnover_points (get_annual_turnover None) = 0%Z) by reflexivity.
  assert (Hf : filing_points (get_filing_frequency None) = 0%Z) by reflexivity.
  assert (Hb : b2b_points (get_b2b_percentage None) = 25%Z) by reflexivity.
  rewrite Hc, Ht, Hf, Hb in Hpts.
  assert (Hs : Loan.credit_score r
               = Z.min (300 + Z.min 200 (0 * 2) + 0 + 0
                        + vintage_points to_datetime now bd + 25)%Z 900)
    by congruence.
  destruct (tier_points_nonneg to_datetime now bd 0 0 0) as (_ & _ & Hv & _).
  rewrite Hs. lia.
Qed.

(** ** Loan terms *)

(** X21. The interest rate of every assessment lies between 8.5 and 21. *)
Theorem interest_rate_range to_datetime now bd gm :
  85 # 10 <= Loan.interest_rate (calculate_loan_eligibility to_datetime now bd gm) <= 21.
Proof.
  unfold calculate_loan_eligibility.
  destruct (calculate_credit_score to_datetime now bd gm) as [score grade].
  cbv zeta. cbn [Loan.interest_rate].
  match goal with
  | |- context [py_max ?b (85 # 10)] => set (base_rate := b)
  end.
  assert (Hbase : base_rate <= 21).
  { subst base_rate. unfold margin_branch_of, apply_margin_branch, base_interest_rates.
    destruct grade; split_ifs; lra. }
  clearbody base_rate.
  destruct (py_max_lub base_rate (85 # 10)) as [_ Hfloor].
  split; [exact Hfloor |].
  unfold py_max. case_Qgtb (85 # 10) base_rate; lra.
Qed.

(** X22. The tenure is 3, 5 or 7 years and follows the grade: an excellent
    grade always gets 7 years, a poor grade always 3, and 7 years are given
    to good and excellent grades only. *)
Theorem tenure_follows_grade to_datetime now bd gm :
  let r := calculate_loan_eligibility to_datetime now bd gm in
  (Loan.max_tenure_years r = 3 \/ Loan.max_tenure_years r = 5
   \/ Loan.max_tenure_years r = 7)%Z /\
  (Loan.credit_grade_of r = excellent -> Loan.max_tenure_years r = 7%Z) /\
  (Loan.credit_grade_of r = poor -> Loan.max_tenure_years r = 3%Z) /\
  (Loan.max_tenure_years r = 7%Z ->
   Loan.credit_grade_of r = excellent \/ Loan.credit_grade_of r = good).
Proof.
  unfold calculate_loan_eligibility.
  rewrite (calculate_credit_score_points to_datetime now bd gm). cbv zeta.
  cbn [Loan.max_tenure_years Loan.credit_grade_of].
  match goal with
  | |- context [grade_of_score ?s] => generalize s
  end.
  intros score. unfold grade_of_score.
  rewrite !Z.geb_leb, !Z.gtb_ltb.
  repeat match goal with
         | |- context [(?a <=? ?b)%Z] => destruct (Z.leb_spec a b)
         | |- context [(?a <? ?b)%Z] => destruct (Z.ltb_spec a b)
         end; repeat split; intros; try discriminate; try lia; auto.
Qed.

(** X23. For a non-negative annual turnover the loan ceiling lies between
    12% and 36% of the turnover, and the recommended amount is the ceiling
    or 1,000,000, whichever is smaller, so never negative. *)
Theorem loan_amounts_range to_datetime now bd gm :
  0 <= get_annual_turnover gm ->
  let r := calculate_loan_eligibility to_datetime now bd gm in
  (12 # 100) * get_annual_turnover gm <= Loan.max_loan_amount r
    <= (36 # 100) * get_annual_turnover gm /\
  0 <= Loan.recommended_amount r /\
  Loan.recommended_amount r <= Loan.max_loan_amount r /\
  Loan.recommended_amount r <= 1000000 /\
  (Loan.recommended_amount r == Loan.max_loan_amount r
   \/ Loan.recommended_amount r == 1000000).
Proof.
  intros Hturnover. unfold calculate_loan_eligibility.
  destruct (calculate_credit_score to_datetime now bd gm) as [score grade].
  cbv zeta. cbn [Loan.max_loan_amount Loan.recommended_amount].
  set (T := get_annual_turnover gm) in *.
  match goal with
  | |- context [py_min ?a 1000000] => set (ceiling := a)
  end.
  assert (Hceiling : (12 # 100) * T <= ceiling <= (36 # 100) * T).
  { subst ceiling. unfold loan_multipliers. destruct grade; split_ifs; lra. }
  clearbody ceiling. split; [exact Hceiling |].
  unfold py_min. case_Qltb 1000000 ceiling; repeat split; lra.
Qed.


(** ** Instalments *)

Lemma Qpower_succ (q : Q) (k : nat) :
  ~ q == 0 -> q ^ Z.of_nat (S k) == q ^ Z.of_nat k * q.
Proof.
  intros Hq. rewrite Nat2Z.inj_succ, <- Z.add_1_r, Qpower_plus by exact Hq.
  reflexivity.
Qed.

(** Compounding over [k + 1] periods gains less than [k + 1] times the
    interest on the final amount. *)
Lemma compound_below_linear (r : Q) (k : nat) :
  0 < r ->
  (1 + r) ^ Z.of_nat (S k) - 1
  < inject_Z (Z.of_nat (S k)) * r * (1 + r) ^ Z.of_nat (S k).
Proof.
  intros Hr. induction k as [| k IH].
  - change ((1 + r) ^ Z.of_nat 1) with (1 + r). change (inject_Z (Z.of_nat 1)) with 1.
    nra.
  - rewrite (Qpower_succ (1 + r) (S k)) by lra.
    set (x := (1 + r) ^ Z.of_nat (S k)) in *.
    assert (Hx : 1 < x) by (subst x; apply Qpower_1_lt; [lra | lia]).
    assert (Hn : inject_Z (Z.of_nat (S (S k))) == inject_Z (Z.of_nat (S k)) + 1).
    { rewrite (Nat2Z.inj_succ (S k)), <- Z.add_1_r, inject_Z_plus. reflexivity. }
    rewrite Hn.
    set (n := inject_Z (Z.of_nat (S k))) in *.
    assert (Hpos : 0 <= n) by (subst n; unfold Qle; simpl; lia).
    nra.
Qed.

Lemma compound_below_linear_Z (r : Q) (n : Z) :
  0 < r -> (1 <= n)%Z ->
  (1 + r) ^ n - 1 < inject_Z n * r * (1 + r) ^ n.
Proof.
  intros Hr Hn. destruct (Z.to_nat n) as [| k] eqn:Hk; [lia |].
  replace n with (Z.of_nat (S k)) by lia.
  apply compound_below_linear. exact Hr.
Qed.

(** The instalment on [amount] at a positive monthly rate [mr] over [n]
    months. *)
Lemma instalment_exceeds_repayment (amount mr : Q) (n : Z) :
  0 < amount -> 0 < mr -> (1 <= n)%Z ->
  let emi := amount * mr * (1 + mr) ^ n / ((1 + mr) ^ n - 1) in
  0 < emi /\ amount < emi * inject_Z n.
Proof.
  intros Ha Hmr Hn. cbv zeta.
  set (x := (1 + mr) ^ n).
  assert (Hx : 1 < x) by (subst x; apply Qpower_1_lt; [lra | lia]).
  assert (Hlin := compound_below_linear_Z mr n Hmr Hn). fold x in Hlin.
  set (N := inject_Z n) in *.
  assert (HN : 1 <= N) by (subst N; unfold Qle; simpl; lia).
  split.
  - apply Qlt_shift_div_l; [lra | nra].
  - assert (E : amount * mr * x / (x - 1) * N == amount * mr * x * N / (x - 1))
      by (field; lra).
    rewrite E. apply Qlt_shift_div_l; [lra | nra].
Qed.

(** The calculator on the recommended amount repeats the engine. *)
Lemma loan_calculator_at_recommended to_datetime now bd gm :
  let r := calculate_loan_eligibility to_datetime now bd gm in
  loan_calculator r (Loan.recommended_amount r)
  = (Loan.monthly_emi r, Loan.total_interest r,
     Loan.monthly_emi r * inject_Z (Loan.max_tenure_years r * 12)).
Proof.
  unfold calculate_loan_eligibility.
  generalize (calculate_credit_score to_datetime now bd gm). intros [score grade].
  reflexivity.
Qed.

(** The calculator at a positive monthly rate. *)
Lemma loan_calculator_formula (r : Loan.LoanAssessment) (amount : Q) :
  let mr := Loan.interest_rate r / (12 * 100) in
  let n := (Loan.max_tenure_years r * 12)%Z in
  0 < mr ->
  loan_calculator r amount
  = (amount * mr * (1 + mr) ^ n / ((1 + mr) ^ n - 1),
     amount * mr * (1 + mr) ^ n / ((1 + mr) ^ n - 1) * inject_Z n - amount,
     amount * mr * (1 + mr) ^ n / ((1 + mr) ^ n - 1) * inject_Z n).
Proof.
  cbv zeta. intros Hmr. unfold loan_calculator.
  apply Qgtb_gt in Hmr. rewrite Hmr. reflexivity.
Qed.

Lemma loan_calculator_scales (r : Loan.LoanAssessment) (amount k : Q) :
  0 < Loan.interest_rate r / (12 * 100) ->
  0 < (1 + Loan.interest_rate r / (12 * 100)) ^ (Loan.max_tenure_years r * 12) - 1 ->
  fst (fst (loan_calculator r (k * amount)))
    == k * fst (fst (loan_calculator r amount)) /\
  snd (fst (loan_calculator r (k * amount)))
    == k * snd (fst (loan_calculator r amount)) /\
  snd (loan_calculator r (k * amount)) == k * snd (loan_calculator r amount).
Proof.
  intros Hmr Hden.
  rewrite (loan_calculator_formula r amount Hmr),
          (loan_calculator_formula r (k * amount) Hmr).
  cbn [fst snd].
  set (mr := Loan.interest_rate r / (12 * 100)) in *.
  set (x := (1 + mr) ^ (Loan.max_tenure_years r * 12)) in *.
  set (n := inject_Z (Loan.max_tenure_years r * 12)) in *.
  clearbody x n mr. repeat split; field; lra.
Qed.

Lemma loan_calculator_costs (r : Loan.LoanAssessment) (amount : Q) :
  0 < amount ->
  0 < Loan.interest_rate r / (12 * 100) ->
  (3 <= Loan.max_tenure_years r)%Z ->
  0 < fst (fst (loan_calculator r amount)) /\
  0 < snd (fst (loan_calculator r amount)).
Proof.
  intros Ha Hmr Hyears.
  assert (Hn1 : (1 <= Loan.max_tenure_years r * 12)%Z) by lia.
  pose proof (instalment_exceeds_repayment amount
                (Loan.interest_rate r / (12 * 100))
                (Loan.max_tenure_years r * 12) Ha Hmr Hn1) as Hinst.
  cbv zeta in Hinst. destruct Hinst as [Hemi Hrepay].
  rewrite (loan_calculator_formula r amount Hmr). cbn [fst snd].
  split; [exact Hemi | lra].
Qed.

Lemma costs_at_recommended (r : Loan.LoanAssessment) (total : Q) :
  loan_calculator r (Loan.recommended_amount r)
  = (Loan.monthly_emi r, Loan.total_interest r, total) ->
  0 < fst (fst (loan_calculator r (Loan.recommended_amount r))) /\
  0 < snd (fst (loan_calculator r (Loan.recommended_amount r))) ->
  0 < Loan.monthly_emi r /\ 0 < Loan.total_interest r.
Proof. intros ->. cbn [fst snd]. auto. Qed.

(** X24. The loan calculator of the page agrees with the engine: on the
    recommended amount it shows the engine's EMI and total interest; and its
    three figures are proportional to the amount chosen. *)
Theorem loan_calculator_agrees_and_scales to_datetime now bd gm (amount k : Q) :
  let r := calculate_loan_eligibility to_datetime now bd gm in
  loan_calculator r (Loan.recommended_amount r)
  = (Loan.monthly_emi r, Loan.total_interest r,
     Loan.monthly_emi r * inject_Z (Loan.max_tenure_years r * 12)) /\
  fst (fst (loan_calculator r (k * amount)))
    == k * fst (fst (loan_calculator r amount)) /\
  snd (fst (loan_calculator r (k * amount)))
    == k * snd (fst (loan_calculator r amount)) /\
  snd (loan_calculator r (k * amount)) == k * snd (loan_calculator r amount).
Proof.
  pose proof (loan_divisors_positive to_datetime now bd gm) as (_ & _ & Hmr & Hden).
  split.
  - exact (loan_calculator_at_recommended to_datetime now bd gm).
  - exact (loan_calculator_scales _ amount k Hmr Hden).
Qed.

(** X25. Borrowing costs: for every positive amount the calculator's EMI is
    positive and the total interest is positive; so an assessment with a
    positive recommended amount has a positive EMI and a positive total
    interest. *)
Theorem total_interest_positive to_datetime now bd gm (amount : Q) :
  0 < amount ->
  let r := calculate_loan_eligibility to_datetime now bd gm in
  0 < fst (fst (loan_calculator r amount)) /\
  0 < snd (fst (loan_calculator r amount)) /\
  (0 < Loan.recommended_amount r ->
   0 < Loan.monthly_emi r /\ 0 < Loan.total_interest r).
Proof.
  intros Hamount.
  pose proof (loan_divisors_positive to_datetime now bd gm) as (_ & Hyears & Hmr & _).
  split; [exact (proj1 (loan_calculator_costs _ amount Hamount Hmr Hyears)) |].
  split; [exact (proj2 (loan_calculator_costs _ amount Hamount Hmr Hyears)) |].
  intros Hrec.
  exact (costs_at_recommended _ _
           (loan_calculator_at_recommended to_datetime now bd gm)
           (loan_calculator_costs _ _ Hrec Hmr Hyears)).
Qed.


(** ** Approval probability *)

Lemma py_sum_five (a b c d e : Q) : py_sum [a; b; c; d; e] == a + b + c + d + e.
Proof. unfold py_sum. simpl. ring. Qed.

(** The approval probability, from the fields of the assessment. *)
Lemma approval_probability_eq to_datetime now bd gm :
  let r := calculate_loan_eligibility to_datetime now bd gm in
  Loan.approval_probability r
  = py_min 95 (py_sum
      [ py_min 30 (inject_Z (Loan.credit_score r) / 25);
        py_min 25 (inject_Z (get_gst_compliance_score gm) / 4);
        py_min 20 (get_annual_turnover gm / 250000);
        py_min 15 (get_profit_margin_estimate gm);
        if (get_filing_frequency gm >=? 6)%Z then 10 else 5 ]).
Proof.
  unfold calculate_loan_eligibility.
  generalize (calculate_credit_score to_datetime now bd gm). intros [score grade].
  reflexivity.
Qed.

(** Bounds on the probability from bounds on what it reads. *)
Lemma approval_probability_bounds (score compliance : Z) (turnover margin : Q) (bonus : Q) :
  (380 <= score)%Z -> (15 <= compliance)%Z -> 0 <= turnover -> 5 <= margin ->
  5 <= bonus ->
  2895 # 100 <= py_min 95 (py_sum
      [ py_min 30 (inject_Z score / 25);
        py_min 25 (inject_Z compliance / 4);
        py_min 20 (turnover / 250000);
        py_min 15 margin;
        bonus ]) <= 95.
Proof.
  intros Hs Hc Ht Hm Hb.
  assert (H1 : 152 # 10 <= py_min 30 (inject_Z score / 25)).
  { unfold py_min. case_Qltb (inject_Z score / 25) 30; [| lra].
    apply Qle_shift_div_l; [reflexivity |]. unfold Qle. simpl. lia. }
  assert (H2 : 375 # 100 <= py_min 25 (inject_Z compliance / 4)).
  { unfold py_min. case_Qltb (inject_Z compliance / 4) 25; [| lra].
    apply Qle_shift_div_l; [reflexivity |]. unfold Qle. simpl. lia. }
  assert (H3 : 0 <= py_min 20 (turnover / 250000)).
  { unfold py_min. case_Qltb (turnover / 250000) 20; [| lra].
    apply Qle_shift_div_l; [reflexivity | lra]. }
  assert (H4 : 5 <= py_min 15 margin).
  { unfold py_min. case_Qltb margin 15; lra. }
  match goal with
  | |- context [py_sum ?l] => pose proof (py_sum_five _ _ _ _ _ : py_sum l == _) as E;
                              set (total := py_sum l) in *
  end.
  clearbody total. unfold py_min at 1 2. case_Qltb total 95; lra.
Qed.

(** ** What the page says about the score *)

(** X26. On the metrics aggregated from a monthly list with a non-negative
    annual turnover, the approval probability lies between 28.95 and 95. *)
Theorem approval_probability_range to_datetime now bd (ms : list Month.MonthlySummary) m :
  calculate_aggregate_metrics ms = Some m ->
  0 <= Metrics.annual_turnover m ->
  2895 # 100
  <= Loan.approval_probability (calculate_loan_eligibility to_datetime now bd (Some m))
  <= 95.
Proof.
  intros Hm Hturnover.
  pose proof (approval_probability_eq to_datetime now bd (Some m)) as Heq.
  pose proof (calculate_loan_eligibility_fields to_datetime now bd (Some m)) as (Hsg & _).
  pose proof (calculate_credit_score_floor to_datetime now bd ms m Hm) as Hfloor.
  rewrite Hsg in Hfloor. cbn [fst] in Hfloor.
  cbv zeta in Heq.
  set (r := calculate_loan_eligibility to_datetime now bd (Some m)) in *. clearbody r.
  rewrite Heq.
  apply approval_probability_bounds.
  - lia.
  - destruct (calculate_aggregate_metrics_fields ms m Hm)
      as (Hne & _ & _ & _ & _ & _ & _ & _ & _ & _ & _ & E11).
    simpl get_gst_compliance_score. rewrite E11.
    assert (Hlen : (1 <= Z.of_nat (length ms))%Z)
      by (destruct ms; [congruence | simpl length; lia]).
    destruct (Metrics.uses_standard_rates m); lia.
  - exact Hturnover.
  - exact (profit_margin_estimate_at_least_5 ms m Hm).
  - destruct (get_filing_frequency (Some m) >=? 6)%Z; lra.
Qed.

(** X27. The status the page shows beside the credit score is the grade the
    engine gave: Excellent, Good, Fair and Needs Improvement for excellent,
    good, fair and poor. *)
Theorem score_display_matches_grade to_datetime now bd gm :
  let r := calculate_loan_eligibility to_datetime now bd gm in
  snd (score_display (Loan.credit_score r))
  = match Loan.credit_grade_of r with
    | excellent => "Excellent"
    | good => "Good"
    | fair => "Fair"
    | poor => "Needs Improvement"
    end.
Proof.
  cbv zeta.
  pose proof (calculate_loan_eligibility_fields to_datetime now bd gm) as (Hsg & _).
  pose proof (calculate_credit_score_points to_datetime now bd gm) as Hpts.
  cbv zeta in Hpts.
  set (r := calculate_loan_eligibility to_datetime now bd gm) in *. clearbody r.
  rewrite Hsg in Hpts. injection Hpts as Hs Hg.
  rewrite Hg, Hs. unfold score_display, grade_of_score.
  repeat match goal with |- context [if ?c then _ else _] => destruct c end; reflexivity.
Qed.

Ltac split_summary :=
  unfold shows, strengths, improvements;
  rewrite ?Z.gtb_ltb, ?Z.geb_leb;
  repeat match goal with
         | |- context [if Z.ltb ?a ?b then _ else _] => destruct (Z.ltb_spec a b)
         | |- context [if Z.leb ?a ?b then _ else _] => destruct (Z.leb_spec a b)
         | |- context [if Qgtb ?a ?b then _ else _] => destruct (Qgtb a b)
         end;
  simpl; intuition (try discriminate; try lia).

Lemma shows_strong_compliance (m : Metrics.BusinessMetrics) (r : Loan.LoanAssessment) :
  shows (strengths m r) "Strong GST compliance record"
  <-> (70 < Metrics.gst_compliance_score m)%Z.
Proof. split_summary. Qed.

Lemma shows_consistent_filing (m : Metrics.BusinessMetrics) (r : Loan.LoanAssessment) :
  shows (strengths m r) "Consistent GST filing history"
  <-> (6 <= Metrics.filing_frequency m)%Z.
Proof. split_summary. Qed.

Lemma shows_good_profile (m : Metrics.BusinessMetrics) (r : Loan.LoanAssessment) :
  shows (strengths m r) "Good creditworthiness profile"
  <-> (650 < Loan.credit_score r)%Z.
Proof. split_summary. Qed.

Lemma shows_improve_filing (m : Metrics.BusinessMetrics) (r : Loan.LoanAssessment) :
  shows (improvements m r) "Improve GST filing consistency"
  <-> (Metrics.gst_compliance_score m < 60)%Z.
Proof. split_summary. Qed.

Lemma shows_build_history (m : Metrics.BusinessMetrics) (r : Loan.LoanAssessment) :
  shows (improvements m r) "Build stronger credit history"
  <-> (Loan.credit_score r < 600)%Z.
Proof. split_summary. Qed.

Lemma shows_maintain_filings (m : Metrics.BusinessMetrics) (r : Loan.LoanAssessment) :
  shows (improvements m r) "Maintain regular GST filings"
  <-> (Metrics.filing_frequency m < 6)%Z.
Proof. split_summary. Qed.

Lemma improvements_empty (m : Metrics.BusinessMetrics) (r : Loan.LoanAssessment) :
  improvements m r = []
  <-> (60 <= Metrics.gst_compliance_score m)%Z /\ (600 <= Loan.credit_score r)%Z /\
      (6 <= Metrics.filing_frequency m)%Z.
Proof.
  unfold improvements.
  destruct (Z.ltb_spec (Metrics.gst_compliance_score m) 60),
           (Z.ltb_spec (Loan.credit_score r) 600),
           (Z.ltb_spec (Metrics.filing_frequency m) 6); simpl;
    split; try discriminate; try lia; auto.
Qed.

(** X28. The summary of an assessment never contradicts itself: exactly one
    of "Consistent GST filing history" and "Maintain regular GST filings" is
    shown, "Good creditworthiness profile" and "Build stronger credit
    history" are never shown together, and for aggregated metrics "Improve
    GST filing consistency" comes only with "Maintain regular GST filings"
    while "Consistent GST filing history" comes with "Strong GST compliance
    record"; the list of improvements is empty exactly from six months of
    data with a credit score of at least 600. *)
Theorem summary_is_consistent (ms : list Month.MonthlySummary) m (r : Loan.LoanAssessment) :
  calculate_aggregate_metrics ms = Some m ->
  (shows (strengths m r) "Consistent GST filing history"
   <-> ~ shows (improvements m r) "Maintain regular GST filings") /\
  ~ (shows (strengths m r) "Good creditworthiness profile" /\
     shows (improvements m r) "Build stronger credit history") /\
  (shows (improvements m r) "Improve GST filing consistency" ->
   shows (improvements m r) "Maintain regular GST filings") /\
  (shows (strengths m r) "Consistent GST filing history" ->
   shows (strengths m r) "Strong GST compliance record") /\
  (improvements m r = []
   <-> (6 <= length ms)%nat /\ (600 <= Loan.credit_score r)%Z).
Proof.
  intros Hm.
  destruct (calculate_aggregate_metrics_fields ms m Hm)
    as (Hne & _ & _ & _ & _ & _ & _ & _ & E8 & _ & _ & E11).
  assert (Hlen : (1 <= length ms)%nat) by (destruct ms; [congruence | simpl; lia]).
  assert (Hscore : (Metrics.gst_compliance_score m < 60)%Z -> (length ms < 6)%nat)
    by (rewrite E11; destruct (Metrics.uses_standard_rates m); lia).
  assert (Hstrong : (6 <= length ms)%nat -> (70 < Metrics.gst_compliance_score m)%Z)
    by (rewrite E11; destruct (Metrics.uses_standard_rates m); lia).
  rewrite shows_strong_compliance, shows_consistent_filing, shows_good_profile,
    shows_improve_filing, shows_build_history, shows_maintain_filings,
    improvements_empty, E8.
  repeat split; lia.
Qed.


(** ** The further properties at worked inputs *)

(** X2 at one B2B upload of two invoices, assessed on 2026-01-01. *)
Lemma analyze_gst_data_outcomes_at_one_upload :
  exists r,
    analyze_gst_data simple_read_csv no_read_excel no_read_excel_upload iso_to_datetime lower
      (midnight 2026 1 1) (profile "trader" "2020-01-01" "Gujarat") one_month_uploads
    = inr r /\
    r <> CouldNotAnalyze /\
    (r = NeedSalesFile <->
     List.filter (is_b2b_name lower) one_month_uploads = [] /\
     List.filter (is_b2c_name lower) one_month_uploads = []) /\
    (forall ms m sr lr shown, r = Assessment ms m sr lr shown ->
       length ms = Nat.max (length (List.filter (is_b2b_name lower) one_month_uploads))
                           (length (List.filter (is_b2c_name lower) one_month_uploads)) /\
       (1 <= length ms)%nat /\
       Metrics.filing_frequency m = Z.of_nat (length ms)).
Proof.
  destruct (analyze_gst_data simple_read_csv no_read_excel no_read_excel_upload
              iso_to_datetime lower (midnight 2026 1 1) (profile "trader" "2020-01-01" "Gujarat")
              one_month_uploads) as [e | r] eqn:Hr.
  - vm_compute in Hr. discriminate Hr.
  - exists r. split; [reflexivity |].
    exact (analyze_gst_data_outcomes simple_read_csv no_read_excel no_read_excel_upload
             iso_to_datetime lower (midnight 2026 1 1) (profile "trader" "2020-01-01" "Gujarat")
             one_month_uploads r Hr).
Defined.

(** X4 at one month with two B2B invoices. *)
Lemma analyze_monthly_data_books_at_one_month :
  exists s,
    analyze_monthly_data "Month 1 (B2B)" b2b_one_month empty_frame empty_frame = inr s /\
    Month.total_sales s = Month.b2b_sales s + Month.b2c_sales s /\
    Month.month s = "Month 1 (B2B)" /\
    Month.b2b_transactions s = df_len b2b_one_month /\
    Month.b2c_transactions s = df_len empty_frame /\
    Month.purchase_transactions s = df_len empty_frame /\
    Month.gst_paid s = 0 /\
    Month.interstate_sales s = 0 /\
    Month.intrastate_sales s = 0.
Proof.
  eexists. split; [reflexivity |].
  apply (analyze_monthly_data_books "Month 1 (B2B)" b2b_one_month empty_frame empty_frame).
  reflexivity.
Defined.

(** X5 at one month with two B2B invoices at rate 18. *)
Lemma analyze_monthly_data_rates_at_one_month :
  exists s,
    analyze_monthly_data "Month 1 (B2B)" b2b_one_month empty_frame empty_frame = inr s /\
    pairwise_distinct (Month.tax_rates_used s) /\
    forall r, r ∈ Month.tax_rates_used s ->
      (exists c, getitem b2b_one_month "Rate" = inr c /\ Some r ∈ c) \/
      (exists c, getitem empty_frame "Rate" = inr c /\ Some r ∈ c).
Proof.
  eexists. split; [reflexivity |].
  apply (analyze_monthly_data_rates "Month 1 (B2B)" b2b_one_month empty_frame empty_frame).
  reflexivity.
Defined.

(** X6 at one month whose purchase table is the B2B table of the examples:
    it has the column Taxable Value, which is the one added up. *)
Lemma analyze_monthly_data_purchases_at_one_month :
  exists s,
    analyze_monthly_data "Month 1" empty_frame empty_frame b2b_one_month = inr s /\
    column_total b2b_one_month "Taxable Value" = inr (Month.total_purchases s).
Proof.
  eexists. split; [reflexivity |].
  apply (analyze_monthly_data_purchases "Month 1" empty_frame empty_frame b2b_one_month).
  reflexivity.
Defined.

(** X7 at one month with two B2B invoices: the recipient column holds text. *)
Lemma analyze_monthly_data_returns_at_one_month :
  NoDup (columns b2b_one_month) /\
  NoDup (columns empty_frame) /\
  numeric_columns ["Invoice Value"; "Taxable Value"; "Rate"] b2b_one_month /\
  numeric_columns ["Taxable Value"; "Rate"] empty_frame /\
  numeric_columns ["Taxable Value"; "Invoice Value"] empty_frame /\
  (df_empty b2b_one_month = false -> has_column "Invoice Value" b2b_one_month = true) /\
  (df_empty empty_frame = false -> has_column "Taxable Value" empty_frame = true) /\
  exists s, analyze_monthly_data "Month 1 (B2B)" b2b_one_month empty_frame empty_frame
            = inr s.
Proof.
  assert (Hnames : NoDup (columns b2b_one_month)).
  { apply (bool_decide_unpack _). reflexivity. }
  assert (Hnames0 : NoDup (columns empty_frame)) by constructor.
  assert (Hb2b : numeric_columns ["Invoice Value"; "Taxable Value"; "Rate"] b2b_one_month).
  { intros name c [<- | [<- | [<- | []]]] [= <-]; repeat constructor. }
  assert (Hnone : forall names, numeric_columns names empty_frame).
  { intros names name c _ Hc. discriminate Hc. }
  assert (Hiv : df_empty b2b_one_month = false ->
                has_column "Invoice Value" b2b_one_month = true) by reflexivity.
  assert (Htv : df_empty empty_frame = false ->
                has_column "Taxable Value" empty_frame = true) by discriminate.
  split; [exact Hnames |]. split; [exact Hnames0 |].
  split; [exact Hb2b |]. split; [apply Hnone |]. split; [apply Hnone |].
  split; [exact Hiv |]. split; [exact Htv |].
  exact (analyze_monthly_data_returns "Month 1 (B2B)" b2b_one_month empty_frame empty_frame
           Hnames Hnames0 Hnames0 Hb2b (Hnone _) (Hnone _) Hiv Htv).
Defined.

(** X8 at a file whose header pads the second name with spaces. *)
Lemma sales_parsers_find_stripped_names_at_padded_header :
  (forall df n, simple_read_csv purchase_csv_padded_header = inr df ->
                n ∈ columns df -> ascii_text n = true) /\
  (has_column "Taxable Value"
     (fst (parse_b2b_file simple_read_csv purchase_csv_padded_header)) = true
   <-> exists df n, simple_read_csv purchase_csv_padded_header = inr df /\
                    n ∈ columns df /\ strip n = "Taxable Value") /\
  (has_column "Taxable Value"
     (fst (parse_b2c_file simple_read_csv purchase_csv_padded_header)) = true
   <-> exists df n, simple_read_csv purchase_csv_padded_header = inr df /\
                    n ∈ columns df /\ strip n = "Taxable Value").
Proof.
  assert (Hascii : forall df n, simple_read_csv purchase_csv_padded_header = inr df ->
                                n ∈ columns df -> ascii_text n = true).
  { intros df n [= <-] Hn.
    apply elem_of_cons in Hn as [-> | Hn]; [reflexivity |].
    apply elem_of_cons in Hn as [-> | Hn]; [reflexivity |].
    inversion Hn. }
  split; [exact Hascii |].
  exact (sales_parsers_find_stripped_names simple_read_csv purchase_csv_padded_header
           "Taxable Value" Hascii).
Defined.

(** X9 at a month whose only upload is a B2B file without content. *)
Lemma process_month_unreadable_b2b_at_empty_upload :
  [empty_b2b_upload] !! 0%nat = Some empty_b2b_upload /\
  @nil UploadedFile !! 0%nat = None /\
  file_text empty_b2b_upload = inr "" /\
  simple_read_csv "" = inl ParserError /\
  process_month simple_read_csv no_read_excel no_read_excel_upload
    [empty_b2b_upload] [] [] 0
  = inr (initial_analysis (month_name_of 0 (Some empty_b2b_upload) None)
           empty_frame empty_frame empty_frame,
         [StError "Error parsing B2B file: " ParserError]).
Proof.
  repeat (split; [reflexivity |]).
  apply (process_month_unreadable_b2b simple_read_csv no_read_excel no_read_excel_upload
           [empty_b2b_upload] [] [] 0%nat empty_b2b_upload "" ParserError); reflexivity.
Defined.

(** X10 at one month whose only rate is 18. *)
Lemma uses_standard_rates_iff_at_one_month :
  exists m,
    calculate_aggregate_metrics [sample_month] = Some m /\
    (Metrics.uses_standard_rates m = true
     <-> forall s, s ∈ [sample_month] ->
           forall r, r ∈ Month.tax_rates_used s -> standard_rate r).
Proof.
  eexists. split; [reflexivity |].
  apply (uses_standard_rates_iff [sample_month]). reflexivity.
Defined.


(** X12 at one month with B2B sales only. *)
Lemma percentages_within_0_100_at_one_month :
  Forall (fun s => 0 <= Month.b2b_sales s /\ 0 <= Month.b2c_sales s /\
                   Month.total_sales s == Month.b2b_sales s + Month.b2c_sales s)
         [sample_month] /\
  exists m,
    calculate_aggregate_metrics [sample_month] = Some m /\
    0 <= Metrics.b2b_percentage m <= 100 /\ 0 <= Metrics.b2c_percentage m <= 100.
Proof.
  assert (Hbooks :
    Forall (fun s => 0 <= Month.b2b_sales s /\ 0 <= Month.b2c_sales s /\
                     Month.total_sales s == Month.b2b_sales s + Month.b2c_sales s)
           [sample_month]).
  { repeat constructor; simpl; try discriminate. }
  split; [exact Hbooks |].
  eexists. split; [reflexivity |].
  apply (percentages_within_0_100 [sample_month]); [exact Hbooks | reflexivity].
Defined.


(** X14 at one month of data. *)
Lemma gst_compliance_score_saturation_at_one_month :
  exists m,
    calculate_aggregate_metrics [sample_month] = Some m /\
    (15 <= Metrics.gst_compliance_score m)%Z /\
    (Metrics.gst_compliance_score m = 100%Z
     <-> (7 <= length [sample_month])%nat \/
         (4 <= length [sample_month])%nat /\ Metrics.uses_standard_rates m = true).
Proof.
  eexists. split; [reflexivity |].
  apply (gst_compliance_score_saturation [sample_month]). reflexivity.
Defined.

(** X15 at the gem_platform verdict of a trader. *)
Lemma verdicts_copy_catalog_at_gem_platform :
  exists results v,
    assess_scheme_eligibility iso_to_datetime lower
      (profile "trader" "2020-01-01" "Gujarat") (Some (sample_metrics 1200000))
    = inr results /\
    results !! "gem_platform" = Some v /\
    exists info, schemes !! "gem_platform" = Some info /\
      scheme_name v = name info /\ verdict_url v = url info.
Proof.
  do 2 eexists. split; [reflexivity |]. split; [reflexivity |].
  eapply (verdicts_copy_catalog iso_to_datetime lower
            (profile "trader" "2020-01-01" "Gujarat") (Some (sample_metrics 1200000)));
    reflexivity.
Defined.

(** X17 at a startup incorporated on 2018-05-01. *)
Lemma type_based_schemes_exclusive_at_startup :
  exists results,
    assess_scheme_eligibility iso_to_datetime lower
      (profile "startup" "2018-05-01" "Gujarat") (Some (sample_metrics 1200000))
    = inr results /\
    (eligible_for results "advance_authorisation" ->
     ~ eligible_for results "pmmy_loans" /\
     ~ eligible_for results "gst_composition" /\
     ~ eligible_for results "startup_tax_benefits") /\
    (eligible_for results "startup_tax_benefits" ->
     ~ eligible_for results "pmmy_loans" /\
     ~ eligible_for results "gst_composition") /\
    (eligible_count results <= 4)%nat.
Proof.
  eexists. split; [reflexivity |].
  apply (type_based_schemes_exclusive iso_to_datetime lower
           (profile "startup" "2018-05-01" "Gujarat") (Some (sample_metrics 1200000))).
  reflexivity.
Defined.

(** X18 at one month of data of a trader. *)
Lemma history_based_schemes_at_one_month :
  exists m results,
    calculate_aggregate_metrics [sample_month] = Some m /\
    assess_scheme_eligibility iso_to_datetime lower
      (profile "trader" "2020-01-01" "Gujarat") (Some m) = inr results /\
    (eligible_for results "gem_platform" <-> (3 <= length [sample_month])%nat) /\
    (eligible_for results "digital_lending"
     <-> 500000 < Metrics.annual_turnover m /\
         (Metrics.uses_standard_rates m = true \/ (5 <= length [sample_month])%nat)).
Proof.
  do 2 eexists. split; [reflexivity |]. split; [reflexivity |].
  apply (history_based_schemes iso_to_datetime lower
           (profile "trader" "2020-01-01" "Gujarat") [sample_month]); reflexivity.
Defined.

(** X20 at one month of data, assessed on 2026-01-01. *)
Lemma credit_score_at_least_380_at_one_month :
  exists m,
    calculate_aggregate_metrics [sample_month] = Some m /\
    (380 <= Loan.credit_score
              (calculate_loan_eligibility iso_to_datetime (midnight 2026 1 1)
                 (profile "trader" "2020-01-01" "Gujarat") (Some m))
         <= 900)%Z /\
    (325 <= Loan.credit_score
              (calculate_loan_eligibility iso_to_datetime (midnight 2026 1 1)
                 (profile "trader" "2020-01-01" "Gujarat") None)
         <= 425)%Z.
Proof.
  eexists. split; [reflexivity |].
  apply (credit_score_at_least_380 iso_to_datetime (midnight 2026 1 1)
           (profile "trader" "2020-01-01" "Gujarat") [sample_month]).
  reflexivity.
Defined.

(** X23 at an annual turnover of 1,200,000. *)
Lemma loan_amounts_range_at_trader :
  0 <= get_annual_turnover (Some (sample_metrics 1200000)) /\
  let r := calculate_loan_eligibility iso_to_datetime (midnight 2026 1 1)
             (profile "trader" "2020-01-01" "Gujarat")
             (Some (sample_metrics 1200000)) in
  (12 # 100) * get_annual_turnover (Some (sample_metrics 1200000))
    <= Loan.max_loan_amount r
    <= (36 # 100) * get_annual_turnover (Some (sample_metrics 1200000)) /\
  0 <= Loan.recommended_amount r /\
  Loan.recommended_amount r <= Loan.max_loan_amount r /\
  Loan.recommended_amount r <= 1000000 /\
  (Loan.recommended_amount r == Loan.max_loan_amount r
   \/ Loan.recommended_amount r == 1000000).
Proof.
  assert (Hturnover : 0 <= get_annual_turnover (Some (sample_metrics 1200000)))
    by discriminate.
  split; [exact Hturnover |].
  exact (loan_amounts_range iso_to_datetime (midnight 2026 1 1)
           (profile "trader" "2020-01-01" "Gujarat")
           (Some (sample_metrics 1200000)) Hturnover).
Defined.

(** X25 at a loan of 500,000. *)
Lemma total_interest_positive_at_500000 :
  0 < 500000 /\
  let r := calculate_loan_eligibility iso_to_datetime (midnight 2026 1 1)
             (profile "trader" "2020-01-01" "Gujarat")
             (Some (sample_metrics 1200000)) in
  0 < fst (fst (loan_calculator r 500000)) /\
  0 < snd (fst (loan_calculator r 500000)) /\
  (0 < Loan.recommended_amount r ->
   0 < Loan.monthly_emi r /\ 0 < Loan.total_interest r).
Proof.
  assert (Hamount : 0 < 500000) by reflexivity.
  split; [exact Hamount |].
  exact (total_interest_positive iso_to_datetime (midnight 2026 1 1)
           (profile "trader" "2020-01-01" "Gujarat")
           (Some (sample_metrics 1200000)) 500000 Hamount).
Defined.

(** X26 at one month of data, assessed on 2026-01-01. *)
Lemma approval_probability_range_at_one_month :
  exists m,
    calculate_aggregate_metrics [sample_month] = Some m /\
    0 <= Metrics.annual_turnover m /\
    2895 # 100
    <= Loan.approval_probability
         (calculate_loan_eligibility iso_to_datetime (midnight 2026 1 1)
            (profile "trader" "2020-01-01" "Gujarat") (Some m))
    <= 95.
Proof.
  eexists. split; [reflexivity |].
  assert (Hturnover : 0 <= 100000 / inject_Z (Z.of_nat 1) * 12) by discriminate.
  split; [exact Hturnover |].
  apply (approval_probability_range iso_to_datetime (midnight 2026 1 1)
           (profile "trader" "2020-01-01" "Gujarat") [sample_month]);
    [reflexivity | exact Hturnover].
Defined.

(** X28 at one month of data, assessed on 2026-01-01. *)
Lemma summary_is_consistent_at_one_month :
  exists m,
    calculate_aggregate_metrics [sample_month] = Some m /\
    let r := calculate_loan_eligibility iso_to_datetime (midnight 2026 1 1)
               (profile "trader" "2020-01-01" "Gujarat") (Some m) in
    (shows (strengths m r) "Consistent GST filing history"
     <-> ~ shows (improvements m r) "Maintain regular GST filings") /\
    ~ (shows (strengths m r) "Good creditworthiness profile" /\
       shows (improvements m r) "Build stronger credit history") /\
    (shows (improvements m r) "Improve GST filing consistency" ->
     shows (improvements m r) "Maintain regular GST filings") /\
    (shows (strengths m r) "Consistent GST filing history" ->
     shows (strengths m r) "Strong GST compliance record") /\
    (improvements m r = []
     <-> (6 <= length [sample_month])%nat /\ (600 <= Loan.credit_score r)%Z).
Proof.
  eexists. split; [reflexivity |].
  apply (summary_is_consistent [sample_month]). reflexivity.
Defined.
